(** * Expense-Tracker: the derived-aggregate engine

  A shallow embedding of [src/utils/calculations.ts] (the aggregation
  functions) and of the provider in [src/contexts/DataContext.tsx] (the
  coordinator that keeps account totals and savings goals in step with the
  income and expense arrays), followed by the properties proved of them.

  JavaScript numbers are IEEE-754 binary64 values; they are modelled by
  Rocq's primitive floats, so every arithmetic step below rounds exactly as
  the program does. *)

From Stdlib Require Import Floats ZArith String Ascii List Bool Lia.
From Stdlib Require Import Permutation Sorted.
Import ListNotations.

Local Open Scope string_scope.
Local Open Scope list_scope.

(** ** JavaScript numbers and the few built-ins the program uses *)

Module JS.

Definition number := float.

(** [a > b] and [a >= b] on numbers: false as soon as one side is NaN. *)
Definition gt (a b : number) : bool := PrimFloat.ltb b a.
Definition ge (a b : number) : bool := PrimFloat.leb b a.

(** [Math.max(a, b)]: NaN if either argument is NaN; [+0] is larger
  than [-0]. *)
Definition Math_max (a b : number) : number :=
  if is_nan a || is_nan b then nan
  else if PrimFloat.ltb a b then b
  else if PrimFloat.ltb b a then a
  else if is_zero a && get_sign a then b
  else a.

(** [Number(x) || 0] for [x] already a number: NaN and both zeros are
  falsy. *)
Definition or0 (x : number) : number :=
  if is_nan x || is_zero x then 0%float else x.

(** Truthiness of an optional string ([undefined] and [""] are falsy). *)
Definition truthy (s : option string) : bool :=
  match s with
  | None => false
  | Some s => negb (String.eqb s "")
  end.

(** A [Date] is its time value in milliseconds since the epoch, or
  [None] for an Invalid Date (time value NaN). *)
Definition Date := option Z.

(** Relational comparison of two dates goes through their time values. *)
Definition date_ge (a b : Date) : bool :=
  match a, b with
  | Some x, Some y => (y <=? x)%Z
  | _, _ => false
  end.
Definition date_le (a b : Date) : bool := date_ge b a.

(** [a.getTime() - b.getTime()], NaN ([None]) when a date is invalid. *)
Definition time_diff (a b : Date) : option Z :=
  match a, b with
  | Some x, Some y => Some (x - y)%Z
  | _, _ => None
  end.

(** [Array.prototype.sort(cmp)] is a stable sort; a comparator result that
  is NaN counts as 0.  Stable insertion gives the same array. *)
Section Sort.
Context {A : Type} (cmp : A -> A -> option Z).

Definition before (x y : A) : bool :=
  match cmp x y with
  | Some d => (d <? 0)%Z
  | None => false
  end.

Fixpoint insert (x : A) (l : list A) : list A :=
  match l with
  | [] => [x]
  | y :: l' => if before x y then x :: y :: l' else y :: insert x l'
  end.

Definition sort (l : list A) : list A :=
  fold_left (fun acc x => insert x acc) l [].
End Sort.

(** [Array.prototype.find]. *)
Definition find {A : Type} (p : A -> bool) (l : list A) : option A :=
  List.find p l.

(** ASCII part of [String.prototype.toLowerCase]. *)
Definition lower_ascii (c : ascii) : ascii :=
  let n := nat_of_ascii c in
  if (65 <=? n)%nat && (n <=? 90)%nat then ascii_of_nat (n + 32) else c.

Fixpoint toLowerCase_ascii (s : string) : string :=
  match s with
  | EmptyString => EmptyString
  | String c s' => String (lower_ascii c) (toLowerCase_ascii s')
  end.

End JS.

(** ** Entities

  [src/types] is outside the files verified here; the records carry the
  fields that the code reads and writes. *)

(** Modelled from the spec: the [frequency] union of [src/types]
  ("frequency in {none, monthly, yearly, one-time}"). *)
Inductive Frequency := NoFrequency | Monthly | Yearly | OneTime.

Definition Frequency_eqb (a b : Frequency) : bool :=
  match a, b with
  | NoFrequency, NoFrequency | Monthly, Monthly
  | Yearly, Yearly | OneTime, OneTime => true
  | _, _ => false
  end.

(** Modelled from the spec: the [period] union of a budget
  ("period in {monthly, yearly}"). *)
Inductive Period := PMonthly | PYearly.

Definition Period_eqb (a b : Period) : bool :=
  match a, b with
  | PMonthly, PMonthly | PYearly, PYearly => true
  | _, _ => false
  end.

Module BankAccount.
(** Modelled from the spec: interface [BankAccount] of [src/types]. *)
Record t := mk {
  id : string;
  userId : string;
  bankName : string;
  bankId : string;
  nickname : option string;
  createdAt : string;
  startingBalance : JS.number;
  totalIncome : JS.number;
  totalExpense : JS.number;
  currentBalance : JS.number
  }.

(** [{ ...account, totalIncome, totalExpense, currentBalance }] *)
Definition with_totals (a : t) (ti te cb : JS.number) : t :=
  mk (id a) (userId a) (bankName a) (bankId a) (nickname a) (createdAt a)
       (startingBalance a) ti te cb.
End BankAccount.

Module Income.
(** Modelled from the spec: interface [Income] of [src/types]. *)
Record t := mk {
  id : string;
  userId : string;
  bankAccountId : string;
  source : string;
  amount : JS.number;
  frequency : Frequency;
  date : string;
  description : option string
  }.
End Income.

Module Expense.
(** Modelled from the spec: interface [Expense] of [src/types]. *)
Record t := mk {
  id : string;
  userId : string;
  bankAccountId : string;
  category : string;
  amount : JS.number;
  date : string;
  description : option string;
  isRecurring : bool;
  frequency : Frequency;
  nextDueDate : option string
  }.
End Expense.

Module Budget.
(** Modelled from the spec: interface [Budget] of [src/types]. *)
Record t := mk {
  id : string;
  userId : string;
  category : string;
  budgetAmount : JS.number;
  period : Period;
  alertThreshold : JS.number
  }.
End Budget.

Module SavingsGoal.
(** Modelled from the spec: interface [SavingsGoal] of [src/types];
  [bankAccountId] and [autoTrackedAmount] are optional. *)
Record t := mk {
  id : string;
  userId : string;
  title : string;
  targetAmount : JS.number;
  bankAccountId : option string;
  autoTrackedAmount : option JS.number
  }.

(** [{ ...goal, autoTrackedAmount: v }] *)
Definition with_auto (g : t) (v : JS.number) : t :=
  mk (id g) (userId g) (title g) (targetAmount g) (bankAccountId g) (Some v).
End SavingsGoal.

Module FinancialSummary.
(** The fields of the object that both summary functions return. *)
Record t := mk {
  totalIncome : JS.number;
  totalExpenses : JS.number;
  savings : JS.number;
  savingsRate : JS.number;
  monthlyBudgetUsed : JS.number;
  monthlyBudgetRemaining : JS.number;
  upcomingBills : list Expense.t
  }.
End FinancialSummary.

(** ** The date-fns functions the program imports *)

Class DateFns := {
  parseISO : string -> JS.Date;
  startOfMonth : JS.Date -> JS.Date;
  endOfMonth : JS.Date -> JS.Date;
  addMonths : JS.Date -> Z -> JS.Date;
  (* isWithinInterval d start end  is  isWithinInterval(d, { start, end }) *)
  isWithinInterval : JS.Date -> JS.Date -> JS.Date -> bool
}.

(** ** Aggregation engine ([src/utils/calculations.ts])

    [now] is the value of [new Date()] at the call: the default of every
    [date] parameter and the clock read by [getUpcomingBills].  An omitted
    optional argument is [None]. *)

Section Calculations.
Context `{DateFns}.
Variable now : Z.

Definition date_or_now (date : option JS.Date) : JS.Date :=
  match date with
  | Some d => d
  | None => Some now
  end.

Definition calculateMonthlyIncome (incomes : list Income.t)
    (date : option JS.Date) : JS.number :=
  let date := date_or_now date in
  let monthStart := startOfMonth date in
  let monthEnd := endOfMonth date in
  fold_left (fun total income =>
    let incomeDate := parseISO (Income.date income) in
    if Frequency_eqb (Income.frequency income) Monthly then
      (total + Income.amount income)%float
    else if Frequency_eqb (Income.frequency income) Yearly then
      (total + Income.amount income / 12)%float
    else if Frequency_eqb (Income.frequency income) OneTime
            && JS.date_ge incomeDate monthStart
            && JS.date_le incomeDate monthEnd then
      (total + Income.amount income)%float
    else total) incomes 0%float.

(** The reducer shared, textually, by [calculateMonthlyExpenses] and
    [calculateCategoryExpenses]. *)
Definition expense_step (monthStart monthEnd : JS.Date)
    (total : JS.number) (expense : Expense.t) : JS.number :=
  let expenseDate := parseISO (Expense.date expense) in
  if Expense.isRecurring expense
     && Frequency_eqb (Expense.frequency expense) Monthly then
    (total + Expense.amount expense)%float
  else if Expense.isRecurring expense
          && Frequency_eqb (Expense.frequency expense) Yearly then
    (total + Expense.amount expense / 12)%float
  else if negb (Expense.isRecurring expense)
          && isWithinInterval expenseDate monthStart monthEnd then
    (total + Expense.amount expense)%float
  else total.

Definition calculateMonthlyExpenses (expenses : list Expense.t)
    (date : option JS.Date) : JS.number :=
  let date := date_or_now date in
  let monthStart := startOfMonth date in
  let monthEnd := endOfMonth date in
  fold_left (expense_step monthStart monthEnd) expenses 0%float.

Definition calculateCategoryExpenses (expenses : list Expense.t)
    (category : string) (date : option JS.Date) : JS.number :=
  let date := date_or_now date in
  let monthStart := startOfMonth date in
  let monthEnd := endOfMonth date in
  fold_left (expense_step monthStart monthEnd)
    (filter (fun expense => String.eqb (Expense.category expense) category)
            expenses)
    0%float.

(** [parseISO(expense.nextDueDate!)]; parsing [undefined] gives an Invalid
    Date. *)
Definition dueDate (expense : Expense.t) : JS.Date :=
  match Expense.nextDueDate expense with
  | Some s => parseISO s
  | None => None
  end.

(** The parameter [daysAhead] (default 7) is accepted and never read: the
    window ends at [addMonths(now, 1)]. *)
Definition getUpcomingBills (expenses : list Expense.t)
    (daysAhead : option JS.number) : list Expense.t :=
  let now' : JS.Date := Some now in
  let futureDate := addMonths now' 1 in
  JS.sort (fun a b => JS.time_diff (dueDate a) (dueDate b))
    (filter (fun expense =>
               JS.date_ge (dueDate expense) now'
               && JS.date_le (dueDate expense) futureDate)
       (filter (fun expense =>
                  Expense.isRecurring expense
                  && JS.truthy (Expense.nextDueDate expense))
          expenses)).

Definition monthlyBudgetOf (budgets : list Budget.t) : JS.number :=
  fold_left (fun total budget => (total + Budget.budgetAmount budget)%float)
    (filter (fun budget => Period_eqb (Budget.period budget) PMonthly) budgets)
    0%float.

Definition calculateFinancialSummary (incomes : list Income.t)
    (expenses : list Expense.t) (budgets : list Budget.t)
    (date : option JS.Date) : FinancialSummary.t :=
  let totalIncome := calculateMonthlyIncome incomes date in
  let totalExpenses := calculateMonthlyExpenses expenses date in
  let savings := (totalIncome - totalExpenses)%float in
  let savingsRate :=
    if JS.gt totalIncome 0%float then (savings / totalIncome * 100)%float
    else 0%float in
  let monthlyBudget := monthlyBudgetOf budgets in
  let monthlyBudgetUsed := totalExpenses in
  let monthlyBudgetRemaining := (monthlyBudget - monthlyBudgetUsed)%float in
  let upcomingBills := getUpcomingBills expenses None in
  FinancialSummary.mk totalIncome totalExpenses savings savingsRate
    monthlyBudgetUsed monthlyBudgetRemaining upcomingBills.

Definition calculateFinancialSummaryWithAccount (incomes : list Income.t)
    (expenses : list Expense.t) (budgets : list Budget.t)
    (selectedAccount : option BankAccount.t)
    (date : option JS.Date) : FinancialSummary.t :=
  let totalIncome :=
    match selectedAccount with
    | Some a => BankAccount.totalIncome a
    | None => 0%float
    end in
  let totalExpenses := calculateMonthlyExpenses expenses date in
  let savings := (totalIncome - totalExpenses)%float in
  let savingsRate :=
    if JS.gt totalIncome 0%float then (savings / totalIncome * 100)%float
    else 0%float in
  let monthlyBudget := monthlyBudgetOf budgets in
  let monthlyBudgetUsed := totalExpenses in
  let monthlyBudgetRemaining := (monthlyBudget - monthlyBudgetUsed)%float in
  let upcomingBills := getUpcomingBills expenses None in
  FinancialSummary.mk totalIncome totalExpenses savings savingsRate
    monthlyBudgetUsed monthlyBudgetRemaining upcomingBills.

Definition calculateBudgetProgress (expenses : list Expense.t)
    (budget : Budget.t) (date : option JS.Date) : JS.number :=
  let categoryExpenses :=
    calculateCategoryExpenses expenses (Budget.category budget) date in
  if JS.gt (Budget.budgetAmount budget) 0%float then
    (categoryExpenses / Budget.budgetAmount budget * 100)%float
  else 0%float.

End Calculations.

(** ** A concrete calendar: date-fns in the UTC time zone

    The aggregation functions are stated over any [DateFns]; this instance
    is the one used to run them on concrete transactions.  It covers the two
    ISO-8601 shapes the application stores: a calendar date [YYYY-MM-DD] and
    the output of [Date.prototype.toISOString]. *)

Module UTC.
Local Open Scope Z_scope.

Definition msPerDay : Z := 86400000.

(** Days between 1970-01-01 and the proleptic Gregorian date [y-m-d]. *)
Definition days_from_civil (y m d : Z) : Z :=
  let y' := if m <=? 2 then y - 1 else y in
  let era := y' / 400 in
  let yoe := y' - era * 400 in
  let mp := if m <=? 2 then m + 9 else m - 3 in
  let doy := (153 * mp + 2) / 5 + d - 1 in
  let doe := yoe * 365 + yoe / 4 - yoe / 100 + doy in
  era * 146097 + doe - 719468.

(** The inverse: year, month and day of a day count. *)
Definition civil_from_days (z : Z) : Z * Z * Z :=
  let z := z + 719468 in
  let era := z / 146097 in
  let doe := z - era * 146097 in
  let yoe := (doe - doe / 1460 + doe / 36524 - doe / 146096) / 365 in
  let doy := doe - (365 * yoe + yoe / 4 - yoe / 100) in
  let mp := (5 * doy + 2) / 153 in
  let d := doy - (153 * mp + 2) / 5 + 1 in
  let m := if mp <? 10 then mp + 3 else mp - 9 in
  let y := yoe + era * 400 in
  ((if m <=? 2 then y + 1 else y), m, d).

Definition daysInMonth (y m : Z) : Z :=
  (if m =? 12 then days_from_civil (y + 1) 1 1
   else days_from_civil y (m + 1) 1)
  - days_from_civil y m 1.

Definition startOfMonth (d : JS.Date) : JS.Date :=
  option_map (fun t =>
    let '(y, m, _) := civil_from_days (t / msPerDay) in
    days_from_civil y m 1 * msPerDay) d.

(** The last millisecond of the month. *)
Definition endOfMonth (d : JS.Date) : JS.Date :=
  option_map (fun t =>
    let '(y, m, _) := civil_from_days (t / msPerDay) in
    (days_from_civil y m 1 + daysInMonth y m) * msPerDay - 1) d.

(** Same time of day, [n] months later, the day clamped to the length of
    the target month. *)
Definition addMonths (d : JS.Date) (n : Z) : JS.Date :=
  option_map (fun t =>
    let '(y, m, dd) := civil_from_days (t / msPerDay) in
    let k := y * 12 + (m - 1) + n in
    let y2 := k / 12 in
    let m2 := k mod 12 + 1 in
    let d2 := Z.min dd (daysInMonth y2 m2) in
    days_from_civil y2 m2 d2 * msPerDay + t mod msPerDay) d.

(** False for an Invalid Date; the interval is always
    [startOfMonth d .. endOfMonth d] of one valid date in this program. *)
Definition isWithinInterval (d start end_ : JS.Date) : bool :=
  JS.date_ge d start && JS.date_le d end_.

Definition digit (c : ascii) : option Z :=
  let n := Z.of_nat (nat_of_ascii c) in
  if (48 <=? n) && (n <=? 57) then Some (n - 48) else None.

Fixpoint digits (s : string) (acc : Z) : option Z :=
  match s with
  | EmptyString => Some acc
  | String c s' =>
      match digit c with
      | Some d => digits s' (acc * 10 + d)
      | None => None
      end
  end.

(** The decimal number written in [len] characters from position [start]. *)
Definition field (s : string) (start len : nat) : option Z :=
  let sub := substring start len s in
  if Nat.eqb (String.length sub) len then digits sub 0 else None.

Definition char_is (s : string) (pos : nat) (c : string) : bool :=
  String.eqb (substring pos 1 s) c.

Definition parse_day (s : string) : option Z :=
  match field s 0 4, field s 5 2, field s 8 2 with
  | Some y, Some m, Some d =>
      if char_is s 4 "-" && char_is s 7 "-"
         && (1 <=? m) && (m <=? 12) && (1 <=? d) && (d <=? daysInMonth y m)
      then Some (days_from_civil y m d) else None
  | _, _, _ => None
  end.

Definition parse_time (s : string) : option Z :=
  match field s 11 2, field s 14 2, field s 17 2, field s 20 3 with
  | Some h, Some mi, Some sec, Some ms =>
      if char_is s 10 "T" && char_is s 13 ":" && char_is s 16 ":"
         && char_is s 19 "." && char_is s 23 "Z"
         && (h <? 24) && (mi <? 60) && (sec <? 60)
      then Some (((h * 60 + mi) * 60 + sec) * 1000 + ms) else None
  | _, _, _, _ => None
  end.

Definition parseISO (s : string) : JS.Date :=
  if Nat.eqb (String.length s) 10 then
    option_map (fun day => day * msPerDay) (parse_day s)
  else if Nat.eqb (String.length s) 24 then
    match parse_day s, parse_time s with
    | Some day, Some t => Some (day * msPerDay + t)
    | _, _ => None
    end
  else None.

#[global] Instance dateFns : DateFns := {
  parseISO := parseISO;
  startOfMonth := startOfMonth;
  endOfMonth := endOfMonth;
  addMonths := addMonths;
  isWithinInterval := isWithinInterval
}.

End UTC.

(** ** Consistency coordinator ([src/contexts/DataContext.tsx])

    The provider keeps its data in React state cells.  [State.t] is one
    render's view of those cells; a handler created by that render reads the
    cells through its closure and writes them through the setters. *)

Module State.
Record t := mk {
  user : option string;
  bankAccounts : list BankAccount.t;
  selectedBankAccount : option BankAccount.t;
  incomes : list Income.t;
  expenses : list Expense.t;
  budgets : list Budget.t;
  savingsGoals : list SavingsGoal.t;
  loading : bool;
  totalIncome : JS.number;
  totalExpense : JS.number;
  monthlySavings : JS.number
}.

Definition set_bankAccounts (v : list BankAccount.t) (s : t) : t :=
  mk (user s) v (selectedBankAccount s) (incomes s) (expenses s) (budgets s)
     (savingsGoals s) (loading s) (totalIncome s) (totalExpense s)
     (monthlySavings s).
Definition set_selectedBankAccount (v : option BankAccount.t) (s : t) : t :=
  mk (user s) (bankAccounts s) v (incomes s) (expenses s) (budgets s)
     (savingsGoals s) (loading s) (totalIncome s) (totalExpense s)
     (monthlySavings s).
Definition set_incomes (v : list Income.t) (s : t) : t :=
  mk (user s) (bankAccounts s) (selectedBankAccount s) v (expenses s)
     (budgets s) (savingsGoals s) (loading s) (totalIncome s) (totalExpense s)
     (monthlySavings s).
Definition set_expenses (v : list Expense.t) (s : t) : t :=
  mk (user s) (bankAccounts s) (selectedBankAccount s) (incomes s) v
     (budgets s) (savingsGoals s) (loading s) (totalIncome s) (totalExpense s)
     (monthlySavings s).
Definition set_budgets (v : list Budget.t) (s : t) : t :=
  mk (user s) (bankAccounts s) (selectedBankAccount s) (incomes s)
     (expenses s) v (savingsGoals s) (loading s) (totalIncome s)
     (totalExpense s) (monthlySavings s).
Definition set_savingsGoals (v : list SavingsGoal.t) (s : t) : t :=
  mk (user s) (bankAccounts s) (selectedBankAccount s) (incomes s)
     (expenses s) (budgets s) v (loading s) (totalIncome s) (totalExpense s)
     (monthlySavings s).
Definition set_loading (v : bool) (s : t) : t :=
  mk (user s) (bankAccounts s) (selectedBankAccount s) (incomes s)
     (expenses s) (budgets s) (savingsGoals s) v (totalIncome s)
     (totalExpense s) (monthlySavings s).
Definition set_totalIncome (v : JS.number) (s : t) : t :=
  mk (user s) (bankAccounts s) (selectedBankAccount s) (incomes s)
     (expenses s) (budgets s) (savingsGoals s) (loading s) v (totalExpense s)
     (monthlySavings s).
Definition set_totalExpense (v : JS.number) (s : t) : t :=
  mk (user s) (bankAccounts s) (selectedBankAccount s) (incomes s)
     (expenses s) (budgets s) (savingsGoals s) (loading s) (totalIncome s) v
     (monthlySavings s).
Definition set_monthlySavings (v : JS.number) (s : t) : t :=
  mk (user s) (bankAccounts s) (selectedBankAccount s) (incomes s)
     (expenses s) (budgets s) (savingsGoals s) (loading s) (totalIncome s)
     (totalExpense s) v.

(** The cells as [useState] initialises them, for a session of [user]. *)
Definition initial (user : option string) : t :=
  mk user [] None [] [] [] [] true 0%float 0%float 0%float.
End State.

(** What the provider does to the outside: the calls into
    [src/utils/storage] (outside the files verified here) and the console. *)
Inductive Effect :=
| saveBankAccountToStorage (account : BankAccount.t)
| deleteBankAccountFromStorage (accountId uid : string)
| saveIncomeToStorage (income : Income.t)
| deleteIncomeFromStorage (incomeId : string)
| saveBudgetToStorage (budget : Budget.t)
| deleteBudgetFromStorage (budgetId : string)
| saveSavingsGoalToStorage (goal : SavingsGoal.t)
| deleteSavingsGoalFromStorage (goalId uid : string)
| console_warn (message arg : string).

Record World := mkWorld {
  state : State.t;
  effects : list Effect
}.

(** A handler body is a transformer of the world; [await] points are
    sequential composition (handlers run one at a time, to completion). *)
Definition Action := World -> World.

Definition skip : Action := fun w => w.
Definition seq (a b : Action) : Action := fun w => b (a w).
Notation "a ;; b" := (seq a b) (at level 61, right associativity).

Definition call (e : Effect) : Action :=
  fun w => mkWorld (state w) (effects w ++ [e]).

Definition setState (f : State.t -> State.t) : Action :=
  fun w => mkWorld (f (state w)) (effects w).

Fixpoint forEach {A : Type} (f : A -> Action) (l : list A) : Action :=
  match l with
  | [] => skip
  | x :: l' => f x ;; forEach f l'
  end.

(** The setters.  [setX(prev => ...)] applies its updater to the current
    cell, not to the closure's copy; an updater may run handler code before
    it returns the new value, hence the [Action] beside it. *)
Definition setBankAccounts
    (updater : list BankAccount.t -> list BankAccount.t) : Action :=
  setState (fun s => State.set_bankAccounts (updater (State.bankAccounts s)) s).

Definition setSelectedBankAccount (a : option BankAccount.t) : Action :=
  setState (State.set_selectedBankAccount a).

Definition setIncomes
    (updater : list Income.t -> list Income.t * Action) : Action :=
  fun w =>
    let '(updated, inside) := updater (State.incomes (state w)) in
    setState (State.set_incomes updated) (inside w).

Definition setExpenses
    (updater : list Expense.t -> list Expense.t * Action) : Action :=
  fun w =>
    let '(updated, inside) := updater (State.expenses (state w)) in
    setState (State.set_expenses updated) (inside w).

Definition setBudgets (updater : list Budget.t -> list Budget.t) : Action :=
  setState (fun s => State.set_budgets (updater (State.budgets s)) s).

Definition setSavingsGoals
    (updater : list SavingsGoal.t -> list SavingsGoal.t) : Action :=
  setState (fun s => State.set_savingsGoals (updater (State.savingsGoals s)) s).

Definition setLoading (b : bool) : Action := setState (State.set_loading b).
Definition setTotalIncome (v : JS.number) : Action :=
  setState (State.set_totalIncome v).
Definition setTotalExpense (v : JS.number) : Action :=
  setState (State.set_totalExpense v).
Definition setMonthlySavings (v : JS.number) : Action :=
  setState (State.set_monthlySavings v).

(** [{ ...data, id, userId }] for the three [Omit<_, 'id' | 'userId'>]
    arguments: the [id] and [userId] of the argument are never read. *)
Definition income_with_id (d : Income.t) (id uid : string) : Income.t :=
  Income.mk id uid (Income.bankAccountId d) (Income.source d)
    (Income.amount d) (Income.frequency d) (Income.date d)
    (Income.description d).

Definition expense_with_id (d : Expense.t) (id uid : string) : Expense.t :=
  Expense.mk id uid (Expense.bankAccountId d) (Expense.category d)
    (Expense.amount d) (Expense.date d) (Expense.description d)
    (Expense.isRecurring d) (Expense.frequency d) (Expense.nextDueDate d).

Definition budget_with_id (d : Budget.t) (id uid : string) : Budget.t :=
  Budget.mk id uid (Budget.category d) (Budget.budgetAmount d)
    (Budget.period d) (Budget.alertThreshold d).

(** [selectedBankAccount?.id === id] *)
Definition selected_is (cl : State.t) (id : string) : bool :=
  match State.selectedBankAccount cl with
  | Some a => String.eqb (BankAccount.id a) id
  | None => false
  end.

(** [!goal.bankAccountId || goal.bankAccountId === bankAccountId] *)
Definition in_scope (goal : SavingsGoal.t) (bankAccountId : string) : bool :=
  negb (JS.truthy (SavingsGoal.bankAccountId goal))
  || match SavingsGoal.bankAccountId goal with
     | Some b => String.eqb b bankAccountId
     | None => false
     end.

(** [items.reduce((sum, x) => sum + x.amount, 0)] *)
Definition sum_amounts {A : Type} (amount : A -> JS.number) (items : list A)
    : JS.number :=
  fold_left (fun sum x => (sum + amount x)%float) items 0%float.

(** [items.reduce((sum, x) => sum + (Number(x.amount) || 0), 0)] *)
Definition sum_amounts_or0 {A : Type} (amount : A -> JS.number)
    (items : list A) : JS.number :=
  fold_left (fun sum x => (sum + JS.or0 (amount x))%float) items 0%float.

Section Provider.
(** [String.prototype.toLowerCase] *)
Variable toLowerCase : string -> string.

(** Every definition below takes first the render [cl] whose closure the
    handler belongs to. *)

Definition updateBankAccount (cl : State.t) (account : BankAccount.t)
    : Action :=
  call (saveBankAccountToStorage account) ;;
  setBankAccounts
    (map (fun a =>
            if String.eqb (BankAccount.id a) (BankAccount.id account)
            then account else a)) ;;
  (if selected_is cl (BankAccount.id account)
   then setSelectedBankAccount (Some account) else skip).

Definition deleteBankAccount (cl : State.t) (accountId : string) : Action :=
  match State.user cl with
  | None => skip
  | Some uid =>
      call (deleteBankAccountFromStorage accountId uid) ;;
      setBankAccounts
        (filter (fun a => negb (String.eqb (BankAccount.id a) accountId))) ;;
      (if selected_is cl accountId then
         let remaining :=
           filter (fun a => negb (String.eqb (BankAccount.id a) accountId))
                  (State.bankAccounts cl) in
         setSelectedBankAccount (hd_error remaining)
       else skip)
  end.

Definition updateAutoTrackedSavingsForAccount (cl : State.t)
    (bankAccountId : string) (totalIncome totalExpense : JS.number) : Action :=
  let monthlySavings := (totalIncome - totalExpense)%float in
  let updatedGoals :=
    map (fun goal =>
           if in_scope goal bankAccountId
           then SavingsGoal.with_auto goal (JS.Math_max 0%float monthlySavings)
           else goal)
        (State.savingsGoals cl) in
  forEach (fun goal =>
             match SavingsGoal.autoTrackedAmount goal with
             | Some _ => call (saveSavingsGoalToStorage goal)
             | None => skip
             end) updatedGoals ;;
  setSavingsGoals (fun _ => updatedGoals).

Definition updateAllAutoTrackedSavings (cl : State.t) : Action :=
  match State.selectedBankAccount cl with
  | Some selected =>
      let monthlySavings :=
        (BankAccount.totalIncome selected
         - BankAccount.totalExpense selected)%float in
      let updatedGoals :=
        map (fun goal =>
               SavingsGoal.with_auto goal (JS.Math_max 0%float monthlySavings))
            (State.savingsGoals cl) in
      forEach (fun goal => call (saveSavingsGoalToStorage goal))
              updatedGoals ;;
      setSavingsGoals (fun _ => updatedGoals)
  | None => skip
  end.

Definition recalculateAndUpdateTotalsWithArray (cl : State.t)
    (bankAccountId : string) (incomesArray : list Income.t)
    (expensesArray : list Expense.t) : Action :=
  let accountIncomes :=
    filter (fun i => String.eqb (Income.bankAccountId i) bankAccountId)
           incomesArray in
  let accountExpenses :=
    filter (fun e => String.eqb (Expense.bankAccountId e) bankAccountId)
           expensesArray in
  let totalIncome := sum_amounts Income.amount accountIncomes in
  let totalExpense := sum_amounts Expense.amount accountExpenses in
  let currentBalance := (totalIncome - totalExpense)%float in
  match JS.find (fun a => String.eqb (BankAccount.id a) bankAccountId)
                (State.bankAccounts cl) with
  | Some account =>
      let updatedAccount :=
        BankAccount.with_totals account totalIncome totalExpense
                                currentBalance in
      updateBankAccount cl updatedAccount ;;
      updateAutoTrackedSavingsForAccount cl bankAccountId
        totalIncome totalExpense
  | None => skip
  end.

(** *** Income operations *)

Definition addIncome (cl : State.t) (newId : string) (incomeData : Income.t)
    : Action :=
  match State.user cl with
  | None => skip
  | Some uid =>
      let income := income_with_id incomeData newId uid in
      call (saveIncomeToStorage income) ;;
      setIncomes (fun prev =>
        let updated := prev ++ [income] in
        (updated,
         recalculateAndUpdateTotalsWithArray cl (Income.bankAccountId income)
           updated (State.expenses cl)))
  end.

Definition updateIncome (cl : State.t) (income : Income.t) : Action :=
  call (saveIncomeToStorage income) ;;
  setIncomes (fun prev =>
    let updated :=
      map (fun i => if String.eqb (Income.id i) (Income.id income)
                    then income else i) prev in
    (updated,
     recalculateAndUpdateTotalsWithArray cl (Income.bankAccountId income)
       updated (State.expenses cl))).

Definition deleteIncome (cl : State.t) (incomeId : string) : Action :=
  match JS.find (fun i => String.eqb (Income.id i) incomeId)
                (State.incomes cl) with
  | None => skip
  | Some income =>
      call (deleteIncomeFromStorage incomeId) ;;
      setIncomes (fun prev =>
        let updated :=
          filter (fun i => negb (String.eqb (Income.id i) incomeId)) prev in
        (updated,
         recalculateAndUpdateTotalsWithArray cl (Income.bankAccountId income)
           updated (State.expenses cl)))
  end.

(** *** Bank accounts

    [generateId()] and [new Date().toISOString()] are inputs: [newId] and
    [createdAt] for the account, [incomeId] and [incomeDate] for the seeded
    income.  An [Omit<BankAccount, ...>] argument is an account of which only
    [bankName], [nickname] and [startingBalance] are read. *)

Definition new_account (accountData : BankAccount.t)
    (newId uid createdAt : string) : BankAccount.t :=
  BankAccount.mk newId uid
    (BankAccount.bankName accountData)
    (BankAccount.bankName accountData)
    (BankAccount.nickname accountData)
    createdAt
    (BankAccount.startingBalance accountData)
    (BankAccount.startingBalance accountData)
    0%float
    (BankAccount.startingBalance accountData).

Definition initialIncome (account : BankAccount.t) (incomeDate : string)
    : Income.t :=
  Income.mk "" "" (BankAccount.id account) "Initial Balance"
    (BankAccount.startingBalance account) OneTime incomeDate
    (Some "Initial balance at account creation").

Definition addBankAccount (cl : State.t) (newId createdAt : string)
    (incomeId incomeDate : string) (accountData : BankAccount.t) : Action :=
  match State.user cl with
  | None => skip
  | Some uid =>
      let account := new_account accountData newId uid createdAt in
      call (saveBankAccountToStorage account) ;;
      setBankAccounts (fun prev => prev ++ [account]) ;;
      setSelectedBankAccount (Some account) ;;
      (if JS.gt (BankAccount.startingBalance accountData) 0%float
       then addIncome cl incomeId (initialIncome account incomeDate)
       else skip)
  end.

(** *** Expense operations (nothing is written to storage here) *)

Definition addExpense (cl : State.t) (newId : string)
    (expenseData : Expense.t) : Action :=
  match State.user cl with
  | None => skip
  | Some uid =>
      let expense := expense_with_id expenseData newId uid in
      setExpenses (fun prev =>
        let updated := prev ++ [expense] in
        (updated,
         recalculateAndUpdateTotalsWithArray cl
           (Expense.bankAccountId expense) (State.incomes cl) updated))
  end.

Definition updateExpense (cl : State.t) (expense : Expense.t) : Action :=
  setExpenses (fun prev =>
    let updated :=
      map (fun e => if String.eqb (Expense.id e) (Expense.id expense)
                    then expense else e) prev in
    (updated,
     recalculateAndUpdateTotalsWithArray cl (Expense.bankAccountId expense)
       (State.incomes cl) updated)).

Definition deleteExpense (cl : State.t) (expenseId : string) : Action :=
  let expense :=
    JS.find (fun e => String.eqb (Expense.id e) expenseId)
            (State.expenses cl) in
  setExpenses (fun prev =>
    let updated :=
      filter (fun e => negb (String.eqb (Expense.id e) expenseId)) prev in
    (updated,
     match expense with
     | Some expense =>
         recalculateAndUpdateTotalsWithArray cl
           (Expense.bankAccountId expense) (State.incomes cl) updated
     | None => skip
     end)).

(** *** Budget operations *)

Definition addBudget (cl : State.t) (newId : string) (budgetData : Budget.t)
    : Action :=
  match State.user cl with
  | None => skip
  | Some uid =>
      let budget := budget_with_id budgetData newId uid in
      call (saveBudgetToStorage budget) ;;
      setBudgets (fun prev => prev ++ [budget])
  end.

Definition updateBudget (budget : Budget.t) : Action :=
  call (saveBudgetToStorage budget) ;;
  setBudgets
    (map (fun b => if String.eqb (Budget.id b) (Budget.id budget)
                   then budget else b)).

Definition deleteBudget (budgetId : string) : Action :=
  call (deleteBudgetFromStorage budgetId) ;;
  setBudgets (filter (fun b => negb (String.eqb (Budget.id b) budgetId))).

(** *** Savings goals *)

(** The test of [savingsGoals.find(...)] in [addSavingsGoal]. *)
Definition same_goal (title uid : string) (goal : SavingsGoal.t) : bool :=
  String.eqb (toLowerCase (SavingsGoal.title goal)) (toLowerCase title)
  && String.eqb (SavingsGoal.userId goal) uid.

Definition addSavingsGoal (cl : State.t) (newId : string)
    (goalData : SavingsGoal.t) : Action :=
  match State.user cl with
  | None => skip
  | Some uid =>
      match JS.find (same_goal (SavingsGoal.title goalData) uid)
                    (State.savingsGoals cl) with
      | Some existingGoal =>
          call (console_warn "A goal with this title already exists:"
                             (SavingsGoal.title goalData))
      | None =>
          let monthlySavings :=
            match State.selectedBankAccount cl with
            | Some selected =>
                (BankAccount.totalIncome selected
                 - BankAccount.totalExpense selected)%float
            | None => 0%float
            end in
          let goal :=
            SavingsGoal.mk newId uid (SavingsGoal.title goalData)
              (SavingsGoal.targetAmount goalData)
              (SavingsGoal.bankAccountId goalData)
              (Some (JS.Math_max 0%float monthlySavings)) in
          call (saveSavingsGoalToStorage goal) ;;
          setSavingsGoals (fun prev => prev ++ [goal])
      end
  end.

Definition updateSavingsGoal (goal : SavingsGoal.t) : Action :=
  call (saveSavingsGoalToStorage goal) ;;
  setSavingsGoals
    (map (fun g => if String.eqb (SavingsGoal.id g) (SavingsGoal.id goal)
                   then goal else g)).

Definition deleteSavingsGoal (cl : State.t) (goalId : string) : Action :=
  match State.user cl with
  | None => skip
  | Some uid =>
      call (deleteSavingsGoalFromStorage goalId uid) ;;
      setSavingsGoals
        (filter (fun g => negb (String.eqb (SavingsGoal.id g) goalId)))
  end.

(** [removeDuplicateGoals]: the goals kept, in order, and what the loop did
    for the ones dropped.  The loop state is [(seen, uniqueGoals, done)]. *)
Definition goal_key (goal : SavingsGoal.t) : string :=
  (SavingsGoal.userId goal ++ "-" ++ toLowerCase (SavingsGoal.title goal))%string.

Definition dedup_step (cl : State.t)
    (acc : list string * list SavingsGoal.t * Action) (goal : SavingsGoal.t)
    : list string * list SavingsGoal.t * Action :=
  let '(seen, uniqueGoals, done) := acc in
  if existsb (String.eqb (goal_key goal)) seen then
    (seen, uniqueGoals,
     done ;;
     call (console_warn "Removing duplicate goal:" (SavingsGoal.title goal)) ;;
     match State.user cl with
     | Some uid =>
         call (deleteSavingsGoalFromStorage (SavingsGoal.id goal) uid)
     | None => skip
     end)
  else (goal_key goal :: seen, uniqueGoals ++ [goal], done).

Definition removeDuplicateGoals (cl : State.t) (goals : list SavingsGoal.t)
    : list SavingsGoal.t * Action :=
  let '(_, uniqueGoals, done) :=
    fold_left (dedup_step cl) goals ([], [], skip) in
  (uniqueGoals, done).

(** *** Loading

    The reads from storage ([getBankAccounts], [getIncomes], [getBudgets],
    [getSavingsGoals]) are inputs: what each read returned. *)

Definition refreshData (cl : State.t) (accounts : list BankAccount.t)
    (storedIncomes : list Income.t) (storedBudgets : list Budget.t)
    (storedGoals : list SavingsGoal.t) : Action :=
  match State.user cl with
  | None => skip
  | Some uid =>
      setBankAccounts (fun _ => accounts) ;;
      (match accounts, State.selectedBankAccount cl with
       | first :: _, None => setSelectedBankAccount (Some first)
       | _, _ => skip
       end) ;;
      setIncomes (fun _ => (storedIncomes, skip)) ;;
      setBudgets (fun _ => storedBudgets) ;;
      let '(deduplicatedGoals, done) := removeDuplicateGoals cl storedGoals in
      done ;;
      setSavingsGoals (fun _ => deduplicatedGoals)
  end.

(** The effect that runs when [selectedBankAccount] has changed. *)
Definition selectedAccountEffect (cl : State.t)
    (storedIncomes : list Income.t) (storedBudgets : list Budget.t)
    (storedGoals : list SavingsGoal.t) : Action :=
  match State.selectedBankAccount cl with
  | None => skip
  | Some _ =>
      (match State.user cl with
       | None => skip
       | Some uid =>
           setIncomes (fun _ => (storedIncomes, skip)) ;;
           setBudgets (fun _ => storedBudgets) ;;
           let '(deduplicatedGoals, done) :=
             removeDuplicateGoals cl storedGoals in
           done ;;
           setSavingsGoals (fun _ => deduplicatedGoals)
       end) ;;
      updateAllAutoTrackedSavings cl
  end.

(** *** The remote listeners

    A snapshot is the list of its documents; [{ id: doc.id, ...doc.data() }]
    takes the [id] from the data when the data has one. *)

Record Doc (A : Type) := mkDoc {
  doc_id : string;
  data_id : option string;
  data : A
}.
Arguments doc_id {A} _.
Arguments data_id {A} _.
Arguments data {A} _.

Definition decoded_id {A : Type} (doc : Doc A) : string :=
  match data_id doc with
  | Some id => id
  | None => doc_id doc
  end.

Definition expense_of_doc (doc : Doc Expense.t) : Expense.t :=
  expense_with_id (data doc) (decoded_id doc) (Expense.userId (data doc)).

Definition income_of_doc (doc : Doc Income.t) : Income.t :=
  income_with_id (data doc) (decoded_id doc) (Income.userId (data doc)).

(** The effect that subscribes: it only runs its body with a user and a
    selected account. *)
Definition subscribed (cl : State.t) : bool :=
  match State.user cl, State.selectedBankAccount cl with
  | Some _, Some _ => true
  | _, _ => false
  end.

Definition subscribeEffect (cl : State.t) : Action :=
  if subscribed cl then setLoading true else skip.

Definition onExpensesSnapshot (docs : list (Doc Expense.t)) : Action :=
  let expenseList := map expense_of_doc docs in
  setExpenses (fun _ => (expenseList, skip)) ;;
  setTotalExpense (sum_amounts_or0 Expense.amount expenseList) ;;
  setLoading false.

Definition onIncomesSnapshot (docs : list (Doc Income.t)) : Action :=
  let incomeList := map income_of_doc docs in
  setIncomes (fun _ => (incomeList, skip)) ;;
  setTotalIncome (sum_amounts_or0 Income.amount incomeList) ;;
  setLoading false.

(** The effect on [totalIncome, totalExpense]. *)
Definition monthlySavingsEffect : Action :=
  fun w =>
    setMonthlySavings
      (State.totalIncome (state w) - State.totalExpense (state w))%float w.

(** *** Sessions

    What can happen to a mounted provider: a call of one of the operations
    it publishes, or one of its effects and listeners firing.  Each runs in
    the closure of the latest render. *)

Inductive Command :=
| AddBankAccount (newId createdAt incomeId incomeDate : string)
                 (accountData : BankAccount.t)
| UpdateBankAccount (account : BankAccount.t)
| DeleteBankAccount (accountId : string)
| SetSelectedBankAccount (account : option BankAccount.t)
| AddIncome (newId : string) (incomeData : Income.t)
| UpdateIncome (income : Income.t)
| DeleteIncome (incomeId : string)
| AddExpense (newId : string) (expenseData : Expense.t)
| UpdateExpense (expense : Expense.t)
| DeleteExpense (expenseId : string)
| AddBudget (newId : string) (budgetData : Budget.t)
| UpdateBudget (budget : Budget.t)
| DeleteBudget (budgetId : string)
| AddSavingsGoal (newId : string) (goalData : SavingsGoal.t)
| UpdateSavingsGoal (goal : SavingsGoal.t)
| DeleteSavingsGoal (goalId : string)
| RefreshData (accounts : list BankAccount.t) (storedIncomes : list Income.t)
              (storedBudgets : list Budget.t)
              (storedGoals : list SavingsGoal.t)
| UpdateAutoTrackedSavingsForAccount (bankAccountId : string)
                                     (totalIncome totalExpense : JS.number)
| UpdateAllAutoTrackedSavings
| SelectedAccountEffect (storedIncomes : list Income.t)
                        (storedBudgets : list Budget.t)
                        (storedGoals : list SavingsGoal.t)
| SubscribeEffect
| ExpensesSnapshot (docs : list (Doc Expense.t))
| IncomesSnapshot (docs : list (Doc Income.t)).

Definition run (c : Command) : Action :=
  fun w =>
    let cl := state w in
    match c with
    | AddBankAccount newId createdAt incomeId incomeDate accountData =>
        addBankAccount cl newId createdAt incomeId incomeDate accountData w
    | UpdateBankAccount account => updateBankAccount cl account w
    | DeleteBankAccount accountId => deleteBankAccount cl accountId w
    | SetSelectedBankAccount account => setSelectedBankAccount account w
    | AddIncome newId incomeData => addIncome cl newId incomeData w
    | UpdateIncome income => updateIncome cl income w
    | DeleteIncome incomeId => deleteIncome cl incomeId w
    | AddExpense newId expenseData => addExpense cl newId expenseData w
    | UpdateExpense expense => updateExpense cl expense w
    | DeleteExpense expenseId => deleteExpense cl expenseId w
    | AddBudget newId budgetData => addBudget cl newId budgetData w
    | UpdateBudget budget => updateBudget budget w
    | DeleteBudget budgetId => deleteBudget budgetId w
    | AddSavingsGoal newId goalData => addSavingsGoal cl newId goalData w
    | UpdateSavingsGoal goal => updateSavingsGoal goal w
    | DeleteSavingsGoal goalId => deleteSavingsGoal cl goalId w
    | RefreshData accounts storedIncomes storedBudgets storedGoals =>
        refreshData cl accounts storedIncomes storedBudgets storedGoals w
    | UpdateAutoTrackedSavingsForAccount bankAccountId ti te =>
        updateAutoTrackedSavingsForAccount cl bankAccountId ti te w
    | UpdateAllAutoTrackedSavings => updateAllAutoTrackedSavings cl w
    | SelectedAccountEffect storedIncomes storedBudgets storedGoals =>
        selectedAccountEffect cl storedIncomes storedBudgets storedGoals w
    | SubscribeEffect => subscribeEffect cl w
    | ExpensesSnapshot docs => (onExpensesSnapshot docs ;; monthlySavingsEffect) w
    | IncomesSnapshot docs => (onIncomesSnapshot docs ;; monthlySavingsEffect) w
    end.

Definition run_all (cs : list Command) (w : World) : World :=
  fold_left (fun w c => run c w) cs w.

End Provider.

(** ** Readers of the provider: the hook, the budget progress record and
    the pages *)

(** *** [useAutoTrackSavingsGoal] ([src/contexts/DataContext.tsx])

    The hook reads [selectedBankAccount] and the two updaters from the
    provider value of one render, [cl]. *)

Definition getCurrentMonthlySavings (cl : State.t) : JS.number :=
  match State.selectedBankAccount cl with
  | None => 0%float
  | Some selected =>
      JS.Math_max 0%float
        (BankAccount.totalIncome selected
         - BankAccount.totalExpense selected)%float
  end.

Definition updateSavingsForAccount (cl : State.t) (bankAccountId : string)
    : Action :=
  match State.selectedBankAccount cl with
  | None => skip
  | Some selected =>
      updateAutoTrackedSavingsForAccount cl bankAccountId
        (BankAccount.totalIncome selected) (BankAccount.totalExpense selected)
  end.

(** *** [updateAllBudgetProgress]

    The [Record<string, number>], which starts as [{}], is the list of its
    own entries; assigning to a key that is present overwrites its value.
    Only lookups by key are made on it.  The model is that of the keys that
    are not [inherited]: under a name that every object inherits from
    [Object.prototype] a lookup finds the inherited member where the record
    has no entry, and an assignment to [__proto__] makes no entry. *)

Definition inherited (key : string) : bool :=
  existsb (String.eqb key)
    ["__proto__"; "constructor"; "hasOwnProperty"; "isPrototypeOf";
     "propertyIsEnumerable"; "toLocaleString"; "toString"; "valueOf";
     "__defineGetter__"; "__defineSetter__"; "__lookupGetter__";
     "__lookupSetter__"]%string.

Fixpoint record_set (key : string) (v : JS.number)
    (r : list (string * JS.number)) : list (string * JS.number) :=
  match r with
  | [] => [(key, v)]
  | (k, v') :: r' =>
      if String.eqb k key then (k, v) :: r' else (k, v') :: record_set key v r'
  end.

Fixpoint record_get (key : string) (r : list (string * JS.number))
    : option JS.number :=
  match r with
  | [] => None
  | (k, v) :: r' => if String.eqb k key then Some v else record_get key r'
  end.

Section BudgetProgress.
Context `{DateFns}.
Variable now : Z.

(** The record that [updateAllBudgetProgress] hands to
    [setBudgetProgress]. *)
Definition updateAllBudgetProgress (budgetsList : list Budget.t)
    (expensesList : list Expense.t) (date : option JS.Date)
    : list (string * JS.number) :=
  let date := Some (date_or_now now date) in
  fold_left (fun progress budget =>
               record_set (Budget.id budget)
                 (calculateBudgetProgress now expensesList budget date)
                 progress)
            budgetsList [].

End BudgetProgress.

(** *** The budgets page ([src/pages/Budgets.tsx]) *)

Module Status.
Record t := mk {
  label : string;
  color : string
}.
End Status.

Definition getStatus (progress threshold : JS.number) : Status.t :=
  if JS.ge progress 100%float then Status.mk "Over Budget!" "red"
  else if JS.ge progress threshold then Status.mk "Almost There" "yellow"
  else Status.mk "On Track" "green".

(** [budgetProgress[budget.id] ?? 0] *)
Definition shown_progress (budgetProgress : list (string * JS.number))
    (budget : Budget.t) : JS.number :=
  match record_get (Budget.id budget) budgetProgress with
  | Some v => v
  | None => 0%float
  end.

(** *** The reports page (the [Reports] component, in
    [src/pages/Login.tsx]) *)

Module AccountAnalysis.
Record t := mk {
  account : BankAccount.t;
  initialBalance : JS.number;
  totalIncome : JS.number;
  totalAvailable : JS.number;
  totalExpense : JS.number;
  currentBalance : JS.number;
  monthlySavings : JS.number;
  savingsRate : JS.number;
  transactionCount : nat
}.
End AccountAnalysis.

Definition bankAccountAnalysis (bankAccounts : list BankAccount.t)
    (incomes : list Income.t) (expenses : list Expense.t)
    : list AccountAnalysis.t :=
  map (fun account =>
         let accountIncomes :=
           filter (fun income =>
                     String.eqb (Income.bankAccountId income)
                                (BankAccount.id account)) incomes in
         let accountExpenses :=
           filter (fun expense =>
                     String.eqb (Expense.bankAccountId expense)
                                (BankAccount.id account)) expenses in
         let totalIncome := BankAccount.totalIncome account in
         let startingBalance := BankAccount.startingBalance account in
         let totalAvailable := totalIncome in
         let currentBalance :=
           (totalIncome - BankAccount.totalExpense account)%float in
         let monthlySavings := currentBalance in
         let savingsRate :=
           if JS.gt totalIncome 0%float
           then (monthlySavings / totalIncome * 100)%float else 0%float in
         AccountAnalysis.mk account startingBalance totalIncome totalAvailable
           (BankAccount.totalExpense account) currentBalance monthlySavings
           savingsRate
           (length accountIncomes + length accountExpenses))
      bankAccounts.

(** *** The recent transactions of the dashboard (the
    [RecentTransactions] component, in [src/contexts/DataContext.tsx]) *)

Inductive TransactionType := TIncome | TExpense.

Module Transaction.
Record t := mk {
  id : string;
  type : TransactionType;
  amount : JS.number;
  description : string;
  category : string;
  date : string
}.
End Transaction.

(** [a || b] on an optional string and a string. *)
Definition or_string (a : option string) (b : string) : string :=
  match a with
  | Some s => if String.eqb s "" then b else s
  | None => b
  end.

Section RecentTransactions.
(** [new Date(s)] and [getCategoryName] of [src/utils/categories]. *)
Variable Date_new : string -> JS.Date.
Variable getCategoryName : string -> string.

Definition transaction_of_income (income : Income.t) : Transaction.t :=
  Transaction.mk (Income.id income) TIncome (Income.amount income)
    (or_string (Income.description income) (Income.source income))
    (Income.source income) (Income.date income).

Definition transaction_of_expense (expense : Expense.t) : Transaction.t :=
  Transaction.mk (Expense.id expense) TExpense (Expense.amount expense)
    (or_string (Expense.description expense)
               (getCategoryName (Expense.category expense)))
    (Expense.category expense) (Expense.date expense).

(** [(a, b) => new Date(b.date).getTime() - new Date(a.date).getTime()] *)
Definition newest_first (a b : Transaction.t) : option Z :=
  JS.time_diff (Date_new (Transaction.date b)) (Date_new (Transaction.date a)).

(** The [transactions] array of the component: the eight most recent. *)
Definition recentTransactions (incomes : list Income.t)
    (expenses : list Expense.t) : list Transaction.t :=
  firstn 8
    (JS.sort newest_first
       (map transaction_of_income incomes
        ++ map transaction_of_expense expenses)).

End RecentTransactions.

(** *** The dashboard (the [Dashboard] component, in
    [src/pages/Budgets.tsx]) *)

Module Dashboard.
Section Summary.
Context `{DateFns}.
Variable now : Z.

Definition filteredIncomes (s : State.t) : list Income.t :=
  match State.selectedBankAccount s with
  | Some selected =>
      filter (fun income =>
                String.eqb (Income.bankAccountId income)
                           (BankAccount.id selected))
             (State.incomes s)
  | None => State.incomes s
  end.

Definition filteredExpenses (s : State.t) : list Expense.t :=
  match State.selectedBankAccount s with
  | Some selected =>
      filter (fun expense =>
                String.eqb (Expense.bankAccountId expense)
                           (BankAccount.id selected))
             (State.expenses s)
  | None => State.expenses s
  end.

Definition summary (s : State.t) : FinancialSummary.t :=
  calculateFinancialSummaryWithAccount now (filteredIncomes s)
    (filteredExpenses s) (State.budgets s) (State.selectedBankAccount s) None.

End Summary.
End Dashboard.

(** ** Predicates used in the statements *)

(** The goal's [autoTrackedAmount] is present and is not below zero: it
    compares [>= 0], or it is NaN (which no comparison orders). *)
Definition goal_ok (goal : SavingsGoal.t) : Prop :=
  match SavingsGoal.autoTrackedAmount goal with
  | Some v => JS.ge v 0%float = true \/ is_nan v = true
  | None => False
  end.

(** The goals a command brings in from outside the provider, through
    [updateSavingsGoal] or a read from storage, are [goal_ok]. *)
Definition brings_ok_goals (c : Command) : Prop :=
  match c with
  | UpdateSavingsGoal goal => goal_ok goal
  | RefreshData _ _ _ storedGoals => Forall goal_ok storedGoals
  | SelectedAccountEffect _ _ storedGoals => Forall goal_ok storedGoals
  | _ => True
  end.

(** The goals written back by [updateAutoTrackedSavingsForAccount]. *)
Definition refreshed_goals (goals : list SavingsGoal.t)
    (bankAccountId : string) (totalIncome totalExpense : JS.number)
    : list SavingsGoal.t :=
  map (fun goal =>
         if in_scope goal bankAccountId
         then SavingsGoal.with_auto goal
                (JS.Math_max 0%float (totalIncome - totalExpense)%float)
         else goal) goals.

(** The number of goals of owner [uid] whose title is [title], case
    apart. *)
Definition goals_titled (toLowerCase : string -> string) (title uid : string)
    (goals : list SavingsGoal.t) : nat :=
  length (filter (same_goal toLowerCase title uid) goals).

(** The comparator [(a, b) => key(a).getTime() - key(b).getTime()], the
    order it sorts into, and the elements it orders: those whose key is a
    valid date. *)
Definition by_key {A : Type} (key : A -> JS.Date) (a b : A) : option Z :=
  JS.time_diff (key a) (key b).
Definition key_le {A : Type} (key : A -> JS.Date) (a b : A) : Prop :=
  JS.date_le (key a) (key b) = true.
Definition valid_key {A : Type} (key : A -> JS.Date) (a : A) : Prop :=
  exists t, key a = Some t.

(** An action that leaves the state cells alone and only adds effects. *)
Definition only_effects (a : Action) : Prop :=
  forall w, state (a w) = state w
            /\ exists es, effects (a w) = effects w ++ es.

(** The account's totals are those of the arrays in the state: what a
    recomputation for [bankAccountId] from these arrays writes. *)
Definition in_step (s : State.t) (bankAccountId : string) : Prop :=
  forall a,
    In a (State.bankAccounts s) -> BankAccount.id a = bankAccountId ->
    BankAccount.totalIncome a
    = sum_amounts Income.amount
        (filter (fun i => String.eqb (Income.bankAccountId i) bankAccountId)
                (State.incomes s))
    /\ BankAccount.totalExpense a
       = sum_amounts Expense.amount
           (filter (fun e => String.eqb (Expense.bankAccountId e)
                                        bankAccountId)
                   (State.expenses s))
    /\ BankAccount.currentBalance a
       = (BankAccount.totalIncome a - BankAccount.totalExpense a)%float.

(** The account as a recomputation from the two arrays leaves it. *)
Definition recomputed (account : BankAccount.t) (bankAccountId : string)
    (incomesArray : list Income.t) (expensesArray : list Expense.t)
    : BankAccount.t :=
  let ti := sum_amounts Income.amount
              (filter (fun i =>
                         String.eqb (Income.bankAccountId i) bankAccountId)
                      incomesArray) in
  let te := sum_amounts Expense.amount
              (filter (fun e =>
                         String.eqb (Expense.bankAccountId e) bankAccountId)
                      expensesArray) in
  BankAccount.with_totals account ti te (ti - te)%float.

(** The account whose totals a transaction command, called from the render
    [s], recomputes. *)
Definition recomputed_account (s : State.t) (c : Command) : option string :=
  match c with
  | AddIncome _ incomeData =>
      match State.user s with
      | Some _ => Some (Income.bankAccountId incomeData)
      | None => None
      end
  | UpdateIncome income => Some (Income.bankAccountId income)
  | DeleteIncome incomeId =>
      option_map Income.bankAccountId
        (JS.find (fun i => String.eqb (Income.id i) incomeId)
                 (State.incomes s))
  | AddExpense _ expenseData =>
      match State.user s with
      | Some _ => Some (Expense.bankAccountId expenseData)
      | None => None
      end
  | UpdateExpense expense => Some (Expense.bankAccountId expense)
  | DeleteExpense expenseId =>
      option_map Expense.bankAccountId
        (JS.find (fun e => String.eqb (Expense.id e) expenseId)
                 (State.expenses s))
  | _ => None
  end.

(** The commands that change the incomes or the expenses. *)
Definition is_transaction (c : Command) : bool :=
  match c with
  | AddIncome _ _ | UpdateIncome _ | DeleteIncome _
  | AddExpense _ _ | UpdateExpense _ | DeleteExpense _ => true
  | _ => false
  end.

(** The operations that start with [if (!user) return]. *)
Definition guarded_by_user (c : Command) : bool :=
  match c with
  | AddBankAccount _ _ _ _ _ | DeleteBankAccount _ | AddIncome _ _
  | AddExpense _ _ | AddBudget _ _ | AddSavingsGoal _ _
  | DeleteSavingsGoal _ | RefreshData _ _ _ _ => true
  | _ => false
  end.

(** The order of [newest_first], on parsed dates. *)
Definition newer_or_same (Date_new : string -> JS.Date)
    (a b : Transaction.t) : Prop :=
  JS.date_ge (Date_new (Transaction.date a)) (Date_new (Transaction.date b))
  = true.

(** What holds of the loop state of [removeDuplicateGoals], run from the
    render [cl], once it has gone through the goals [p]. *)
Definition dedup_inv (toLowerCase : string -> string) (cl : State.t)
    (p : list SavingsGoal.t)
    (acc : list string * list SavingsGoal.t * Action) : Prop :=
  let key := goal_key toLowerCase in
  let '(seen, unique, done) := acc in
  (forall k, In k seen <-> In k (map key unique))
  /\ NoDup (map key unique)
  /\ (forall g, In g unique -> In g p)
  /\ (forall g, In g p -> In (key g) (map key unique))
  /\ only_effects done
  /\ (length unique <= length p)%nat
  /\ (forall uid w, State.user cl = Some uid ->
                    length (effects (done w))
                    = (length (effects w)
                       + 2 * (length p - length unique))%nat)
  /\ (NoDup (map key p) -> unique = p /\ forall w, done w = w)
  /\ (forall g rest, p = g :: rest -> exists rest', unique = g :: rest').

(** Sorting newest first is sorting by the negated time value. *)
Definition negated_time (Date_new : string -> JS.Date) (t : Transaction.t)
    : JS.Date :=
  option_map Z.opp (Date_new (Transaction.date t)).

(** Splits a goal into its conjuncts, leaving implications alone. *)
Ltac splits := repeat match goal with |- _ /\ _ => split end.

(** ** Sample data *)

Module Sample.
Local Open Scope float_scope.

(** 2024-03-15T12:00:00.000Z *)
Definition mid_march : Z := 1710504000000.
(** 2024-03-01T00:00:00.000Z *)
Definition march_1 : Z := 1709251200000.

Definition expense (id category : string) (amount : JS.number)
    (date : string) : Expense.t :=
  Expense.mk id "u1" "acc1" category amount date None false NoFrequency None.

Definition bill (id category : string) (amount : JS.number)
    (nextDueDate : string) : Expense.t :=
  Expense.mk id "u1" "acc1" category amount "2024-01-01" None true Monthly
    (Some nextDueDate).

Definition groceries : Expense.t := expense "e1" "food" 2500 "2024-03-05".
Definition dinner : Expense.t := expense "e2" "food" 3500 "2024-03-20".
Definition february_trip : Expense.t := expense "e3" "travel" 900 "2024-02-11".
Definition subscription : Expense.t := bill "e4" "media" 50 "2024-03-11".

Definition account (totalIncome totalExpense : JS.number) : BankAccount.t :=
  BankAccount.mk "acc1" "u1" "hdfc" "hdfc" None "2024-01-01T00:00:00.000Z"
    0 totalIncome totalExpense (totalIncome - totalExpense).

Definition budget (category : string) (budgetAmount : JS.number) : Budget.t :=
  Budget.mk "b1" "u1" category budgetAmount PMonthly 80.

Definition lunch : Expense.t := expense "e5" "food" 500 "2024-03-02".
Definition snacks : Expense.t := expense "e6" "food" 350 "2024-03-28".

Definition salary : Income.t :=
  Income.mk "i1" "u1" "acc1" "salary" 1200 Monthly "2024-03-01" None.

Definition goal (title : string) (bankAccountId : option string)
    (autoTrackedAmount : option JS.number) : SavingsGoal.t :=
  SavingsGoal.mk "g1" "u1" title 10000 bankAccountId autoTrackedAmount.

(** The argument of [addBankAccount]: a bank and a starting balance. *)
Definition opening (startingBalance : JS.number) : BankAccount.t :=
  BankAccount.mk "" "" "hdfc" "" None "" startingBalance 0 0 0.

Definition run := run JS.toLowerCase_ascii.
Definition run_all := run_all JS.toLowerCase_ascii.

(** A provider just mounted for user [u1]. *)
Definition signed_in : World := mkWorld (State.initial (Some "u1"%string)) [].

(** ... who then opens account [acc1] with 1000. *)
Definition open_account : Command :=
  AddBankAccount "acc1" "2024-03-01T00:00:00.000Z"
                 "i0" "2024-03-01T00:00:00.000Z" (opening 1000).

Definition opened : World := run open_account signed_in.

(** ... after which the effects of the new selection have run: the reload
    from storage, which holds the seeded income, and the subscription. *)
Definition with_account : World :=
  run_all [SelectedAccountEffect (State.incomes (state opened)) [] [];
           SubscribeEffect]
          opened.

(** ... and then records a 250 expense on it. *)
Definition with_expense : World :=
  run (AddExpense "e9" (expense "" "food" 250 "2024-03-03")) with_account.

End Sample.

(** ** More sample data *)

Module Ledger.
Local Open Scope float_scope.

Definition run := Sample.run.
Definition run_all := Sample.run_all.

(** The first account of [Sample.with_account], as it stands there. *)
Definition acc1 : BankAccount.t :=
  BankAccount.mk "acc1" "u1" "hdfc" "hdfc" None "2024-03-01T00:00:00.000Z"
    1000 1000 0 1000.

(** A second account, opened with nothing. *)
Definition two_accounts : World :=
  run (AddBankAccount "acc2" "2024-03-02T00:00:00.000Z" "i00"
         "2024-03-02T00:00:00.000Z" (Sample.opening 0))
      Sample.with_account.

Definition taxi : Expense.t :=
  Expense.mk "" "" "acc2" "travel" 100 "2024-03-04" None false NoFrequency
    None.

Definition ghost_income : Income.t :=
  Income.mk "" "" "ghost" "gift" 70 OneTime "2024-03-04" None.

(** Nobody signed in. *)
Definition signed_out : World := mkWorld (State.initial None) [].

Definition vacation : SavingsGoal.t :=
  SavingsGoal.mk "g1" "u1" "Vacation" 10000 None (Some 0).
Definition vacation_again : SavingsGoal.t :=
  SavingsGoal.mk "g2" "u1" "VACATION" 500 None (Some 0).
Definition car : SavingsGoal.t :=
  SavingsGoal.mk "g3" "u1" "Car" 90000 (Some "acc1"%string) (Some 0).

(** A recurring expense marked one-time, dated in March 2024. *)
Definition odd_bill : Expense.t :=
  Expense.mk "e7" "u1" "acc1" "food" 40 "2024-03-09" None true OneTime None.

Definition yearly_budget : Budget.t :=
  Budget.mk "b2" "u1" "travel" 12000 PYearly 80.

Definition category_name (category : string) : string := category.

End Ledger.

(** * Properties *)

(** ** Numbers *)

Section NumberFacts.
Local Open Scope float_scope.

Lemma ltb_leb (x y : float) : (x <? y) = true -> (x <=? y) = true.
Proof.
  rewrite FloatAxioms.ltb_spec, FloatAxioms.leb_spec; unfold SFltb, SFleb.
  destruct (SFcompare (Prim2SF x) (Prim2SF y)) as [[ | | ]|]; congruence.
Qed.

(** A number equal to zero (either zero) is not greater than zero. *)
Lemma eqb_zero_not_gt (x : float) : (x =? 0) = true -> JS.gt x 0 = false.
Proof.
  unfold JS.gt; rewrite FloatAxioms.eqb_spec, FloatAxioms.ltb_spec; unfold SFeqb, SFltb.
  change (Prim2SF 0) with (S754_zero false).
  destruct (Prim2SF x) as [s | s | | s m e]; cbn;
    try destruct s; congruence.
Qed.

(** [Math.max(0, x)] is at least zero, unless [x] is NaN and so is it. *)
Lemma Math_max_zero (x : float) :
  JS.ge (JS.Math_max 0 x) 0 = true \/ is_nan (JS.Math_max 0 x) = true.
Proof.
  unfold JS.ge, JS.Math_max.
  change (is_nan 0) with false; cbn [orb].
  destruct (is_nan x) eqn:Hnan; [right; reflexivity | left].
  destruct (0 <? x) eqn:Hpos; [now apply ltb_leb |].
  destruct (x <? 0); reflexivity.
Qed.

End NumberFacts.

(** ** Sorting *)

Section SortFacts.
Context {A : Type}.

Lemma insert_perm (cmp : A -> A -> option Z) (x : A) (l : list A) :
  Permutation (JS.insert cmp x l) (x :: l).
Proof.
  induction l as [| y l IH]; cbn; [reflexivity |].
  destruct (JS.before cmp x y); [reflexivity |].
  rewrite IH. apply perm_swap.
Qed.

Lemma sort_perm (cmp : A -> A -> option Z) (l : list A) :
  Permutation (JS.sort cmp l) l.
Proof.
  unfold JS.sort.
  assert (Hacc : forall acc,
             Permutation (fold_left (fun acc x => JS.insert cmp x acc) l acc)
                         (l ++ acc)).
  { induction l as [| x l IH]; intros acc; cbn [fold_left app];
      [reflexivity |].
    rewrite IH, insert_perm. symmetry. apply Permutation_middle. }
  rewrite Hacc. now rewrite app_nil_r.
Qed.

(** Sorting by a date key, all keys being valid dates. *)
Variable key : A -> JS.Date.

Lemma insert_sorted (x : A) (l : list A) :
  valid_key key x -> Forall (valid_key key) l ->
  StronglySorted (key_le key) l ->
  StronglySorted (key_le key) (JS.insert (by_key key) x l).
Proof.
  intros [tx Hx] Hvalid Hsorted.
  induction l as [| y l IH]; cbn [JS.insert].
  - repeat constructor.
  - apply Forall_cons_iff in Hvalid as [[ty Hy] Hvalid].
    apply StronglySorted_inv in Hsorted as [Hsorted Hy_le].
    unfold JS.before, by_key, JS.time_diff. rewrite Hx, Hy.
    destruct (tx - ty <? 0)%Z eqn:Hlt.
    + apply Z.ltb_lt in Hlt.
      constructor; [constructor; assumption |].
      constructor.
      * unfold key_le, JS.date_le, JS.date_ge. rewrite Hx, Hy.
        apply Z.leb_le. lia.
      * eapply Forall_impl; [| exact Hy_le].
        intros z Hz. unfold key_le, JS.date_le, JS.date_ge in *.
        rewrite Hx. rewrite Hy in Hz.
        destruct (key z) as [tz |]; [| discriminate].
        apply Z.leb_le in Hz. apply Z.leb_le. lia.
    + apply Z.ltb_ge in Hlt.
      constructor; [now apply IH |].
      rewrite (insert_perm (by_key key) x l).
      constructor; [| exact Hy_le].
      unfold key_le, JS.date_le, JS.date_ge. rewrite Hx, Hy.
      apply Z.leb_le. lia.
Qed.

Lemma sort_sorted (l : list A) :
  Forall (valid_key key) l ->
  StronglySorted (key_le key) (JS.sort (by_key key) l).
Proof.
  intros Hvalid. unfold JS.sort.
  assert (Hacc : forall acc,
             Forall (valid_key key) acc -> StronglySorted (key_le key) acc ->
             StronglySorted (key_le key)
               (fold_left (fun acc x => JS.insert (by_key key) x acc)
                          l acc)).
  { induction l as [| x l IH]; intros acc Hvacc Hsacc; cbn [fold_left];
      [exact Hsacc |].
    apply Forall_cons_iff in Hvalid as [Hx Hvalid].
    apply IH; [exact Hvalid | | now apply insert_sorted].
    rewrite (insert_perm (by_key key) x acc). now constructor. }
  apply Hacc; constructor.
Qed.

End SortFacts.

(** ** Aggregation engine *)

Section CalculationFacts.
Context `{DateFns}.
Local Open Scope float_scope.

(** C4. With an account selected, [calculateFinancialSummaryWithAccount]
    reports the account's own [totalIncome] (whatever the incomes array and
    the month are), [calculateMonthlyExpenses] of the expenses as
    [totalExpenses], their difference as [savings], and as [savingsRate]
    [savings / totalIncome * 100] when the income is positive and [0] when it
    is zero.  With an income of 5000 and monthly expenses of 6000 the savings
    are -1000 and the rate is -20. *)
Theorem summary_with_account (now : Z) (incomes : list Income.t)
    (expenses : list Expense.t) (budgets : list Budget.t)
    (account : BankAccount.t) (date : option JS.Date) :
  let s := calculateFinancialSummaryWithAccount now incomes expenses budgets
             (Some account) date in
  let income := BankAccount.totalIncome account in
  let spent := calculateMonthlyExpenses now expenses date in
  FinancialSummary.totalIncome s = income
  /\ FinancialSummary.totalExpenses s = spent
  /\ FinancialSummary.savings s = income - spent
  /\ (JS.gt income 0 = true ->
      FinancialSummary.savingsRate s = (income - spent) / income * 100)
  /\ ((income =? 0) = true -> FinancialSummary.savingsRate s = 0)
  /\ (income = 5000 -> spent = 6000 ->
      FinancialSummary.savings s = -1000
      /\ FinancialSummary.savingsRate s = -20).
Proof.
  cbv beta zeta iota delta
    [calculateFinancialSummaryWithAccount FinancialSummary.totalIncome
     FinancialSummary.totalExpenses FinancialSummary.savings
     FinancialSummary.savingsRate].
  splits; try reflexivity.
  - intros Hpos. now rewrite Hpos.
  - intros Hzero. now rewrite (eqb_zero_not_gt _ Hzero).
  - intros -> ->. split; reflexivity.
Qed.

(** C5, as the code has it.  [calculateBudgetProgress] is
    [calculateCategoryExpenses(expenses, budget.category, date) /
    budget.budgetAmount * 100] when [budget.budgetAmount > 0], and [0]
    without dividing in every other case: a zero, a negative or a NaN
    amount. *)
Theorem budget_progress_guarded (now : Z) (expenses : list Expense.t)
    (budget : Budget.t) (date : option JS.Date) :
  let spent :=
    calculateCategoryExpenses now expenses (Budget.category budget) date in
  let amount := Budget.budgetAmount budget in
  (JS.gt amount 0 = true ->
   calculateBudgetProgress now expenses budget date = spent / amount * 100)
  /\ (JS.gt amount 0 = false ->
      calculateBudgetProgress now expenses budget date = 0)
  /\ ((amount =? 0) = true ->
      calculateBudgetProgress now expenses budget date = 0).
Proof.
  cbv zeta. unfold calculateBudgetProgress.
  splits.
  - intros Hpos. now rewrite Hpos.
  - intros Hnot. now rewrite Hnot.
  - intros Hzero. now rewrite (eqb_zero_not_gt _ Hzero).
Qed.

(** C9, as the code has it.  With the reference date passed, the clock does
    not reach [calculateBudgetProgress] nor any numeric field of either
    summary: two calls with the same arguments agree on them whenever they
    are made.  The [upcomingBills] field is [getUpcomingBills] at the time of
    the call. *)
Theorem summary_clock_independence (now1 now2 : Z) (incomes : list Income.t)
    (expenses : list Expense.t) (budgets : list Budget.t)
    (account : option BankAccount.t) (budget : Budget.t) (date : JS.Date) :
  let s1 := calculateFinancialSummary now1 incomes expenses budgets
              (Some date) in
  let s2 := calculateFinancialSummary now2 incomes expenses budgets
              (Some date) in
  let a1 := calculateFinancialSummaryWithAccount now1 incomes expenses budgets
              account (Some date) in
  let a2 := calculateFinancialSummaryWithAccount now2 incomes expenses budgets
              account (Some date) in
  calculateBudgetProgress now1 expenses budget (Some date)
  = calculateBudgetProgress now2 expenses budget (Some date)
  /\ (FinancialSummary.totalIncome s1 = FinancialSummary.totalIncome s2
      /\ FinancialSummary.totalExpenses s1 = FinancialSummary.totalExpenses s2
      /\ FinancialSummary.savings s1 = FinancialSummary.savings s2
      /\ FinancialSummary.savingsRate s1 = FinancialSummary.savingsRate s2
      /\ FinancialSummary.monthlyBudgetUsed s1
         = FinancialSummary.monthlyBudgetUsed s2
      /\ FinancialSummary.monthlyBudgetRemaining s1
         = FinancialSummary.monthlyBudgetRemaining s2)
  /\ (FinancialSummary.totalIncome a1 = FinancialSummary.totalIncome a2
      /\ FinancialSummary.totalExpenses a1 = FinancialSummary.totalExpenses a2
      /\ FinancialSummary.savings a1 = FinancialSummary.savings a2
      /\ FinancialSummary.savingsRate a1 = FinancialSummary.savingsRate a2
      /\ FinancialSummary.monthlyBudgetUsed a1
         = FinancialSummary.monthlyBudgetUsed a2
      /\ FinancialSummary.monthlyBudgetRemaining a1
         = FinancialSummary.monthlyBudgetRemaining a2)
  /\ FinancialSummary.upcomingBills s1 = getUpcomingBills now1 expenses None
  /\ FinancialSummary.upcomingBills a1 = getUpcomingBills now1 expenses None.
Proof.
  cbv zeta. repeat split.
Qed.

Lemma filter_filter {A : Type} (p q : A -> bool) (l : list A) :
  filter p (filter q l) = filter (fun x => q x && p x) l.
Proof.
  induction l as [| x l IH]; cbn; [reflexivity |].
  destruct (q x); cbn; [destruct (p x) |]; now rewrite IH.
Qed.

(** X1. What [getUpcomingBills] returns: the recurring expenses that have a
    [nextDueDate], due from [now] to one month after [now], each as often as
    it occurs in the argument, in ascending order of due date; [daysAhead]
    has no part in it. *)
Theorem upcoming_bills_one_month (now : Z) (expenses : list Expense.t)
    (daysAhead : option JS.number) :
  let bills := getUpcomingBills now expenses daysAhead in
  Permutation bills
    (filter (fun expense =>
               Expense.isRecurring expense
               && JS.truthy (Expense.nextDueDate expense)
               && (JS.date_ge (dueDate expense) (Some now)
                   && JS.date_le (dueDate expense)
                        (addMonths (Some now) 1)))
            expenses)
  /\ StronglySorted
       (fun a b => JS.date_le (dueDate a) (dueDate b) = true) bills
  /\ bills = getUpcomingBills now expenses None.
Proof.
  cbv zeta. unfold getUpcomingBills. splits.
  - rewrite sort_perm, filter_filter. reflexivity.
  - apply (sort_sorted dueDate).
    apply Forall_forall. intros e He.
    apply filter_In in He as [_ He]. apply andb_true_iff in He as [He _].
    unfold valid_key. unfold JS.date_ge in He.
    destruct (dueDate e) as [t |]; [now exists t | discriminate].
  - reflexivity.
Qed.

End CalculationFacts.

(** ** Consistency coordinator *)

Section ActionFacts.

Lemma only_effects_skip : only_effects skip.
Proof. intros w; split; [reflexivity | exists []; now rewrite app_nil_r]. Qed.

Lemma only_effects_call (e : Effect) : only_effects (call e).
Proof. intros w; split; [reflexivity | now exists [e]]. Qed.

Lemma only_effects_seq (a b : Action) :
  only_effects a -> only_effects b -> only_effects (a ;; b).
Proof.
  intros Ha Hb w; unfold seq.
  destruct (Ha w) as [Hsa [ea Hea]], (Hb (a w)) as [Hsb [eb Heb]].
  split; [congruence |].
  exists (ea ++ eb). now rewrite Heb, Hea, app_assoc.
Qed.

Lemma only_effects_forEach {A : Type} (f : A -> Action) (l : list A) :
  (forall x, only_effects (f x)) -> only_effects (forEach f l).
Proof.
  intros Hf; induction l as [| x l IH]; cbn [forEach].
  - apply only_effects_skip.
  - apply only_effects_seq; [apply Hf | exact IH].
Qed.

End ActionFacts.

Create HintDb actions.
#[local] Hint Resolve only_effects_skip only_effects_call only_effects_seq
  only_effects_forEach : actions.

Section TotalsFacts.
Local Open Scope float_scope.

Lemma updateAutoTracked_state (cl : State.t) (bankAccountId : string)
    (ti te : JS.number) (w : World) :
  state (updateAutoTrackedSavingsForAccount cl bankAccountId ti te w)
  = State.set_savingsGoals
      (refreshed_goals (State.savingsGoals cl) bankAccountId ti te) (state w).
Proof.
  unfold updateAutoTrackedSavingsForAccount, seq, setSavingsGoals, setState.
  cbn [state].
  match goal with
  | |- context [forEach ?f ?l w] =>
      destruct (only_effects_forEach f l) with (w := w) as [-> _]
  end; [| reflexivity].
  intros goal; destruct (SavingsGoal.autoTrackedAmount goal);
    auto with actions.
Qed.

Lemma updateAutoTracked_effects (cl : State.t) (bankAccountId : string)
    (ti te : JS.number) (w : World) :
  exists es,
    effects (updateAutoTrackedSavingsForAccount cl bankAccountId ti te w)
    = effects w ++ es.
Proof.
  unfold updateAutoTrackedSavingsForAccount, seq, setSavingsGoals, setState.
  cbn [effects].
  match goal with
  | |- context [forEach ?f ?l w] =>
      destruct (only_effects_forEach f l) with (w := w) as [_ Hes]
  end; [| exact Hes].
  intros goal; destruct (SavingsGoal.autoTrackedAmount goal);
    auto with actions.
Qed.

Lemma find_id_eq {A : Type} (id : A -> string) (key : string) (l : list A)
    (x : A) :
  JS.find (fun a => String.eqb (id a) key) l = Some x ->
  In x l /\ id x = key.
Proof.
  intros Hfind; apply find_some in Hfind as [Hin Heq].
  now apply String.eqb_eq in Heq.
Qed.

(** C1. When the account is found, [recalculateAndUpdateTotalsWithArray]
    replaces it, in [bankAccounts], by a copy whose [totalIncome] is the sum
    of the amounts of the incomes of the array with that [bankAccountId],
    whose [totalExpense] is the same sum over the expenses, and whose
    [currentBalance] is [totalIncome - totalExpense]; the copy is what is
    saved, and what [selectedBankAccount] becomes when that account is the
    selected one.  So every account with this id has
    [currentBalance = totalIncome - totalExpense] afterwards. *)
Theorem recalculate_sets_totals (cl : State.t) (w : World)
    (bankAccountId : string) (incomesArray : list Income.t)
    (expensesArray : list Expense.t) (account : BankAccount.t) :
  JS.find (fun a => String.eqb (BankAccount.id a) bankAccountId)
          (State.bankAccounts cl) = Some account ->
  let totalIncome :=
    sum_amounts Income.amount
      (filter (fun i => String.eqb (Income.bankAccountId i) bankAccountId)
              incomesArray) in
  let totalExpense :=
    sum_amounts Expense.amount
      (filter (fun e => String.eqb (Expense.bankAccountId e) bankAccountId)
              expensesArray) in
  let updated :=
    BankAccount.with_totals account totalIncome totalExpense
      (totalIncome - totalExpense) in
  let w' :=
    recalculateAndUpdateTotalsWithArray cl bankAccountId incomesArray
      expensesArray w in
  State.bankAccounts (state w')
  = map (fun a => if String.eqb (BankAccount.id a) bankAccountId
                  then updated else a)
        (State.bankAccounts (state w))
  /\ (forall a, In a (State.bankAccounts (state w')) ->
                BankAccount.id a = bankAccountId ->
                BankAccount.totalIncome a = totalIncome
                /\ BankAccount.totalExpense a = totalExpense
                /\ BankAccount.currentBalance a
                   = BankAccount.totalIncome a - BankAccount.totalExpense a)
  /\ (forall a, In a (State.bankAccounts (state w)) ->
                BankAccount.id a = bankAccountId ->
                In updated (State.bankAccounts (state w')))
  /\ (selected_is cl bankAccountId = true ->
      State.selectedBankAccount (state w') = Some updated)
  /\ In (saveBankAccountToStorage updated) (effects w').
Proof.
  intros Hfind totalIncome totalExpense updated w'.
  destruct (find_id_eq _ _ _ _ Hfind) as [_ Hid].
  assert (Hlist : State.bankAccounts (state w')
                  = map (fun a => if String.eqb (BankAccount.id a) bankAccountId
                                  then updated else a)
                        (State.bankAccounts (state w))).
  { subst w'; unfold recalculateAndUpdateTotalsWithArray.
    rewrite Hfind; unfold seq at 1.
    rewrite updateAutoTracked_state.
    unfold updateBankAccount, seq, setBankAccounts, setState, call.
    cbn [BankAccount.with_totals BankAccount.id]; rewrite Hid.
    destruct (selected_is cl bankAccountId); reflexivity. }
  splits.
  - exact Hlist.
  - intros a Hin Ha. rewrite Hlist in Hin.
    apply in_map_iff in Hin as [a0 [Heq _]].
    destruct (String.eqb (BankAccount.id a0) bankAccountId) eqn:Hid0.
    + subst a. splits; reflexivity.
    + subst a0. apply String.eqb_neq in Hid0. contradiction.
  - intros a Hin Ha. rewrite Hlist.
    apply in_map_iff. exists a. split; [| exact Hin].
    apply String.eqb_eq in Ha. now rewrite Ha.
  - intros Hsel. subst w'; unfold recalculateAndUpdateTotalsWithArray.
    rewrite Hfind; unfold seq at 1.
    rewrite updateAutoTracked_state.
    unfold updateBankAccount, seq, setBankAccounts, setState, call.
    cbn [BankAccount.with_totals BankAccount.id]; rewrite Hid, Hsel.
    reflexivity.
  - subst w'; unfold recalculateAndUpdateTotalsWithArray.
    rewrite Hfind; unfold seq at 1.
    match goal with
    | |- In _ (effects (updateAutoTrackedSavingsForAccount ?c ?b ?i ?e ?x)) =>
        destruct (updateAutoTracked_effects c b i e x) as [es ->]
    end.
    apply in_or_app; left.
    unfold updateBankAccount, seq, setBankAccounts, setState, call.
    destruct (selected_is cl _); cbn [effects setSelectedBankAccount skip];
      apply in_or_app; right; left; reflexivity.
Qed.

End TotalsFacts.

Section GoalFrameFacts.
Local Open Scope float_scope.

Lemma in_scope_cases (goal : SavingsGoal.t) (bankAccountId : string) :
  in_scope goal bankAccountId = true
  <-> SavingsGoal.bankAccountId goal = None
      \/ SavingsGoal.bankAccountId goal = Some ""%string
      \/ SavingsGoal.bankAccountId goal = Some bankAccountId.
Proof.
  unfold in_scope, JS.truthy.
  destruct (SavingsGoal.bankAccountId goal) as [b |]; cbn.
  - rewrite negb_involutive, orb_true_iff, !String.eqb_eq.
    split.
    + intros [-> | ->]; auto.
    + intros [Hnone | [Hempty | Hsame]];
        [discriminate | left | right]; congruence.
  - split; auto.
Qed.

Lemma out_of_scope (goal : SavingsGoal.t) (bankAccountId b : string) :
  SavingsGoal.bankAccountId goal = Some b ->
  b <> ""%string -> b <> bankAccountId ->
  in_scope goal bankAccountId = false.
Proof.
  intros Hb Hset Hother.
  destruct (in_scope goal bankAccountId) eqn:Hscope; [| reflexivity].
  apply in_scope_cases in Hscope as [Hnone | [Hempty | Hsame]]; congruence.
Qed.

Lemma refreshed_goals_nth (goals : list SavingsGoal.t)
    (bankAccountId : string) (ti te : JS.number) (n : nat)
    (goal : SavingsGoal.t) :
  nth_error goals n = Some goal ->
  nth_error (refreshed_goals goals bankAccountId ti te) n
  = Some (if in_scope goal bankAccountId
          then SavingsGoal.with_auto goal (JS.Math_max 0 (ti - te))
          else goal).
Proof.
  intros Hn. unfold refreshed_goals.
  now rewrite nth_error_map, Hn.
Qed.

Lemma recalculate_goals (cl : State.t) (w : World) (bankAccountId : string)
    (incomesArray : list Income.t) (expensesArray : list Expense.t) :
  State.savingsGoals
    (state (recalculateAndUpdateTotalsWithArray cl bankAccountId incomesArray
              expensesArray w))
  = match JS.find (fun a => String.eqb (BankAccount.id a) bankAccountId)
                  (State.bankAccounts cl) with
    | Some _ =>
        refreshed_goals (State.savingsGoals cl) bankAccountId
          (sum_amounts Income.amount
             (filter (fun i =>
                        String.eqb (Income.bankAccountId i) bankAccountId)
                     incomesArray))
          (sum_amounts Expense.amount
             (filter (fun e =>
                        String.eqb (Expense.bankAccountId e) bankAccountId)
                     expensesArray))
    | None => State.savingsGoals (state w)
    end.
Proof.
  unfold recalculateAndUpdateTotalsWithArray.
  destruct (JS.find _ (State.bankAccounts cl)); [| reflexivity].
  unfold seq at 1. now rewrite updateAutoTracked_state.
Qed.

(** C10. A recomputation for account [bankAccountId], run by a handler
    whose closure holds the current goals, leaves every goal whose
    [bankAccountId] is set (a non-empty id) and differs from that account
    exactly as it was, at its place in the list: this holds of
    [updateAutoTrackedSavingsForAccount] and of
    [recalculateAndUpdateTotalsWithArray].  The goals it does rewrite are
    those with no [bankAccountId] (absent or empty) or with this account's,
    and of those only [autoTrackedAmount] changes. *)
Theorem goals_of_other_accounts_kept (cl : State.t) (w : World)
    (bankAccountId : string) (ti te : JS.number)
    (incomesArray : list Income.t) (expensesArray : list Expense.t) :
  State.savingsGoals cl = State.savingsGoals (state w) ->
  let w1 := updateAutoTrackedSavingsForAccount cl bankAccountId ti te w in
  let w2 := recalculateAndUpdateTotalsWithArray cl bankAccountId incomesArray
              expensesArray w in
  (forall n goal b,
      nth_error (State.savingsGoals (state w)) n = Some goal ->
      SavingsGoal.bankAccountId goal = Some b ->
      b <> ""%string -> b <> bankAccountId ->
      nth_error (State.savingsGoals (state w1)) n = Some goal
      /\ nth_error (State.savingsGoals (state w2)) n = Some goal)
  /\ (forall n goal,
         nth_error (State.savingsGoals (state w)) n = Some goal ->
         SavingsGoal.bankAccountId goal = None
         \/ SavingsGoal.bankAccountId goal = Some ""%string
         \/ SavingsGoal.bankAccountId goal = Some bankAccountId ->
         nth_error (State.savingsGoals (state w1)) n
         = Some (SavingsGoal.mk (SavingsGoal.id goal)
                   (SavingsGoal.userId goal) (SavingsGoal.title goal)
                   (SavingsGoal.targetAmount goal)
                   (SavingsGoal.bankAccountId goal)
                   (Some (JS.Math_max 0 (ti - te)))))
  /\ length (State.savingsGoals (state w1))
     = length (State.savingsGoals (state w))
  /\ length (State.savingsGoals (state w2))
     = length (State.savingsGoals (state w)).
Proof.
  intros Hcl w1 w2.
  assert (H1 : State.savingsGoals (state w1)
               = refreshed_goals (State.savingsGoals (state w))
                   bankAccountId ti te).
  { subst w1. now rewrite updateAutoTracked_state, Hcl. }
  assert (H2 := recalculate_goals cl w bankAccountId incomesArray
                  expensesArray).
  fold w2 in H2. rewrite Hcl in H2.
  splits.
  - intros n goal b Hn Hb Hset Hother.
    pose proof (out_of_scope goal bankAccountId b Hb Hset Hother) as Hout.
    split.
    + rewrite H1, (refreshed_goals_nth _ _ _ _ _ _ Hn). now rewrite Hout.
    + rewrite H2. destruct (JS.find _ _); [| exact Hn].
      rewrite (refreshed_goals_nth _ _ _ _ _ _ Hn). now rewrite Hout.
  - intros n goal Hn Hscope. apply in_scope_cases in Hscope.
    rewrite H1, (refreshed_goals_nth _ _ _ _ _ _ Hn). now rewrite Hscope.
  - rewrite H1. unfold refreshed_goals. apply length_map.
  - rewrite H2. destruct (JS.find _ _); [| reflexivity].
    unfold refreshed_goals. apply length_map.
Qed.

End GoalFrameFacts.

Section IdempotenceFacts.
Local Open Scope float_scope.

Lemma with_totals_again (a : BankAccount.t) (ti te cb : JS.number) :
  BankAccount.with_totals (BankAccount.with_totals a ti te cb) ti te cb
  = BankAccount.with_totals a ti te cb.
Proof. reflexivity. Qed.

Lemma find_after_replace (key : string) (updated : BankAccount.t)
    (l : list BankAccount.t) (a : BankAccount.t) :
  BankAccount.id updated = key ->
  JS.find (fun a => String.eqb (BankAccount.id a) key) l = Some a ->
  JS.find (fun a => String.eqb (BankAccount.id a) key)
    (map (fun a => if String.eqb (BankAccount.id a) key then updated else a)
         l)
  = Some updated.
Proof.
  intros Hid. unfold JS.find.
  induction l as [| x l IH]; cbn; [discriminate |].
  destruct (String.eqb (BankAccount.id x) key) eqn:Hx.
  - intros _. now rewrite Hid, String.eqb_refl.
  - rewrite Hx. exact IH.
Qed.

Lemma replace_again (key : string) (updated : BankAccount.t)
    (l : list BankAccount.t) :
  BankAccount.id updated = key ->
  map (fun a => if String.eqb (BankAccount.id a) key then updated else a)
    (map (fun a => if String.eqb (BankAccount.id a) key then updated else a)
         l)
  = map (fun a => if String.eqb (BankAccount.id a) key then updated else a) l.
Proof.
  intros Hid. rewrite map_map. apply map_ext. intros x.
  destruct (String.eqb (BankAccount.id x) key) eqn:Hx.
  - now rewrite Hid, String.eqb_refl.
  - now rewrite Hx.
Qed.

Lemma refreshed_again (goals : list SavingsGoal.t) (key : string)
    (ti te : JS.number) :
  refreshed_goals (refreshed_goals goals key ti te) key ti te
  = refreshed_goals goals key ti te.
Proof.
  unfold refreshed_goals. rewrite map_map. apply map_ext. intros goal.
  destruct (in_scope goal key) eqn:Hscope.
  - unfold in_scope in *. cbn. now rewrite Hscope.
  - now rewrite Hscope.
Qed.

Lemma recalculate_state (cl : State.t) (w : World) (bankAccountId : string)
    (incomesArray : list Income.t) (expensesArray : list Expense.t)
    (account : BankAccount.t) :
  JS.find (fun a => String.eqb (BankAccount.id a) bankAccountId)
          (State.bankAccounts cl) = Some account ->
  let ti := sum_amounts Income.amount
              (filter (fun i =>
                         String.eqb (Income.bankAccountId i) bankAccountId)
                      incomesArray) in
  let te := sum_amounts Expense.amount
              (filter (fun e =>
                         String.eqb (Expense.bankAccountId e) bankAccountId)
                      expensesArray) in
  let updated := BankAccount.with_totals account ti te (ti - te) in
  state (recalculateAndUpdateTotalsWithArray cl bankAccountId incomesArray
           expensesArray w)
  = State.set_savingsGoals
      (refreshed_goals (State.savingsGoals cl) bankAccountId ti te)
      ((if selected_is cl bankAccountId
        then State.set_selectedBankAccount (Some updated)
        else fun s => s)
         (State.set_bankAccounts
            (map (fun a => if String.eqb (BankAccount.id a) bankAccountId
                           then updated else a)
                 (State.bankAccounts (state w)))
            (state w))).
Proof.
  intros Hfind ti te updated.
  destruct (find_id_eq _ _ _ _ Hfind) as [_ Hid].
  unfold recalculateAndUpdateTotalsWithArray.
  rewrite Hfind; unfold seq at 1.
  rewrite updateAutoTracked_state.
  unfold updateBankAccount, seq, setBankAccounts, setState, call.
  cbn [BankAccount.with_totals BankAccount.id]; rewrite Hid.
  destruct (selected_is cl bankAccountId); reflexivity.
Qed.

(** X2. Recomputing the totals of an account a second time, from the render
    that follows the first recomputation and with the same arrays, changes
    no state cell. *)
Theorem recalculate_twice (w : World) (bankAccountId : string)
    (incomesArray : list Income.t) (expensesArray : list Expense.t) :
  let w1 := recalculateAndUpdateTotalsWithArray (state w) bankAccountId
              incomesArray expensesArray w in
  let w2 := recalculateAndUpdateTotalsWithArray (state w1) bankAccountId
              incomesArray expensesArray w1 in
  state w2 = state w1.
Proof.
  intros w1 w2.
  destruct (JS.find (fun a => String.eqb (BankAccount.id a) bankAccountId)
                    (State.bankAccounts (state w))) as [account |] eqn:Hfind.
  - pose proof (recalculate_state (state w) w bankAccountId incomesArray
                  expensesArray account Hfind) as H1.
    cbv zeta in H1. fold w1 in H1.
    destruct (find_id_eq _ _ _ _ Hfind) as [_ Hid].
    set (ti := sum_amounts Income.amount _) in H1.
    set (te := sum_amounts Expense.amount _) in H1.
    set (updated := BankAccount.with_totals account ti te (ti - te)) in H1.
    assert (Hupd : BankAccount.id updated = bankAccountId) by exact Hid.
    assert (Hfind1 : JS.find
                       (fun a => String.eqb (BankAccount.id a) bankAccountId)
                       (State.bankAccounts (state w1)) = Some updated).
    { rewrite H1.
      destruct (selected_is (state w) bankAccountId); cbn;
        now apply (find_after_replace _ _ _ account). }
    pose proof (recalculate_state (state w1) w1 bankAccountId incomesArray
                  expensesArray updated Hfind1) as H2.
    cbv zeta in H2. fold w2 ti te in H2.
    change (BankAccount.with_totals updated ti te (ti - te)) with updated
      in H2.
    assert (Hgoals : State.savingsGoals (state w1)
                     = refreshed_goals (State.savingsGoals (state w))
                         bankAccountId ti te)
      by (rewrite H1; reflexivity).
    assert (Haccounts : State.bankAccounts (state w1)
                        = map (fun a =>
                                 if String.eqb (BankAccount.id a) bankAccountId
                                 then updated else a)
                              (State.bankAccounts (state w)))
      by (rewrite H1; destruct (selected_is (state w) bankAccountId);
          reflexivity).
    assert (Hselected : selected_is (state w1) bankAccountId
                        = selected_is (state w) bankAccountId).
    { rewrite H1. unfold selected_is at 2 3.
      destruct (State.selectedBankAccount (state w)) as [sel |] eqn:Hsel;
        [destruct (String.eqb (BankAccount.id sel) bankAccountId) eqn:Hs |];
        unfold selected_is; cbn [State.selectedBankAccount
                                 State.set_savingsGoals
                                 State.set_selectedBankAccount
                                 State.set_bankAccounts];
        rewrite ?Hsel, ?Hs, ?Hupd, ?String.eqb_refl; reflexivity. }
    rewrite H2, Hgoals, Haccounts, Hselected.
    rewrite refreshed_again, (replace_again _ _ _ Hupd), H1.
    destruct (selected_is (state w) bankAccountId); reflexivity.
  - assert (Hw1 : w1 = w).
    { subst w1. unfold recalculateAndUpdateTotalsWithArray.
      now rewrite Hfind. }
    subst w2. rewrite Hw1. unfold recalculateAndUpdateTotalsWithArray.
    now rewrite Hfind.
Qed.

End IdempotenceFacts.

Section SnapshotFacts.
Local Open Scope float_scope.

(** C2, as the code has it.  A snapshot of the expenses collection puts
    exactly its decoded documents in [expenses], whatever was there; it sets
    the provider's own [totalExpense] cell to the sum of their amounts
    ([Number(amount) || 0]), clears [loading], and then [monthlySavings] is
    refreshed from the two total cells.  It runs no recomputation of account
    totals: [bankAccounts], [selectedBankAccount] and [savingsGoals] stay as
    they were and nothing is written to storage.  The incomes listener does
    the same with [incomes] and [totalIncome]. *)
Theorem snapshot_replaces_array (toLowerCase : string -> string) (w : World)
    (expenseDocs : list (Doc Expense.t)) (incomeDocs : list (Doc Income.t)) :
  let we := run toLowerCase (ExpensesSnapshot expenseDocs) w in
  let wi := run toLowerCase (IncomesSnapshot incomeDocs) w in
  let expenseList := map expense_of_doc expenseDocs in
  let incomeList := map income_of_doc incomeDocs in
  (State.expenses (state we) = expenseList
   /\ State.totalExpense (state we) = sum_amounts_or0 Expense.amount expenseList
   /\ State.loading (state we) = false
   /\ State.monthlySavings (state we)
      = State.totalIncome (state w)
        - sum_amounts_or0 Expense.amount expenseList
   /\ State.incomes (state we) = State.incomes (state w)
   /\ State.bankAccounts (state we) = State.bankAccounts (state w)
   /\ State.selectedBankAccount (state we)
      = State.selectedBankAccount (state w)
   /\ State.savingsGoals (state we) = State.savingsGoals (state w)
   /\ effects we = effects w)
  /\ (State.incomes (state wi) = incomeList
      /\ State.totalIncome (state wi)
         = sum_amounts_or0 Income.amount incomeList
      /\ State.loading (state wi) = false
      /\ State.monthlySavings (state wi)
         = sum_amounts_or0 Income.amount incomeList
           - State.totalExpense (state w)
      /\ State.expenses (state wi) = State.expenses (state w)
      /\ State.bankAccounts (state wi) = State.bankAccounts (state w)
      /\ State.selectedBankAccount (state wi)
         = State.selectedBankAccount (state w)
      /\ State.savingsGoals (state wi) = State.savingsGoals (state w)
      /\ effects wi = effects w).
Proof.
  cbv zeta. splits; reflexivity.
Qed.

End SnapshotFacts.

Section SavingsGoalFacts.
Variable toLowerCase : string -> string.

Lemma find_same_goal (title uid : string) (goals : list SavingsGoal.t)
    (existing : SavingsGoal.t) :
  In existing goals ->
  toLowerCase (SavingsGoal.title existing) = toLowerCase title ->
  SavingsGoal.userId existing = uid ->
  exists g, JS.find (same_goal toLowerCase title uid) goals = Some g.
Proof.
  intros Hin Htitle Huid.
  destruct (JS.find (same_goal toLowerCase title uid) goals) as [g |] eqn:Hfind.
  - now exists g.
  - exfalso. unfold JS.find in Hfind.
    pose proof (find_none _ _ Hfind existing Hin) as Hno.
    unfold same_goal in Hno.
    rewrite Htitle, Huid, !String.eqb_refl in Hno. discriminate.
Qed.

Lemma find_none_count {A : Type} (p : A -> bool) (l : list A) :
  JS.find p l = None -> length (filter p l) = 0%nat.
Proof.
  unfold JS.find. induction l as [| x l IH]; cbn; [reflexivity |].
  destruct (p x); [discriminate | exact IH].
Qed.

Lemma find_some_count {A : Type} (p : A -> bool) (l : list A) (x : A) :
  JS.find p l = Some x -> (1 <= length (filter p l))%nat.
Proof.
  unfold JS.find. intros Hfind. apply find_some in Hfind as [Hin Hp].
  assert (Hin' : In x (filter p l)) by (apply filter_In; split; assumption).
  destruct (filter p l); [contradiction | cbn; lia].
Qed.

Lemma addSavingsGoal_duplicate (cl : State.t) (w : World)
    (newId uid : string) (goalData existing : SavingsGoal.t) :
  State.user cl = Some uid ->
  In existing (State.savingsGoals cl) ->
  toLowerCase (SavingsGoal.title existing)
  = toLowerCase (SavingsGoal.title goalData) ->
  SavingsGoal.userId existing = uid ->
  let w' := addSavingsGoal toLowerCase cl newId goalData w in
  state w' = state w
  /\ effects w'
     = effects w
       ++ [console_warn "A goal with this title already exists:"
                        (SavingsGoal.title goalData)].
Proof.
  intros Huser Hin Htitle Huid w'.
  subst w'; unfold addSavingsGoal. rewrite Huser.
  destruct (find_same_goal _ _ _ _ Hin Htitle Huid) as [g ->].
  split; reflexivity.
Qed.

(** C7. For a signed-in owner, [addSavingsGoal] with a title that equals,
    case apart, the title of one of the owner's goals changes no state cell
    (no goal is created, the goals are as before) and writes nothing to
    storage: it only logs a warning.  So when the owner has at most one goal
    of some title, two calls in a row with that title leave exactly one: the
    second call is rejected. *)
Theorem duplicate_goal_rejected :
  (forall (cl : State.t) (w : World) (newId uid : string)
          (goalData existing : SavingsGoal.t),
      State.user cl = Some uid ->
      In existing (State.savingsGoals cl) ->
      toLowerCase (SavingsGoal.title existing)
      = toLowerCase (SavingsGoal.title goalData) ->
      SavingsGoal.userId existing = uid ->
      let w' := addSavingsGoal toLowerCase cl newId goalData w in
      state w' = state w
      /\ effects w'
         = effects w
           ++ [console_warn "A goal with this title already exists:"
                            (SavingsGoal.title goalData)])
  /\ (forall (w : World) (id1 id2 uid : string)
             (goalData : SavingsGoal.t),
         State.user (state w) = Some uid ->
         (goals_titled toLowerCase (SavingsGoal.title goalData) uid
            (State.savingsGoals (state w)) <= 1)%nat ->
         let w1 := run toLowerCase (AddSavingsGoal id1 goalData) w in
         let w2 := run toLowerCase (AddSavingsGoal id2 goalData) w1 in
         state w2 = state w1
         /\ effects w2
            = effects w1
              ++ [console_warn "A goal with this title already exists:"
                               (SavingsGoal.title goalData)]
         /\ goals_titled toLowerCase (SavingsGoal.title goalData) uid
              (State.savingsGoals (state w2)) = 1%nat).
Proof.
  split; [exact addSavingsGoal_duplicate |].
  intros w id1 id2 uid goalData Huser Hcount w1 w2.
  set (title := SavingsGoal.title goalData) in *.
  assert (Hw1 : exists goal,
             In goal (State.savingsGoals (state w1))
             /\ toLowerCase (SavingsGoal.title goal) = toLowerCase title
             /\ SavingsGoal.userId goal = uid
             /\ State.user (state w1) = Some uid
             /\ goals_titled toLowerCase title uid
                  (State.savingsGoals (state w1)) = 1%nat).
  { subst w1; unfold run, addSavingsGoal. rewrite Huser. fold title.
    destruct (JS.find (same_goal toLowerCase title uid)
                      (State.savingsGoals (state w))) as [g |] eqn:Hfind.
    - (* rejected already the first time *)
      pose proof (find_some_count _ _ _ Hfind) as Hone.
      unfold JS.find in Hfind. apply find_some in Hfind as [Hin Hp].
      unfold same_goal in Hp.
      apply andb_true_iff in Hp as [Ht Hu].
      apply String.eqb_eq in Ht, Hu.
      exists g. cbn [state call]. unfold goals_titled in *.
      splits; try assumption. lia.
    - (* created the first time *)
      pose proof (find_none_count _ _ Hfind) as Hzero.
      eexists. cbn [state seq call setSavingsGoals setState
                    State.savingsGoals State.set_savingsGoals State.user].
      splits.
      + apply in_or_app; right; left; reflexivity.
      + reflexivity.
      + reflexivity.
      + exact Huser.
      + unfold goals_titled. rewrite filter_app, length_app, Hzero. cbn.
        unfold same_goal; cbn. now rewrite !String.eqb_refl. }
  destruct Hw1 as (goal & Hin & Htitle & Huid & Huser1 & Hone).
  destruct (addSavingsGoal_duplicate (state w1) w1 id2 uid goalData goal
              Huser1 Hin Htitle Huid) as [Hstate Heffects].
  fold (run toLowerCase (AddSavingsGoal id2 goalData) w1) in Hstate, Heffects.
  fold w2 in Hstate, Heffects.
  splits; [exact Hstate | exact Heffects | now rewrite Hstate].
Qed.

End SavingsGoalFacts.

Section BankAccountFacts.
Local Open Scope float_scope.

(** C8, as the code has it.  For a signed-in user, a new id and a positive
    [startingBalance], [addBankAccount] creates the account with
    [totalIncome] and [currentBalance] already equal to [startingBalance]
    and [totalExpense = 0], saves it, appends it to [bankAccounts] and
    selects it; then it seeds, through [addIncome], exactly one income:
    source "Initial Balance", amount [startingBalance], for the new account.
    The handler that seeds belongs to the render that does not yet hold the
    new account, so the seeding rewrites no total: with
    [startingBalance = 1000] the account ends with [totalIncome = 1000] and
    [currentBalance = 1000]. *)
Theorem addBankAccount_seeds_income (cl : State.t) (w : World)
    (newId createdAt incomeId incomeDate uid : string)
    (accountData : BankAccount.t) :
  State.user cl = Some uid ->
  JS.find (fun a => String.eqb (BankAccount.id a) newId)
          (State.bankAccounts cl) = None ->
  JS.gt (BankAccount.startingBalance accountData) 0 = true ->
  let balance := BankAccount.startingBalance accountData in
  let account := new_account accountData newId uid createdAt in
  let income := income_with_id (initialIncome account incomeDate)
                  incomeId uid in
  let w' := addBankAccount cl newId createdAt incomeId incomeDate
              accountData w in
  (BankAccount.totalIncome account = balance
   /\ BankAccount.totalExpense account = 0
   /\ BankAccount.currentBalance account = balance)
  /\ State.bankAccounts (state w') = State.bankAccounts (state w) ++ [account]
  /\ State.selectedBankAccount (state w') = Some account
  /\ State.incomes (state w') = State.incomes (state w) ++ [income]
  /\ (Income.source income = "Initial Balance"%string
      /\ Income.amount income = balance
      /\ Income.bankAccountId income = newId)
  /\ State.savingsGoals (state w') = State.savingsGoals (state w)
  /\ effects w'
     = effects w ++ [saveBankAccountToStorage account;
                     saveIncomeToStorage income]
  /\ (balance = 1000 ->
      BankAccount.totalIncome account = 1000
      /\ BankAccount.currentBalance account = 1000).
Proof.
  intros Huser Hfresh Hpos balance account income w'.
  assert (Hw' : w' = mkWorld
                  (State.set_incomes (State.incomes (state w) ++ [income])
                     (State.set_selectedBankAccount (Some account)
                        (State.set_bankAccounts
                           (State.bankAccounts (state w) ++ [account])
                           (state w))))
                  (effects w ++ [saveBankAccountToStorage account;
                                 saveIncomeToStorage income])).
  { subst w'; unfold addBankAccount. rewrite Huser, Hpos.
    unfold addIncome. rewrite Huser.
    unfold seq, setIncomes, call, setBankAccounts, setSelectedBankAccount,
      setState.
    cbn [state effects State.incomes State.set_selectedBankAccount
         State.set_bankAccounts].
    unfold recalculateAndUpdateTotalsWithArray.
    cbn [income_with_id Income.bankAccountId initialIncome new_account
         BankAccount.id].
    rewrite Hfresh. unfold skip. cbn [state effects].
    rewrite <- app_assoc. reflexivity. }
  rewrite Hw'. cbn [state effects]. splits; try reflexivity.
  intros Hb. subst balance. cbn [account new_account BankAccount.totalIncome
    BankAccount.currentBalance]. now rewrite Hb.
Qed.

End BankAccountFacts.

Section GoalInvariant.
Variable toLowerCase : string -> string.
Local Open Scope float_scope.

Local Abbreviation goals_of w := (State.savingsGoals (state w)).

Lemma with_auto_ok (goal : SavingsGoal.t) (x : JS.number) :
  goal_ok (SavingsGoal.with_auto goal (JS.Math_max 0 x)).
Proof. unfold goal_ok; cbn. apply Math_max_zero. Qed.

Lemma refreshed_goals_ok (goals : list SavingsGoal.t) (bankAccountId : string)
    (ti te : JS.number) :
  Forall goal_ok goals ->
  Forall goal_ok (refreshed_goals goals bankAccountId ti te).
Proof.
  intros Hok. unfold refreshed_goals. apply Forall_map.
  eapply Forall_impl; [| exact Hok].
  intros goal Hgoal. destruct (in_scope goal bankAccountId);
    [apply with_auto_ok | exact Hgoal].
Qed.

Lemma updateAutoTracked_ok (cl : State.t) (w : World) (bankAccountId : string)
    (ti te : JS.number) :
  Forall goal_ok (State.savingsGoals cl) ->
  Forall goal_ok
    (goals_of (updateAutoTrackedSavingsForAccount cl bankAccountId ti te w)).
Proof.
  intros Hcl. rewrite updateAutoTracked_state. cbn.
  now apply refreshed_goals_ok.
Qed.

Lemma recalculate_ok (cl : State.t) (w : World) (bankAccountId : string)
    (incomesArray : list Income.t) (expensesArray : list Expense.t) :
  Forall goal_ok (State.savingsGoals cl) ->
  Forall goal_ok (goals_of w) ->
  Forall goal_ok
    (goals_of (recalculateAndUpdateTotalsWithArray cl bankAccountId
                 incomesArray expensesArray w)).
Proof.
  intros Hcl Hw. rewrite recalculate_goals.
  destruct (JS.find _ _); [now apply refreshed_goals_ok | exact Hw].
Qed.

Lemma updateAll_state (cl : State.t) (w : World) (selected : BankAccount.t) :
  State.selectedBankAccount cl = Some selected ->
  state (updateAllAutoTrackedSavings cl w)
  = State.set_savingsGoals
      (map (fun goal =>
              SavingsGoal.with_auto goal
                (JS.Math_max 0 (BankAccount.totalIncome selected
                                - BankAccount.totalExpense selected)))
           (State.savingsGoals cl))
      (state w).
Proof.
  intros Hsel. unfold updateAllAutoTrackedSavings. rewrite Hsel.
  unfold seq, setSavingsGoals, setState. cbn [state].
  match goal with
  | |- context [forEach ?f ?l w] =>
      destruct (only_effects_forEach f l) with (w := w) as [-> _]
  end; [auto with actions | reflexivity].
Qed.

Lemma updateAll_ok (cl : State.t) (w : World) :
  Forall goal_ok (goals_of w) ->
  Forall goal_ok (goals_of (updateAllAutoTrackedSavings cl w)).
Proof.
  intros Hw.
  destruct (State.selectedBankAccount cl) as [selected |] eqn:Hsel.
  - rewrite (updateAll_state cl w selected Hsel). cbn.
    apply Forall_map, Forall_forall. intros goal _. apply with_auto_ok.
  - unfold updateAllAutoTrackedSavings. now rewrite Hsel.
Qed.

(** [removeDuplicateGoals] keeps a sublist of its argument and only adds
    effects. *)
Lemma dedup_fold (cl : State.t) (goals : list SavingsGoal.t)
    (P : SavingsGoal.t -> Prop)
    (acc : list string * list SavingsGoal.t * Action) :
  Forall P goals ->
  Forall P (snd (fst acc)) -> only_effects (snd acc) ->
  let r := fold_left (dedup_step toLowerCase cl) goals acc in
  Forall P (snd (fst r)) /\ only_effects (snd r).
Proof.
  revert acc. induction goals as [| goal goals IH]; intros acc Hgoals Hacc Hdone.
  - cbn. split; assumption.
  - cbn [fold_left]. apply Forall_cons_iff in Hgoals as [Hgoal Hgoals].
    apply IH; [exact Hgoals | |];
      destruct acc as [[seen unique] done]; cbn [dedup_step];
      destruct (existsb _ seen); cbn [fst snd] in *; try assumption.
    + apply Forall_app; split; [assumption | now constructor].
    + destruct (State.user cl); auto with actions.
Qed.

Lemma removeDuplicateGoals_ok (cl : State.t) (goals : list SavingsGoal.t)
    (P : SavingsGoal.t -> Prop) :
  Forall P goals ->
  Forall P (fst (removeDuplicateGoals toLowerCase cl goals))
  /\ only_effects (snd (removeDuplicateGoals toLowerCase cl goals)).
Proof.
  intros Hgoals. unfold removeDuplicateGoals.
  pose proof (dedup_fold cl goals P ([], [], skip) Hgoals) as Hfold.
  cbn [fst snd] in Hfold. specialize (Hfold (Forall_nil _) only_effects_skip).
  cbv zeta in Hfold.
  destruct (fold_left _ goals _) as [[seen unique] done]. exact Hfold.
Qed.

Lemma run_keeps_goals_ok (c : Command) (w : World) :
  Forall goal_ok (goals_of w) -> brings_ok_goals c ->
  Forall goal_ok (goals_of (run toLowerCase c w)).
Proof.
  intros Hw Hc.
  destruct c; cbn [run brings_ok_goals] in *.
  - (* addBankAccount *)
    unfold addBankAccount. destruct (State.user (state w)) eqn:Huser;
      [| exact Hw].
    unfold seq. destruct (JS.gt _ _); [| exact Hw].
    unfold addIncome. rewrite Huser. unfold seq, setIncomes.
    cbn. apply recalculate_ok; assumption.
  - (* updateBankAccount *)
    unfold updateBankAccount, seq. destruct (selected_is _ _); exact Hw.
  - (* deleteBankAccount *)
    unfold deleteBankAccount. destruct (State.user _); [| exact Hw].
    unfold seq. destruct (selected_is _ _); exact Hw.
  - exact Hw.
  - (* addIncome *)
    unfold addIncome. destruct (State.user _); [| exact Hw].
    unfold seq, setIncomes. cbn. apply recalculate_ok; assumption.
  - unfold updateIncome, seq, setIncomes. cbn.
    apply recalculate_ok; assumption.
  - unfold deleteIncome. destruct (JS.find _ _); [| exact Hw].
    unfold seq, setIncomes. cbn. apply recalculate_ok; assumption.
  - (* addExpense *)
    unfold addExpense. destruct (State.user _); [| exact Hw].
    unfold setExpenses. cbn. apply recalculate_ok; assumption.
  - unfold updateExpense, setExpenses. cbn.
    apply recalculate_ok; assumption.
  - unfold deleteExpense, setExpenses. cbn.
    destruct (JS.find _ _); [apply recalculate_ok; assumption | exact Hw].
  - unfold addBudget. destruct (State.user _); exact Hw.
  - exact Hw.
  - exact Hw.
  - (* addSavingsGoal *)
    unfold addSavingsGoal. destruct (State.user _); [| exact Hw].
    destruct (JS.find _ _); [exact Hw |]. cbn.
    apply Forall_app; split; [exact Hw |]. constructor; [| constructor].
    unfold goal_ok; cbn. apply Math_max_zero.
  - (* updateSavingsGoal *)
    cbn. apply Forall_map. eapply Forall_impl; [| exact Hw].
    intros g Hg. destruct (String.eqb _ _); assumption.
  - (* deleteSavingsGoal *)
    unfold deleteSavingsGoal. destruct (State.user _); [| exact Hw].
    cbn. apply Forall_forall. intros g Hg. apply filter_In in Hg as [Hg _].
    revert g Hg. now apply Forall_forall.
  - (* refreshData *)
    unfold refreshData. destruct (State.user _); [| exact Hw].
    destruct (removeDuplicateGoals_ok (state w) storedGoals goal_ok Hc)
      as [Hkept _].
    destruct (removeDuplicateGoals _ _ _) as [kept done]. exact Hkept.
  - now apply updateAutoTracked_ok.
  - now apply updateAll_ok.
  - (* the effect on selectedBankAccount *)
    unfold selectedAccountEffect.
    destruct (State.selectedBankAccount (state w)) eqn:Hsel; [| exact Hw].
    unfold seq at 1. rewrite (updateAll_state _ _ _ Hsel). cbn.
    apply Forall_map, Forall_forall. intros goal _. apply with_auto_ok.
  - unfold subscribeEffect. destruct (subscribed _); exact Hw.
  - exact Hw.
  - exact Hw.
Qed.

(** C3, as the code has it.  [Math.max(0, x)] is [>= 0] for every [x] that
    is a number, and NaN when [x] is NaN.  The operations that refresh
    [autoTrackedAmount] write [Math.max(0, totalIncome - totalExpense)]:
    [updateAllAutoTrackedSavings] into every goal, [addSavingsGoal] into the
    goal it creates ([updateAutoTrackedSavingsForAccount] into the goals in
    scope).  [updateSavingsGoal] stores its argument as it is, and the loads
    store what storage returns; so [autoTrackedAmount] is never below zero
    after any sequence of operations and events, provided the goals handed
    to [updateSavingsGoal] and read from storage are so. *)
Theorem goals_never_negative :
  (forall x : JS.number,
      (JS.ge (JS.Math_max 0 x) 0 = true \/ is_nan (JS.Math_max 0 x) = true)
      /\ (is_nan x = false -> JS.ge (JS.Math_max 0 x) 0 = true))
  /\ (forall (cl : State.t) (w : World) (selected : BankAccount.t),
         State.selectedBankAccount cl = Some selected ->
         goals_of (updateAllAutoTrackedSavings cl w)
         = map (fun goal =>
                  SavingsGoal.with_auto goal
                    (JS.Math_max 0 (BankAccount.totalIncome selected
                                    - BankAccount.totalExpense selected)))
               (State.savingsGoals cl))
  /\ (forall (cs : list Command) (w : World),
         Forall goal_ok (goals_of w) ->
         Forall brings_ok_goals cs ->
         Forall goal_ok (goals_of (run_all toLowerCase cs w))).
Proof.
  splits.
  - intros x. split; [apply Math_max_zero |].
    intros Hnum. destruct (Math_max_zero x) as [Hge | Hnan]; [exact Hge |].
    exfalso. revert Hnan. unfold JS.Math_max.
    change (is_nan 0) with false. rewrite Hnum. cbn [orb].
    destruct (0 <? x); [congruence |].
    destruct (x <? 0); cbn; discriminate.
  - intros cl w selected Hsel. now rewrite (updateAll_state cl w selected Hsel).
  - intros cs. induction cs as [| c cs IH]; intros w Hw Hcs; [exact Hw |].
    apply Forall_cons_iff in Hcs as [Hc Hcs].
    cbn [run_all fold_left]. apply IH; [| exact Hcs].
    now apply run_keeps_goals_ok.
Qed.

End GoalInvariant.

(** ** Concrete runs *)

Section Runs.
Local Open Scope float_scope.

Lemma recalculate_sets_totals_witness :
  JS.find (fun a => String.eqb (BankAccount.id a) "acc1")
          (State.bankAccounts (state Sample.with_account))
  = Some (BankAccount.mk "acc1" "u1" "hdfc" "hdfc" None
            "2024-03-01T00:00:00.000Z" 1000 1000 0 1000)
  /\ map (fun a => (BankAccount.totalIncome a, BankAccount.totalExpense a,
                    BankAccount.currentBalance a))
         (State.bankAccounts
            (state (recalculateAndUpdateTotalsWithArray
                      (state Sample.with_account) "acc1"
                      [Sample.salary] [Sample.lunch; Sample.snacks]
                      Sample.with_account)))
     = [(1200, 850, 350)].
Proof.
  split; [vm_compute; reflexivity |].
  rewrite (proj1 (recalculate_sets_totals (state Sample.with_account)
                    Sample.with_account "acc1" [Sample.salary]
                    [Sample.lunch; Sample.snacks] _ eq_refl)).
  vm_compute. reflexivity.
Defined.

(** The optimistic expense of 250 is dropped by an empty snapshot, and the
    account keeps [totalExpense = 250]; a recomputation from the snapshot
    would have made it 0. *)
Lemma snapshot_leaves_account_totals :
  let w := Sample.run (ExpensesSnapshot []) Sample.with_expense in
  State.expenses (state w) = []
  /\ map BankAccount.totalExpense (State.bankAccounts (state w)) = [250]
  /\ map BankAccount.totalExpense
       (State.bankAccounts
          (state (recalculateAndUpdateTotalsWithArray (state w) "acc1"
                    (State.incomes (state w)) (State.expenses (state w)) w)))
     = [0].
Proof. vm_compute. repeat split. Qed.

(** [updateSavingsGoal] with an amount of -5 puts -5 in the state. *)
Lemma updateSavingsGoal_stores_negative :
  let w := Sample.run_all
             [AddSavingsGoal "g1" (Sample.goal "Vacation" None None);
              UpdateSavingsGoal (Sample.goal "Vacation" None (Some (-5)))]
             Sample.with_account in
  map SavingsGoal.autoTrackedAmount (State.savingsGoals (state w))
  = [Some (-5)]
  /\ JS.ge (-5) 0 = false.
Proof. vm_compute. split; reflexivity. Qed.

Lemma goals_never_negative_witness :
  Forall goal_ok
    (State.savingsGoals
       (state (Sample.run_all
                 [AddSavingsGoal "g1" (Sample.goal "Vacation" None None);
                  AddExpense "e9" (Sample.expense "" "food" 2500 "2024-03-03");
                  UpdateAllAutoTrackedSavings]
                 Sample.with_account))).
Proof.
  apply (proj2 (proj2 (goals_never_negative JS.toLowerCase_ascii))).
  - vm_compute. constructor.
  - repeat constructor.
Defined.

Lemma summary_with_account_witness :
  let expenses := [Sample.groceries; Sample.dinner; Sample.february_trip] in
  let date := Some (Some Sample.mid_march) in
  let s := calculateFinancialSummaryWithAccount Sample.march_1 [] expenses []
             (Some (Sample.account 5000 6000)) date in
  let s0 := calculateFinancialSummaryWithAccount Sample.march_1 [] expenses []
              (Some (Sample.account 0 6000)) date in
  (FinancialSummary.savings s = -1000 /\ FinancialSummary.savingsRate s = -20)
  /\ FinancialSummary.savingsRate s = (5000 - 6000) / 5000 * 100
  /\ FinancialSummary.savingsRate s0 = 0.
Proof.
  cbv zeta.
  pose proof (summary_with_account Sample.march_1 []
                [Sample.groceries; Sample.dinner; Sample.february_trip] []
                (Sample.account 5000 6000) (Some (Some Sample.mid_march)))
    as (_ & _ & _ & Hrate & _ & Hscenario).
  pose proof (summary_with_account Sample.march_1 []
                [Sample.groceries; Sample.dinner; Sample.february_trip] []
                (Sample.account 0 6000) (Some (Some Sample.mid_march)))
    as (_ & _ & _ & _ & Hzero & _).
  split; [apply Hscenario; vm_compute; reflexivity |].
  split; [| apply Hzero; vm_compute; reflexivity].
  rewrite Hrate by (vm_compute; reflexivity).
  vm_compute. reflexivity.
Defined.

(** A budget of -100 on food with 6000 spent: the code answers 0, the
    quotient would be -6000. *)
Lemma budget_progress_negative_amount :
  let expenses := [Sample.groceries; Sample.dinner] in
  let date := Some (Some Sample.mid_march) in
  let budget := Sample.budget "food" (-100) in
  calculateBudgetProgress Sample.march_1 expenses budget date = 0
  /\ calculateCategoryExpenses Sample.march_1 expenses "food" date
     / Budget.budgetAmount budget * 100 = -6000
  /\ (Budget.budgetAmount budget =? 0) = false.
Proof. vm_compute. repeat split. Qed.

Lemma budget_progress_guarded_witness :
  let expenses := [Sample.lunch; Sample.snacks; Sample.february_trip] in
  let date := Some (Some Sample.mid_march) in
  calculateBudgetProgress Sample.march_1 expenses (Sample.budget "food" 1000)
    date = 85
  /\ calculateBudgetProgress Sample.march_1 expenses (Sample.budget "food" 0)
       date = 0
  /\ calculateBudgetProgress Sample.march_1 expenses
       (Sample.budget "food" (-100)) date = 0.
Proof.
  cbv zeta.
  pose proof (budget_progress_guarded Sample.march_1
                [Sample.lunch; Sample.snacks; Sample.february_trip]
                (Sample.budget "food" 1000) (Some (Some Sample.mid_march)))
    as (Hpos & _ & _).
  pose proof (budget_progress_guarded Sample.march_1
                [Sample.lunch; Sample.snacks; Sample.february_trip]
                (Sample.budget "food" 0) (Some (Some Sample.mid_march)))
    as (_ & _ & Hzero).
  pose proof (budget_progress_guarded Sample.march_1
                [Sample.lunch; Sample.snacks; Sample.february_trip]
                (Sample.budget "food" (-100)) (Some (Some Sample.mid_march)))
    as (_ & Hneg & _).
  split; [| split].
  - rewrite Hpos by (vm_compute; reflexivity). vm_compute. reflexivity.
  - apply Hzero. vm_compute. reflexivity.
  - apply Hneg. vm_compute. reflexivity.
Defined.

(** C6, where the code departs from it.  On 2024-03-01, a recurring bill
    due on 2024-03-11, ten days ahead, is returned whatever [daysAhead] is,
    also for a horizon of 7 days; the bill due on 2024-04-02, past one
    month, is not. *)
Theorem upcoming_bills_ignore_horizon (daysAhead : option JS.number) :
  getUpcomingBills Sample.march_1
    [Sample.bill "e7" "rent" 900 "2024-04-02"; Sample.subscription]
    daysAhead
  = [Sample.subscription]
  /\ UTC.parseISO "2024-03-11"
     = Some (Sample.march_1 + 10 * UTC.msPerDay)%Z.
Proof. split; vm_compute; reflexivity. Qed.

(** The same arguments, two instants: on 2024-03-01 the summary lists the
    bill due on 2024-03-11, on 2024-03-15 it lists none. *)
Lemma summary_bills_depend_on_clock :
  let date := Some (Some Sample.mid_march) in
  let account := Some (Sample.account 5000 0) in
  (FinancialSummary.upcomingBills
     (calculateFinancialSummary Sample.march_1 [] [Sample.subscription] []
        date)
   = [Sample.subscription]
   /\ FinancialSummary.upcomingBills
        (calculateFinancialSummary Sample.mid_march [] [Sample.subscription]
           [] date)
      = [])
  /\ (FinancialSummary.upcomingBills
        (calculateFinancialSummaryWithAccount Sample.march_1 []
           [Sample.subscription] [] account date)
      = [Sample.subscription]
      /\ FinancialSummary.upcomingBills
           (calculateFinancialSummaryWithAccount Sample.mid_march []
              [Sample.subscription] [] account date)
         = []).
Proof. vm_compute. repeat split. Qed.

Lemma duplicate_goal_rejected_witness :
  let data := Sample.goal "VACATION" None None in
  let w1 := Sample.run (AddSavingsGoal "g1" (Sample.goal "Vacation" None None))
              Sample.with_account in
  let w2 := Sample.run (AddSavingsGoal "g2" data) w1 in
  let w2' := Sample.run (AddSavingsGoal "g2" (Sample.goal "Vacation" None None))
               w1 in
  (state w2 = state w1
   /\ effects w2
      = effects w1
        ++ [console_warn "A goal with this title already exists:" "VACATION"])
  /\ (state w2' = state w1
      /\ effects w2'
         = effects w1
           ++ [console_warn "A goal with this title already exists:"
                            "Vacation"]
      /\ goals_titled JS.toLowerCase_ascii "Vacation" "u1"
           (State.savingsGoals (state w2')) = 1%nat).
Proof.
  cbv zeta.
  destruct (duplicate_goal_rejected JS.toLowerCase_ascii) as [Hdup Htwice].
  split.
  - apply (Hdup (state (Sample.run
                          (AddSavingsGoal "g1"
                             (Sample.goal "Vacation" None None))
                          Sample.with_account))
                _ "g2"%string "u1"%string (Sample.goal "VACATION" None None)
                (SavingsGoal.mk "g1" "u1" "Vacation" 10000 None (Some 1000)));
      vm_compute; auto.
  - apply (Htwice Sample.with_account "g1"%string "g2"%string "u1"%string
             (Sample.goal "Vacation" None None));
      vm_compute; [reflexivity | lia].
Defined.

Lemma addBankAccount_seeds_income_witness :
  State.bankAccounts (state Sample.opened)
  = [BankAccount.mk "acc1" "u1" "hdfc" "hdfc" None
       "2024-03-01T00:00:00.000Z" 1000 1000 0 1000]
  /\ State.incomes (state Sample.opened)
     = [Income.mk "i0" "u1" "acc1" "Initial Balance" 1000 OneTime
          "2024-03-01T00:00:00.000Z"
          (Some "Initial balance at account creation"%string)]
  /\ State.selectedBankAccount (state Sample.opened)
     = hd_error (State.bankAccounts (state Sample.opened)).
Proof.
  pose proof (addBankAccount_seeds_income (state Sample.signed_in)
                Sample.signed_in "acc1" "2024-03-01T00:00:00.000Z" "i0"
                "2024-03-01T00:00:00.000Z" "u1" (Sample.opening 1000)
                eq_refl eq_refl eq_refl)
    as (_ & Haccounts & Hselected & Hincomes & _).
  change (addBankAccount (state Sample.signed_in) "acc1"
            "2024-03-01T00:00:00.000Z" "i0" "2024-03-01T00:00:00.000Z"
            (Sample.opening 1000) Sample.signed_in)
    with Sample.opened in *.
  rewrite Haccounts, Hincomes, Hselected. repeat split.
Defined.

(** The account is created, and first saved, with [totalIncome = 1000],
    not 0. *)
Lemma new_account_starts_with_balance :
  hd_error (effects Sample.opened)
  = Some (saveBankAccountToStorage
            (new_account (Sample.opening 1000) "acc1" "u1"
               "2024-03-01T00:00:00.000Z"))
  /\ BankAccount.totalIncome
       (new_account (Sample.opening 1000) "acc1" "u1"
          "2024-03-01T00:00:00.000Z") = 1000
  /\ (1000 =? 0) = false.
Proof. vm_compute. repeat split. Qed.

Lemma goals_of_other_accounts_kept_witness :
  let other := Sample.goal "Car" (Some "acc2"%string) (Some 40) in
  let mine := Sample.goal "Vacation" (Some "acc1"%string) (Some 40) in
  let w := Sample.run_all [RefreshData
                             (State.bankAccounts (state Sample.with_account))
                             [] [] [other; mine]]
             Sample.with_account in
  map SavingsGoal.autoTrackedAmount
    (State.savingsGoals
       (state (updateAutoTrackedSavingsForAccount (state w) "acc1" 700 200 w)))
  = [Some 40; Some 500].
Proof.
  cbv zeta.
  set (w := Sample.run_all _ Sample.with_account).
  pose proof (goals_of_other_accounts_kept (state w) w "acc1" 700 200 [] []
                eq_refl) as (Hkept & Hrewritten & Hlen & _).
  destruct (Hkept 0%nat (Sample.goal "Car" (Some "acc2"%string) (Some 40))
              "acc2"%string eq_refl eq_refl) as [Hcar _];
    [discriminate | discriminate |].
  pose proof (Hrewritten 1%nat
                (Sample.goal "Vacation" (Some "acc1"%string) (Some 40))
                eq_refl (or_intror (or_intror eq_refl))) as Hvacation.
  destruct (State.savingsGoals
              (state (updateAutoTrackedSavingsForAccount (state w)
                        "acc1" 700 200 w))) as [| g0 [| g1 [| g2 l]]];
    try discriminate.
  cbn in Hcar, Hvacation. injection Hcar as ->. injection Hvacation as ->.
  vm_compute. reflexivity.
Defined.

End Runs.

(** * Further properties *)

(** ** Transactions and account totals *)

Section TransactionFacts.
Variable toLowerCase : string -> string.
Local Open Scope float_scope.

Lemma recalculate_unknown (cl : State.t) (w : World) (bankAccountId : string)
    (incomesArray : list Income.t) (expensesArray : list Expense.t) :
  JS.find (fun a => String.eqb (BankAccount.id a) bankAccountId)
          (State.bankAccounts cl) = None ->
  recalculateAndUpdateTotalsWithArray cl bankAccountId incomesArray
    expensesArray w = w.
Proof.
  intros Hfind. unfold recalculateAndUpdateTotalsWithArray.
  now rewrite Hfind.
Qed.

Lemma recalculate_cells (cl : State.t) (w : World) (bankAccountId : string)
    (incomesArray : list Income.t) (expensesArray : list Expense.t) :
  let w' := recalculateAndUpdateTotalsWithArray cl bankAccountId incomesArray
              expensesArray w in
  State.incomes (state w') = State.incomes (state w)
  /\ State.expenses (state w') = State.expenses (state w)
  /\ State.budgets (state w') = State.budgets (state w)
  /\ State.user (state w') = State.user (state w).
Proof.
  intros w'.
  destruct (JS.find (fun a => String.eqb (BankAccount.id a) bankAccountId)
                    (State.bankAccounts cl)) as [account |] eqn:Hfind.
  - subst w'. rewrite (recalculate_state cl w _ _ _ account Hfind).
    destruct (selected_is cl bankAccountId); repeat split.
  - subst w'. rewrite (recalculate_unknown _ _ _ _ _ Hfind). repeat split.
Qed.



Lemma recalculate_effects (cl : State.t) (w : World) (bankAccountId : string)
    (incomesArray : list Income.t) (expensesArray : list Expense.t) :
  exists es,
    effects (recalculateAndUpdateTotalsWithArray cl bankAccountId incomesArray
               expensesArray w)
    = effects w ++ es.
Proof.
  unfold recalculateAndUpdateTotalsWithArray.
  destruct (JS.find _ (State.bankAccounts cl)) as [account |].
  - unfold seq at 1.
    match goal with
    | |- context [updateAutoTrackedSavingsForAccount ?c ?b ?i ?e ?x] =>
        destruct (updateAutoTracked_effects c b i e x) as [es ->]
    end.
    unfold updateBankAccount, seq, setBankAccounts, setState, call.
    eexists. destruct (selected_is cl _);
      cbn [effects setSelectedBankAccount setState skip];
      rewrite <- app_assoc; reflexivity.
  - exists []. unfold skip. now rewrite app_nil_r.
Qed.

Lemma recalculate_accounts (cl : State.t) (w : World) (bankAccountId : string)
    (incomesArray : list Income.t) (expensesArray : list Expense.t) :
  State.bankAccounts
    (state (recalculateAndUpdateTotalsWithArray cl bankAccountId incomesArray
              expensesArray w))
  = match JS.find (fun a => String.eqb (BankAccount.id a) bankAccountId)
                  (State.bankAccounts cl) with
    | Some account =>
        map (fun a => if String.eqb (BankAccount.id a) bankAccountId
                      then recomputed account bankAccountId incomesArray
                             expensesArray
                      else a)
            (State.bankAccounts (state w))
    | None => State.bankAccounts (state w)
    end.
Proof.
  destruct (JS.find (fun a => String.eqb (BankAccount.id a) bankAccountId)
                    (State.bankAccounts cl)) as [account |] eqn:Hfind.
  - rewrite (recalculate_state cl w _ _ _ account Hfind).
    destruct (selected_is cl bankAccountId); reflexivity.
  - now rewrite (recalculate_unknown _ _ _ _ _ Hfind).
Qed.

(** What a transaction command, called from the latest render, leaves in
    the three cells: the arrays, and the accounts as recomputed from those
    very arrays. *)
Lemma run_transaction_cells (c : Command) (w : World) (bankAccountId : string) :
  recomputed_account (state w) c = Some bankAccountId ->
  let s' := state (run toLowerCase c w) in
  State.bankAccounts s'
  = match JS.find (fun a => String.eqb (BankAccount.id a) bankAccountId)
                  (State.bankAccounts (state w)) with
    | Some account =>
        map (fun a => if String.eqb (BankAccount.id a) bankAccountId
                      then recomputed account bankAccountId
                             (State.incomes s') (State.expenses s')
                      else a)
            (State.bankAccounts (state w))
    | None => State.bankAccounts (state w)
    end.
Proof.
  intros Hc s'. subst s'.
  destruct c; cbn [recomputed_account] in Hc; try discriminate; cbn [run].
  - (* addIncome *)
    unfold addIncome. destruct (State.user (state w)); [| discriminate].
    injection Hc as <-.
    unfold seq, setIncomes, setState. cbn [state State.bankAccounts
      State.incomes State.expenses State.set_incomes].
    rewrite recalculate_accounts.
    match goal with
    | |- context [State.expenses
                    (state (recalculateAndUpdateTotalsWithArray ?c ?a ?i ?e
                              ?x))] =>
        destruct (recalculate_cells c x a i e) as (_ & -> & _)
    end.
    reflexivity.
  - (* updateIncome *)
    injection Hc as <-.
    unfold updateIncome, seq, setIncomes, setState. cbn [state
      State.bankAccounts State.incomes State.expenses State.set_incomes].
    rewrite recalculate_accounts.
    match goal with
    | |- context [State.expenses
                    (state (recalculateAndUpdateTotalsWithArray ?c ?a ?i ?e
                              ?x))] =>
        destruct (recalculate_cells c x a i e) as (_ & -> & _)
    end.
    reflexivity.
  - (* deleteIncome *)
    unfold deleteIncome.
    destruct (JS.find _ (State.incomes (state w))) as [income |];
      [| discriminate].
    injection Hc as <-.
    unfold seq, setIncomes, setState. cbn [state State.bankAccounts
      State.incomes State.expenses State.set_incomes].
    rewrite recalculate_accounts.
    match goal with
    | |- context [State.expenses
                    (state (recalculateAndUpdateTotalsWithArray ?c ?a ?i ?e
                              ?x))] =>
        destruct (recalculate_cells c x a i e) as (_ & -> & _)
    end.
    reflexivity.
  - (* addExpense *)
    unfold addExpense. destruct (State.user (state w)); [| discriminate].
    injection Hc as <-.
    unfold setExpenses, setState. cbn [state State.bankAccounts
      State.incomes State.expenses State.set_expenses].
    rewrite recalculate_accounts.
    match goal with
    | |- context [State.incomes
                    (state (recalculateAndUpdateTotalsWithArray ?c ?a ?i ?e
                              ?x))] =>
        destruct (recalculate_cells c x a i e) as (-> & _)
    end.
    reflexivity.
  - (* updateExpense *)
    injection Hc as <-.
    unfold updateExpense, setExpenses, setState. cbn [state
      State.bankAccounts State.incomes State.expenses State.set_expenses].
    rewrite recalculate_accounts.
    match goal with
    | |- context [State.incomes
                    (state (recalculateAndUpdateTotalsWithArray ?c ?a ?i ?e
                              ?x))] =>
        destruct (recalculate_cells c x a i e) as (-> & _)
    end.
    reflexivity.
  - (* deleteExpense *)
    unfold deleteExpense.
    destruct (JS.find _ (State.expenses (state w))) as [expense |];
      [| discriminate].
    injection Hc as <-.
    unfold setExpenses, setState. cbn [state State.bankAccounts
      State.incomes State.expenses State.set_expenses].
    rewrite recalculate_accounts.
    match goal with
    | |- context [State.incomes
                    (state (recalculateAndUpdateTotalsWithArray ?c ?a ?i ?e
                              ?x))] =>
        destruct (recalculate_cells c x a i e) as (-> & _)
    end.
    reflexivity.
Qed.

Lemma in_replaced (bankAccountId : string) (updated a : BankAccount.t)
    (l : list BankAccount.t) :
  In a (map (fun a => if String.eqb (BankAccount.id a) bankAccountId
                      then updated else a) l) ->
  BankAccount.id a = bankAccountId -> a = updated.
Proof.
  intros Hin Hid. apply in_map_iff in Hin as [a0 [Heq _]].
  destruct (String.eqb (BankAccount.id a0) bankAccountId) eqn:Ha0;
    [now subst |].
  subst a0. apply String.eqb_neq in Ha0. contradiction.
Qed.

Lemma nth_replaced (bankAccountId : string) (updated a : BankAccount.t)
    (l : list BankAccount.t) (n : nat) :
  nth_error l n = Some a -> BankAccount.id a <> bankAccountId ->
  nth_error (map (fun a => if String.eqb (BankAccount.id a) bankAccountId
                           then updated else a) l) n = Some a.
Proof.
  intros Hn Hid. rewrite nth_error_map, Hn. cbn.
  apply String.eqb_neq in Hid. now rewrite Hid.
Qed.

Lemma run_transaction_in_step (c : Command) (w : World)
    (bankAccountId : string) (account : BankAccount.t) :
  recomputed_account (state w) c = Some bankAccountId ->
  JS.find (fun a => String.eqb (BankAccount.id a) bankAccountId)
          (State.bankAccounts (state w)) = Some account ->
  in_step (state (run toLowerCase c w)) bankAccountId.
Proof.
  intros Hc Hfind.
  pose proof (run_transaction_cells c w bankAccountId Hc) as Hcells.
  cbv zeta in Hcells. rewrite Hfind in Hcells.
  intros a Ha Haid. rewrite Hcells in Ha.
  rewrite (in_replaced _ _ _ _ Ha Haid). repeat split.
Qed.

(** X3. A transaction command called from the latest render, for an
    account that exists, leaves every account of that id with the totals of
    the arrays now in the state: [totalIncome] is the sum of the amounts of
    its incomes, [totalExpense] that of its expenses, [currentBalance]
    their difference. *)
Theorem transactions_keep_totals_in_step (c : Command) (w : World)
    (bankAccountId : string) (account : BankAccount.t) :
  recomputed_account (state w) c = Some bankAccountId ->
  JS.find (fun a => String.eqb (BankAccount.id a) bankAccountId)
          (State.bankAccounts (state w)) = Some account ->
  in_step (state (run toLowerCase c w)) bankAccountId
  /\ exists a, In a (State.bankAccounts (state (run toLowerCase c w)))
               /\ BankAccount.id a = bankAccountId.
Proof.
  intros Hc Hfind.
  split; [now apply (run_transaction_in_step c w bankAccountId account) |].
  pose proof (run_transaction_cells c w bankAccountId Hc) as Hcells.
  cbv zeta in Hcells. rewrite Hfind in Hcells.
  destruct (find_id_eq _ _ _ _ Hfind) as [Hin Hid].
  exists (recomputed account bankAccountId
            (State.incomes (state (run toLowerCase c w)))
            (State.expenses (state (run toLowerCase c w)))).
  split; [| exact Hid].
  rewrite Hcells. apply in_map_iff. exists account.
  split; [| exact Hin].
  apply String.eqb_eq in Hid. now rewrite Hid.
Qed.

Lemma run_transaction_skips (c : Command) (w : World) :
  is_transaction c = true -> recomputed_account (state w) c = None ->
  State.bankAccounts (state (run toLowerCase c w))
  = State.bankAccounts (state w).
Proof.
  intros Ht Hc.
  destruct c; try discriminate; cbn [recomputed_account] in Hc; cbn [run].
  - unfold addIncome. destruct (State.user (state w)); [discriminate |].
    reflexivity.
  - unfold deleteIncome.
    destruct (JS.find _ (State.incomes (state w))); [discriminate |].
    reflexivity.
  - unfold addExpense. destruct (State.user (state w)); [discriminate |].
    reflexivity.
  - unfold deleteExpense.
    destruct (JS.find _ (State.expenses (state w))); [discriminate |].
    reflexivity.
Qed.

(** X4. A transaction command recomputes one account at most.  Every
    account whose id is not the one the command recomputes stays as it was,
    at its place in [bankAccounts]: also the account an income or expense
    is moved away from when [updateIncome] or [updateExpense] changes its
    [bankAccountId]. *)
Theorem transactions_touch_one_account (c : Command) (w : World) (n : nat)
    (a : BankAccount.t) :
  is_transaction c = true ->
  nth_error (State.bankAccounts (state w)) n = Some a ->
  recomputed_account (state w) c <> Some (BankAccount.id a) ->
  nth_error (State.bankAccounts (state (run toLowerCase c w))) n = Some a
  /\ length (State.bankAccounts (state (run toLowerCase c w)))
     = length (State.bankAccounts (state w)).
Proof.
  intros Ht Hn Hother.
  destruct (recomputed_account (state w) c) as [bankAccountId |] eqn:Hc.
  - pose proof (run_transaction_cells c w bankAccountId Hc) as Hcells.
    cbv zeta in Hcells. rewrite Hcells.
    destruct (JS.find _ (State.bankAccounts (state w)));
      [| split; [exact Hn | reflexivity]].
    split; [| apply length_map].
    apply nth_replaced; [exact Hn | congruence].
  - rewrite (run_transaction_skips c w Ht Hc). split; [exact Hn | reflexivity].
Qed.

(** X5. A transaction recorded for a [bankAccountId] that no account of
    the render has changes no account, no selection and no goal, and writes
    neither an account nor a goal to storage; the arrays are updated all the
    same: [addIncome] appends and saves the income, [addExpense] appends the
    expense and writes nothing. *)
Theorem transaction_for_unknown_account (c : Command) (w : World)
    (bankAccountId : string) :
  recomputed_account (state w) c = Some bankAccountId ->
  JS.find (fun a => String.eqb (BankAccount.id a) bankAccountId)
          (State.bankAccounts (state w)) = None ->
  let w' := run toLowerCase c w in
  (State.bankAccounts (state w') = State.bankAccounts (state w)
   /\ State.selectedBankAccount (state w')
      = State.selectedBankAccount (state w)
   /\ State.savingsGoals (state w') = State.savingsGoals (state w))
  /\ (forall e, In e (effects w') ->
                In e (effects w)
                \/ (exists income, e = saveIncomeToStorage income)
                \/ (exists incomeId, e = deleteIncomeFromStorage incomeId))
  /\ (forall newId incomeData uid,
         c = AddIncome newId incomeData -> State.user (state w) = Some uid ->
         State.incomes (state w')
         = State.incomes (state w) ++ [income_with_id incomeData newId uid]
         /\ effects w'
            = effects w
              ++ [saveIncomeToStorage (income_with_id incomeData newId uid)])
  /\ (forall newId expenseData uid,
         c = AddExpense newId expenseData -> State.user (state w) = Some uid ->
         State.expenses (state w')
         = State.expenses (state w)
           ++ [expense_with_id expenseData newId uid]
         /\ effects w' = effects w).
Proof.
  intros Hc Hfind w'. subst w'.
  destruct c; cbn [recomputed_account] in Hc; try discriminate; cbn [run].
  - (* addIncome *)
    unfold addIncome. destruct (State.user (state w)) as [uid |];
      [| discriminate].
    injection Hc as <-.
    unfold seq, setIncomes. cbn [income_with_id Income.bankAccountId].
    rewrite (recalculate_unknown _ _ _ _ _ Hfind).
    splits; try reflexivity.
    + intros e He. cbn in He. apply in_app_or in He as [He | [<- | []]];
        [now left | right; left; eexists; reflexivity].
    + intros newId' incomeData' uid' Heq Huid.
      injection Heq as <- <-. injection Huid as <-. split; reflexivity.
    + intros; discriminate.
  - (* updateIncome *)
    injection Hc as <-.
    unfold updateIncome, seq, setIncomes.
    rewrite (recalculate_unknown _ _ _ _ _ Hfind).
    splits; try reflexivity; try (intros; discriminate).
    intros e He. cbn in He. apply in_app_or in He as [He | [<- | []]];
      [now left | right; left; eexists; reflexivity].
  - (* deleteIncome *)
    unfold deleteIncome.
    destruct (JS.find _ (State.incomes (state w))) as [income |];
      [| discriminate].
    injection Hc as <-.
    unfold seq, setIncomes.
    rewrite (recalculate_unknown _ _ _ _ _ Hfind).
    splits; try reflexivity; try (intros; discriminate).
    intros e He. cbn in He. apply in_app_or in He as [He | [<- | []]];
      [now left | right; right; eexists; reflexivity].
  - (* addExpense *)
    unfold addExpense. destruct (State.user (state w)) as [uid |];
      [| discriminate].
    injection Hc as <-.
    unfold setExpenses. cbn [expense_with_id Expense.bankAccountId].
    rewrite (recalculate_unknown _ _ _ _ _ Hfind).
    splits; try reflexivity; try (intros; discriminate).
    + intros e He. now left.
    + intros newId' expenseData' uid' Heq Huid.
      injection Heq as <- <-. injection Huid as <-. split; reflexivity.
  - (* updateExpense *)
    injection Hc as <-.
    unfold updateExpense, setExpenses.
    rewrite (recalculate_unknown _ _ _ _ _ Hfind).
    splits; try reflexivity; try (intros; discriminate).
    intros e He. now left.
  - (* deleteExpense *)
    unfold deleteExpense.
    destruct (JS.find _ (State.expenses (state w))) as [expense |];
      [| discriminate].
    injection Hc as <-.
    unfold setExpenses.
    rewrite (recalculate_unknown _ _ _ _ _ Hfind).
    splits; try reflexivity; try (intros; discriminate).
    intros e He. now left.
Qed.


End TransactionFacts.

(** ** Loading the goals *)

Section DuplicateGoalFacts.
Variable toLowerCase : string -> string.
Variable cl : State.t.

Local Abbreviation key := (goal_key toLowerCase).

Local Abbreviation dedup_inv := (dedup_inv toLowerCase cl).

Lemma existsb_key (k : string) (seen : list string) :
  existsb (String.eqb k) seen = true <-> In k seen.
Proof.
  rewrite existsb_exists. split.
  - intros [x [Hin Heq]]. apply String.eqb_eq in Heq. now subst.
  - intros Hin. exists k. split; [exact Hin | apply String.eqb_refl].
Qed.

Lemma dedup_step_inv (p : list SavingsGoal.t)
    (acc : list string * list SavingsGoal.t * Action) (g : SavingsGoal.t) :
  dedup_inv p acc -> dedup_inv (p ++ [g]) (dedup_step toLowerCase cl acc g).
Proof.
  destruct acc as [[seen unique] done].
  intros (Hseen & Hnodup & Hsub & Hkeys & Hdone & Hlen & Hcount & Hsame
          & Hhead).
  cbn [dedup_step].
  destruct (existsb (String.eqb (key g)) seen) eqn:Hdup.
  - (* a goal of this key was kept before: this one is dropped *)
    apply existsb_key in Hdup.
    unfold dedup_inv. splits.
    + exact Hseen.
    + exact Hnodup.
    + intros g' Hg'. apply in_or_app. left. now apply Hsub.
    + intros g' Hg'. apply in_app_or in Hg' as [Hg' | [<- | []]];
        [now apply Hkeys | now apply Hseen].
    + destruct (State.user cl); auto with actions.
    + rewrite length_app. cbn. lia.
    + intros uid w Huser. rewrite Huser. unfold seq, call. cbn [effects].
      rewrite !length_app, (Hcount uid w Huser). cbn. lia.
    + intros Hp. exfalso. rewrite map_app in Hp. cbn in Hp.
      apply NoDup_remove_2 in Hp. rewrite app_nil_r in Hp. apply Hp.
      apply Hseen in Hdup. apply in_map_iff in Hdup as [g' [Hk Hg']].
      apply in_map_iff. exists g'. split; [exact Hk | now apply Hsub].
    + intros g0 rest Hp. destruct p as [| g1 p'].
      * exfalso. apply Hseen in Hdup. destruct unique as [| u unique'];
          [contradiction |].
        specialize (Hsub u (or_introl eq_refl)). contradiction.
      * cbn in Hp. injection Hp as -> _. now apply (Hhead g0 p').
  - (* the first goal of this key: it is kept *)
    assert (Hnew : ~ In (key g) seen).
    { intros Hin. apply existsb_key in Hin. congruence. }
    unfold dedup_inv. splits.
    + intros k. rewrite map_app, in_app_iff. cbn. rewrite <- Hseen.
      tauto.
    + rewrite map_app. cbn.
      apply (Permutation_NoDup (Permutation_cons_append _ _)).
      constructor; [| exact Hnodup].
      intros Hin. apply Hnew. now apply Hseen.
    + intros g' Hg'. apply in_app_or in Hg' as [Hg' | Hg'];
        apply in_or_app; [left; now apply Hsub | now right].
    + intros g' Hg'. rewrite map_app, in_app_iff.
      apply in_app_or in Hg' as [Hg' | [<- | []]];
        [left; now apply Hkeys | right; now left].
    + exact Hdone.
    + rewrite !length_app. cbn. lia.
    + intros uid w Huser. rewrite (Hcount uid w Huser), !length_app. cbn.
      lia.
    + intros Hp. rewrite map_app in Hp. apply NoDup_app_remove_r in Hp.
      destruct (Hsame Hp) as [-> Hskip]. split; [reflexivity | exact Hskip].
    + intros g0 rest Hp. destruct p as [| g1 p'].
      * cbn in Hp. injection Hp as <- <-.
        destruct unique as [| u unique'];
          [now exists [] | specialize (Hsub u (or_introl eq_refl));
                           contradiction].
      * cbn in Hp. injection Hp as -> _.
        destruct (Hhead g0 p' eq_refl) as [rest' ->].
        now exists (rest' ++ [g]).
Qed.

Lemma dedup_fold_inv (goals p : list SavingsGoal.t)
    (acc : list string * list SavingsGoal.t * Action) :
  dedup_inv p acc ->
  dedup_inv (p ++ goals) (fold_left (dedup_step toLowerCase cl) goals acc).
Proof.
  revert p acc. induction goals as [| g goals IH]; intros p acc Hinv.
  - now rewrite app_nil_r.
  - cbn [fold_left].
    replace (p ++ g :: goals) with ((p ++ [g]) ++ goals)
      by (now rewrite <- app_assoc).
    apply IH. now apply dedup_step_inv.
Qed.

(** X7. [removeDuplicateGoals] keeps, of the goals it is given, the first
    of every key ([userId], "-", lower-cased title) and drops the later ones:
    the goals kept have pairwise different keys, every goal kept is one of
    the goals given, every goal given has its key among the goals kept, and
    the first goal given is always kept.  Goals that already have different
    keys are all kept and nothing is done; otherwise, with a user signed in,
    the loop does two things per goal dropped (a warning and a deletion from
    storage) and nothing else. *)
Theorem removeDuplicateGoals_keeps_first (goals : list SavingsGoal.t) :
  let kept := fst (removeDuplicateGoals toLowerCase cl goals) in
  let done := snd (removeDuplicateGoals toLowerCase cl goals) in
  NoDup (map key kept)
  /\ (forall g, In g kept -> In g goals)
  /\ (forall g, In g goals -> In (key g) (map key kept))
  /\ (forall g rest, goals = g :: rest -> exists rest', kept = g :: rest')
  /\ (NoDup (map key goals) -> kept = goals /\ forall w, done w = w)
  /\ only_effects done
  /\ (forall uid w, State.user cl = Some uid ->
                    length (effects (done w))
                    = (length (effects w)
                       + 2 * (length goals - length kept))%nat).
Proof.
  cbv zeta. unfold removeDuplicateGoals.
  assert (Hinit : dedup_inv [] ([], [], skip)).
  { unfold dedup_inv. splits.
    - intros k. reflexivity.
    - constructor.
    - intros g [].
    - intros g [].
    - apply only_effects_skip.
    - apply le_n.
    - intros uid w _. unfold skip. cbn. lia.
    - intros _. split; reflexivity.
    - intros g rest Hnil. discriminate. }
  pose proof (dedup_fold_inv goals [] _ Hinit) as Hinv.
  cbn [app] in Hinv.
  destruct (fold_left (dedup_step toLowerCase cl) goals ([], [], skip))
    as [[seen unique] done].
  destruct Hinv as (_ & Hnodup & Hsub & Hkeys & Hdone & _ & Hcount & Hsame
                    & Hhead).
  cbn [fst snd]. splits; assumption.
Qed.

End DuplicateGoalFacts.

(** ** Accounts, sessions and snapshots *)

Section SessionFacts.
Variable toLowerCase : string -> string.
Local Open Scope float_scope.

(** X8. For a signed-in user, [deleteBankAccount] removes from
    [bankAccounts] every account of that id and keeps the others in order;
    the selected account afterwards is never the deleted one: a selection
    of that id moves to the first remaining account, or to none, and any
    other selection stays.  The incomes, expenses, budgets and goals in the
    state, also those of the deleted account, are left as they were; the
    one call made is [deleteBankAccountFromStorage]. *)
Theorem deleteBankAccount_removes (w : World) (accountId uid : string) :
  State.user (state w) = Some uid ->
  let w' := run toLowerCase (DeleteBankAccount accountId) w in
  let remaining :=
    filter (fun a => negb (String.eqb (BankAccount.id a) accountId))
           (State.bankAccounts (state w)) in
  State.bankAccounts (state w') = remaining
  /\ (forall a, In a (State.bankAccounts (state w')) <->
                In a (State.bankAccounts (state w))
                /\ BankAccount.id a <> accountId)
  /\ State.selectedBankAccount (state w')
     = (if selected_is (state w) accountId then hd_error remaining
        else State.selectedBankAccount (state w))
  /\ (forall s, State.selectedBankAccount (state w') = Some s ->
                BankAccount.id s <> accountId)
  /\ (State.incomes (state w') = State.incomes (state w)
      /\ State.expenses (state w') = State.expenses (state w)
      /\ State.budgets (state w') = State.budgets (state w)
      /\ State.savingsGoals (state w') = State.savingsGoals (state w))
  /\ effects w'
     = effects w ++ [deleteBankAccountFromStorage accountId uid].
Proof.
  intros Huser w' remaining.
  assert (Hrem : forall a, In a remaining <->
                           In a (State.bankAccounts (state w))
                           /\ BankAccount.id a <> accountId).
  { intros a. subst remaining. rewrite filter_In, negb_true_iff.
    now rewrite String.eqb_neq. }
  subst w'. cbn [run]. unfold deleteBankAccount. rewrite Huser.
  unfold seq, setBankAccounts, setState, call. fold remaining.
  destruct (selected_is (state w) accountId) eqn:Hsel;
    cbn [state effects setSelectedBankAccount setState skip
         State.bankAccounts State.selectedBankAccount State.incomes
         State.expenses State.budgets State.savingsGoals
         State.set_bankAccounts State.set_selectedBankAccount];
    splits; try reflexivity; try exact Hrem.
  - intros s Hs. destruct remaining as [| a rest] eqn:Hr; [discriminate |].
    injection Hs as <-. apply (Hrem a). now left.
  - intros s Hs. unfold selected_is in Hsel. rewrite Hs in Hsel.
    now apply String.eqb_neq.
Qed.

(** X9. Snapshots supersede one another and the two listeners do not
    interfere: a snapshot of a collection that follows another snapshot of
    the same collection leaves the world that it alone would have left, and
    an incomes snapshot and an expenses snapshot leave the same world in
    either order, in which [monthlySavings] is the difference of the two
    snapshot sums. *)
Theorem snapshots_supersede (w : World)
    (expenses1 expenses2 : list (Doc Expense.t))
    (incomes1 incomes2 : list (Doc Income.t)) :
  run toLowerCase (ExpensesSnapshot expenses2)
    (run toLowerCase (ExpensesSnapshot expenses1) w)
  = run toLowerCase (ExpensesSnapshot expenses2) w
  /\ run toLowerCase (IncomesSnapshot incomes2)
       (run toLowerCase (IncomesSnapshot incomes1) w)
     = run toLowerCase (IncomesSnapshot incomes2) w
  /\ run toLowerCase (IncomesSnapshot incomes1)
       (run toLowerCase (ExpensesSnapshot expenses1) w)
     = run toLowerCase (ExpensesSnapshot expenses1)
         (run toLowerCase (IncomesSnapshot incomes1) w)
  /\ State.monthlySavings
       (state (run toLowerCase (IncomesSnapshot incomes1)
                 (run toLowerCase (ExpensesSnapshot expenses1) w)))
     = sum_amounts_or0 Income.amount (map income_of_doc incomes1)
       - sum_amounts_or0 Expense.amount (map expense_of_doc expenses1).
Proof.
  destruct w as [s es]. destruct s. splits; reflexivity.
Qed.

(** X10. With nobody signed in, every operation that starts with
    [if (!user) return] does nothing at all: [addBankAccount],
    [deleteBankAccount], [addIncome], [addExpense], [addBudget],
    [addSavingsGoal], [deleteSavingsGoal] and [refreshData] leave the state
    and make no call.  The updates and the other deletions have no such
    guard: signed out, they still write to storage and change the arrays. *)
Theorem signed_out_operations (w : World) :
  State.user (state w) = None ->
  (forall c, guarded_by_user c = true -> run toLowerCase c w = w)
  /\ (forall income,
         exists es,
           effects (run toLowerCase (UpdateIncome income) w)
           = effects w ++ saveIncomeToStorage income :: es)
  /\ (forall budget,
         effects (run toLowerCase (UpdateBudget budget) w)
         = effects w ++ [saveBudgetToStorage budget])
  /\ (forall budgetId,
         run toLowerCase (DeleteBudget budgetId) w
         = mkWorld
             (State.set_budgets
                (filter (fun b => negb (String.eqb (Budget.id b) budgetId))
                        (State.budgets (state w)))
                (state w))
             (effects w ++ [deleteBudgetFromStorage budgetId]))
  /\ (forall goal,
         effects (run toLowerCase (UpdateSavingsGoal goal) w)
         = effects w ++ [saveSavingsGoalToStorage goal]).
Proof.
  intros Huser. splits.
  - intros c Hc. destruct c; try discriminate; cbn [run].
    + unfold addBankAccount. now rewrite Huser.
    + unfold deleteBankAccount. now rewrite Huser.
    + unfold addIncome. now rewrite Huser.
    + unfold addExpense. now rewrite Huser.
    + unfold addBudget. now rewrite Huser.
    + unfold addSavingsGoal. now rewrite Huser.
    + unfold deleteSavingsGoal. now rewrite Huser.
    + unfold refreshData. now rewrite Huser.
  - intros income. cbn [run]. unfold updateIncome, seq, setIncomes.
    cbn [effects setState].
    match goal with
    | |- context [recalculateAndUpdateTotalsWithArray ?c ?a ?i ?e ?x] =>
        destruct (recalculate_effects c x a i e) as [es ->]
    end.
    exists es. cbn [effects call]. now rewrite <- app_assoc.
  - intros budget. reflexivity.
  - intros budgetId. reflexivity.
  - intros goal. reflexivity.
Qed.

End SessionFacts.

(** ** Budgets *)

Section BudgetFacts.
Context `{DateFns}.
Local Open Scope float_scope.

Lemma nan_is_S754_nan (x : float) : is_nan x = true -> Prim2SF x = S754_nan.
Proof.
  unfold is_nan. rewrite negb_true_iff, FloatAxioms.eqb_spec. unfold SFeqb.
  destruct (Prim2SF x) as [s | s | | s m e]; cbn; try reflexivity.
  - discriminate.
  - destruct s; discriminate.
  - rewrite Z.compare_refl, Pos.compare_cont_refl. destruct s; discriminate.
Qed.

(** No comparison holds of NaN. *)
Lemma nan_not_ge (x y : float) : is_nan x = true -> JS.ge x y = false.
Proof.
  intros Hnan. unfold JS.ge. rewrite FloatAxioms.leb_spec.
  rewrite (nan_is_S754_nan x Hnan). unfold SFleb.
  destruct (Prim2SF y) as [s | s | | s m e]; reflexivity.
Qed.

(** X11. [getStatus] reports "Over Budget!" exactly when [progress >= 100],
    "Almost There" exactly when it is not and [progress >= threshold], and
    "On Track" otherwise, which includes a progress that is NaN.  Since
    [calculateBudgetProgress] is 0 for a budget whose amount is not greater
    than 0, such a budget is never reported over budget, whatever was spent:
    it is "Almost There" when the threshold is at most 0 and "On Track"
    otherwise. *)
Theorem budget_status (progress threshold : JS.number) :
  let label := Status.label (getStatus progress threshold) in
  (label = "Over Budget!"%string <-> JS.ge progress 100 = true)
  /\ (label = "Almost There"%string
      <-> JS.ge progress 100 = false /\ JS.ge progress threshold = true)
  /\ (label = "On Track"%string
      <-> JS.ge progress 100 = false /\ JS.ge progress threshold = false)
  /\ (is_nan progress = true -> label = "On Track"%string)
  /\ (forall (now : Z) (expenses : list Expense.t) (budget : Budget.t)
             (date : option JS.Date),
         JS.gt (Budget.budgetAmount budget) 0 = false ->
         Status.label
           (getStatus (calculateBudgetProgress now expenses budget date)
                      threshold)
         = (if JS.ge 0 threshold then "Almost There" else "On Track")%string).
Proof.
  cbv zeta. unfold getStatus. splits.
  - destruct (JS.ge progress 100), (JS.ge progress threshold); cbn;
      split; intros Hl; solve [reflexivity | discriminate].
  - destruct (JS.ge progress 100), (JS.ge progress threshold); cbn;
      split; intros Hl;
      solve [reflexivity | discriminate | now split
            | destruct Hl; discriminate].
  - destruct (JS.ge progress 100), (JS.ge progress threshold); cbn;
      split; intros Hl;
      solve [reflexivity | discriminate | now split
            | destruct Hl; discriminate].
  - intros Hnan. now rewrite !(nan_not_ge progress _ Hnan).
  - intros now expenses budget date Hamount.
    unfold calculateBudgetProgress. rewrite Hamount.
    change (JS.ge 0 100) with false. cbn iota.
    destruct (JS.ge 0 threshold); reflexivity.
Qed.

Lemma record_get_set (key k : string) (v : JS.number)
    (r : list (string * JS.number)) :
  record_get k (record_set key v r)
  = if String.eqb key k then Some v else record_get k r.
Proof.
  induction r as [| [k' v'] r IH]; cbn.
  - reflexivity.
  - destruct (String.eqb k' key) eqn:Hk'; cbn.
    + apply String.eqb_eq in Hk'. subst k'.
      destruct (String.eqb key k); reflexivity.
    + destruct (String.eqb k' k) eqn:Hkk.
      * apply String.eqb_eq in Hkk. subst k'.
        rewrite String.eqb_sym in Hk'. now rewrite Hk'.
      * exact IH.
Qed.

(** X12. For budgets whose ids are not names inherited from
    [Object.prototype], the record built by [updateAllBudgetProgress] holds,
    under the id of each budget of the list, [calculateBudgetProgress] of
    that budget at the date of the call: of the last budget of that id if
    several share it, hence of the budget itself when the ids are all
    different.  It has no entry for any other id, which the budgets page
    shows as 0. *)
Theorem budget_progress_record (now : Z) (budgetsList : list Budget.t)
    (expensesList : list Expense.t) (date : option JS.Date) :
  (forall budget, In budget budgetsList ->
                  inherited (Budget.id budget) = false) ->
  let progress := updateAllBudgetProgress now budgetsList expensesList date in
  let at_call := Some (date_or_now now date) in
  (forall k,
      record_get k progress
      = option_map
          (fun budget =>
             calculateBudgetProgress now expensesList budget at_call)
          (JS.find (fun budget => String.eqb (Budget.id budget) k)
                   (rev budgetsList)))
  /\ (forall budget,
         In budget budgetsList -> NoDup (map Budget.id budgetsList) ->
         shown_progress progress budget
         = calculateBudgetProgress now expensesList budget at_call)
  /\ (forall budget,
         inherited (Budget.id budget) = false ->
         ~ In (Budget.id budget) (map Budget.id budgetsList) ->
         shown_progress progress budget = 0).
Proof.
  intros _. cbv zeta.
  assert (Hget : forall k,
             record_get k
               (updateAllBudgetProgress now budgetsList expensesList date)
             = option_map
                 (fun budget =>
                    calculateBudgetProgress now expensesList budget
                      (Some (date_or_now now date)))
                 (JS.find (fun budget => String.eqb (Budget.id budget) k)
                          (rev budgetsList))).
  { intros k. unfold updateAllBudgetProgress.
    rewrite <- fold_left_rev_right.
    induction (rev budgetsList) as [| b l IH]; cbn; [reflexivity |].
    rewrite record_get_set. destruct (String.eqb (Budget.id b) k);
      [reflexivity | exact IH]. }
  splits.
  - exact Hget.
  - intros budget Hin Hnodup. unfold shown_progress. rewrite Hget.
    assert (Hfind : JS.find (fun b => String.eqb (Budget.id b)
                                                 (Budget.id budget))
                            (rev budgetsList) = Some budget).
    { apply in_rev in Hin.
      assert (Hnodup' : NoDup (map Budget.id (rev budgetsList)))
        by (rewrite map_rev; now apply NoDup_rev).
      clear Hget Hnodup. unfold JS.find.
      induction (rev budgetsList) as [| b l IH]; [contradiction |].
      cbn. destruct (String.eqb (Budget.id b) (Budget.id budget)) eqn:Hb.
      - apply String.eqb_eq in Hb. destruct Hin as [-> | Hin];
          [reflexivity |].
        exfalso. cbn in Hnodup'. apply NoDup_cons_iff in Hnodup' as [Hno _].
        apply Hno. rewrite Hb. now apply in_map.
      - destruct Hin as [-> | Hin];
          [rewrite String.eqb_refl in Hb; discriminate |].
        cbn in Hnodup'. apply NoDup_cons_iff in Hnodup' as [_ Hnodup'].
        now apply IH. }
    now rewrite Hfind.
  - intros budget _ Hnot. unfold shown_progress. rewrite Hget.
    destruct (JS.find _ (rev budgetsList)) as [b |] eqn:Hfind;
      [| reflexivity].
    exfalso. apply Hnot. unfold JS.find in Hfind.
    apply find_some in Hfind as [Hin Hb]. apply String.eqb_eq in Hb.
    rewrite <- Hb. apply in_map. now apply in_rev.
Qed.

End BudgetFacts.

(** ** The savings figure of the hook *)

Section HookFacts.
Variable toLowerCase : string -> string.
Local Open Scope float_scope.

(** X13. The figure the hook [useAutoTrackSavingsGoal] publishes as
    [currentMonthlySavings] is the amount the provider writes into goals
    from the same render: [updateAllAutoTrackedSavings] gives it to every
    goal, [addSavingsGoal] to the goal it creates (0 when no account is
    selected), and the hook's [updateSavingsForAccount] to the goals in the
    scope of the account, doing nothing when no account is selected.  It is
    never below zero. *)
Theorem current_monthly_savings_is_written (cl : State.t) (w : World) :
  (JS.ge (getCurrentMonthlySavings cl) 0 = true
   \/ is_nan (getCurrentMonthlySavings cl) = true)
  /\ (forall selected g,
         State.selectedBankAccount cl = Some selected ->
         In g (State.savingsGoals
                 (state (updateAllAutoTrackedSavings cl w))) ->
         SavingsGoal.autoTrackedAmount g
         = Some (getCurrentMonthlySavings cl))
  /\ (forall newId goalData uid,
         State.user cl = Some uid ->
         JS.find (same_goal toLowerCase (SavingsGoal.title goalData) uid)
                 (State.savingsGoals cl) = None ->
         exists goal,
           State.savingsGoals
             (state (addSavingsGoal toLowerCase cl newId goalData w))
           = State.savingsGoals (state w) ++ [goal]
           /\ SavingsGoal.id goal = newId
           /\ SavingsGoal.autoTrackedAmount goal
              = Some (getCurrentMonthlySavings cl))
  /\ (forall bankAccountId,
         State.selectedBankAccount cl = None ->
         updateSavingsForAccount cl bankAccountId w = w)
  /\ (forall bankAccountId selected n g,
         State.selectedBankAccount cl = Some selected ->
         nth_error (State.savingsGoals cl) n = Some g ->
         nth_error
           (State.savingsGoals
              (state (updateSavingsForAccount cl bankAccountId w))) n
         = Some (if in_scope g bankAccountId
                 then SavingsGoal.with_auto g (getCurrentMonthlySavings cl)
                 else g)).
Proof.
  splits.
  - unfold getCurrentMonthlySavings.
    destruct (State.selectedBankAccount cl); [apply Math_max_zero |].
    left. reflexivity.
  - intros selected g Hsel Hg.
    rewrite (updateAll_state cl w selected Hsel) in Hg. cbn in Hg.
    apply in_map_iff in Hg as [g0 [<- _]].
    unfold getCurrentMonthlySavings. now rewrite Hsel.
  - intros newId goalData uid Huser Hfind.
    unfold addSavingsGoal. rewrite Huser, Hfind.
    eexists. cbn [state seq call setSavingsGoals setState
                  State.savingsGoals State.set_savingsGoals].
    splits; [reflexivity | reflexivity |].
    cbn [SavingsGoal.autoTrackedAmount]. unfold getCurrentMonthlySavings.
    destruct (State.selectedBankAccount cl); reflexivity.
  - intros bankAccountId Hsel. unfold updateSavingsForAccount.
    now rewrite Hsel.
  - intros bankAccountId selected n g Hsel Hn.
    unfold updateSavingsForAccount, getCurrentMonthlySavings. rewrite Hsel.
    rewrite updateAutoTracked_state.
    cbn [State.savingsGoals State.set_savingsGoals].
    now rewrite (refreshed_goals_nth _ _ _ _ _ _ Hn).
Qed.

End HookFacts.

(** ** The recent transactions *)

Section RecentFacts.
Variable Date_new : string -> JS.Date.
Variable getCategoryName : string -> string.

Lemma insert_ext {A : Type} (cmp1 cmp2 : A -> A -> option Z) (x : A)
    (l : list A) :
  (forall a b, JS.before cmp1 a b = JS.before cmp2 a b) ->
  JS.insert cmp1 x l = JS.insert cmp2 x l.
Proof.
  intros Hext. induction l as [| y l IH]; cbn; [reflexivity |].
  now rewrite Hext, IH.
Qed.

Lemma sort_ext {A : Type} (cmp1 cmp2 : A -> A -> option Z) (l : list A) :
  (forall a b, JS.before cmp1 a b = JS.before cmp2 a b) ->
  JS.sort cmp1 l = JS.sort cmp2 l.
Proof.
  intros Hext. unfold JS.sort. generalize (@nil A) as acc.
  induction l as [| x l IH]; intros acc; cbn; [reflexivity |].
  now rewrite (insert_ext cmp1 cmp2 x acc Hext), IH.
Qed.

Lemma in_firstn {A : Type} (n : nat) (l : list A) (x : A) :
  In x (firstn n l) -> In x l.
Proof.
  intros Hx. rewrite <- (firstn_skipn n l). apply in_or_app. now left.
Qed.

Lemma in_skipn {A : Type} (n : nat) (l : list A) (x : A) :
  In x (skipn n l) -> In x l.
Proof.
  intros Hx. rewrite <- (firstn_skipn n l). apply in_or_app. now right.
Qed.

Lemma sorted_firstn {A : Type} (R : A -> A -> Prop) (l : list A) (n : nat) :
  StronglySorted R l -> StronglySorted R (firstn n l).
Proof.
  intros Hsorted. revert n.
  induction Hsorted as [| a l Hl IH Ha]; intros n.
  - rewrite firstn_nil. constructor.
  - destruct n as [| n]; cbn; constructor; [apply IH |].
    apply Forall_forall. intros x Hx.
    apply (proj1 (Forall_forall _ _) Ha). now apply (in_firstn n).
Qed.

Lemma sorted_split {A : Type} (R : A -> A -> Prop) (l : list A) (n : nat) :
  StronglySorted R l ->
  forall x y, In x (firstn n l) -> In y (skipn n l) -> R x y.
Proof.
  intros Hsorted. revert n.
  induction Hsorted as [| a l Hl IH Ha]; intros n x y Hx Hy.
  - rewrite firstn_nil in Hx. contradiction.
  - destruct n as [| n]; [contradiction |].
    cbn in Hx, Hy. destruct Hx as [<- | Hx].
    + apply (proj1 (Forall_forall _ _) Ha). now apply (in_skipn n).
    + now apply (IH n).
Qed.

Lemma sorted_impl {A : Type} (R S : A -> A -> Prop) (l : list A) :
  (forall a b, R a b -> S a b) -> StronglySorted R l -> StronglySorted S l.
Proof.
  intros Himpl Hsorted. induction Hsorted as [| a l Hl IH Ha];
    constructor; [exact IH |].
  eapply Forall_impl; [| exact Ha]. intros b. apply Himpl.
Qed.

Local Abbreviation when t := (Date_new (Transaction.date t)).

Local Abbreviation negated_time := (negated_time Date_new).

Lemma newest_first_by_negated_time (a b : Transaction.t) :
  JS.before (newest_first Date_new) a b
  = JS.before (by_key negated_time) a b.
Proof.
  unfold JS.before, newest_first, by_key, negated_time, JS.time_diff.
  destruct (when a) as [ta |], (when b) as [tb |]; cbn; try reflexivity.
  destruct (tb - ta <? 0)%Z eqn:Hlt.
  - symmetry. apply Z.ltb_lt in Hlt. apply Z.ltb_lt. lia.
  - symmetry. apply Z.ltb_ge in Hlt. apply Z.ltb_ge. lia.
Qed.

(** X14. [RecentTransactions] shows eight transactions, or all of them if
    there are fewer.  When every date is one that [new Date] reads, the
    transactions shown are in order, newest first, each is one of the
    incomes or expenses given, and every transaction left out is no newer
    than any transaction shown. *)
Theorem recent_transactions_are_the_newest (incomes : list Income.t)
    (expenses : list Expense.t) :
  let all := map transaction_of_income incomes
             ++ map (transaction_of_expense getCategoryName) expenses in
  let recent := recentTransactions Date_new getCategoryName incomes
                  expenses in
  length recent = Nat.min 8 (length incomes + length expenses)
  /\ (forall t, In t recent -> In t all)
  /\ ((forall t, In t all -> exists time, when t = Some time) ->
      StronglySorted (newer_or_same Date_new) recent
      /\ exists older,
           Permutation (recent ++ older) all
           /\ forall t o, In t recent -> In o older ->
                          newer_or_same Date_new t o).
Proof.
  intros all recent. subst recent. unfold recentTransactions. fold all.
  set (sorted := JS.sort (newest_first Date_new) all).
  assert (Hperm : Permutation sorted all) by apply sort_perm.
  splits.
  - rewrite length_firstn, (Permutation_length Hperm). subst all.
    now rewrite length_app, !length_map.
  - intros t Ht. apply (Permutation_in t Hperm).
    now apply (in_firstn 8).
  - intros Hvalid.
    assert (Hsorted : StronglySorted (newer_or_same Date_new) sorted).
    { subst sorted.
      rewrite (sort_ext _ _ all newest_first_by_negated_time).
      apply (sorted_impl (key_le negated_time)).
      - intros a b. unfold key_le, newer_or_same, negated_time, JS.date_le,
          JS.date_ge.
        destruct (when a) as [ta |], (when b) as [tb |]; cbn;
          try discriminate.
        intros Hle. apply Z.leb_le in Hle. apply Z.leb_le. lia.
      - apply sort_sorted. apply Forall_forall. intros t Ht.
        destruct (Hvalid t Ht) as [time Htime].
        exists (- time)%Z. unfold negated_time. now rewrite Htime. }
    split.
    + now apply sorted_firstn.
    + exists (skipn 8 sorted). split.
      * now rewrite firstn_skipn.
      * intros t o. now apply sorted_split.
Qed.

End RecentFacts.

(** ** What the monthly totals count *)

Section PolicyFacts.
Context `{DateFns}.
Variable now : Z.
Local Open Scope float_scope.

Lemma fold_left_skip {A B : Type} (f : B -> A -> B) (x : A)
    (l1 l2 : list A) (b : B) :
  (forall b, f b x = b) ->
  fold_left f (l1 ++ x :: l2) b = fold_left f (l1 ++ l2) b.
Proof.
  intros Hskip. rewrite !fold_left_app. cbn. now rewrite Hskip.
Qed.

(** X15. A recurring expense whose frequency is neither monthly nor yearly
    counts in no month, not even the month of its date: taking it out of
    the array changes neither [calculateMonthlyExpenses] nor
    [calculateCategoryExpenses], whatever the reference date.  Likewise an
    income without a frequency never counts in [calculateMonthlyIncome].
    A recurring monthly expense, on the contrary, counts in full whatever
    its date and the reference date. *)
Theorem monthly_totals_policy :
  (forall (expense : Expense.t) (before after : list Expense.t)
          (date : option JS.Date),
      Expense.isRecurring expense = true ->
      Expense.frequency expense <> Monthly ->
      Expense.frequency expense <> Yearly ->
      calculateMonthlyExpenses now (before ++ expense :: after) date
      = calculateMonthlyExpenses now (before ++ after) date
      /\ forall category,
           calculateCategoryExpenses now (before ++ expense :: after)
             category date
           = calculateCategoryExpenses now (before ++ after) category date)
  /\ (forall (income : Income.t) (before after : list Income.t)
             (date : option JS.Date),
         Income.frequency income = NoFrequency ->
         calculateMonthlyIncome now (before ++ income :: after) date
         = calculateMonthlyIncome now (before ++ after) date)
  /\ (forall (expense : Expense.t) (before : list Expense.t)
             (date : option JS.Date),
         Expense.isRecurring expense = true ->
         Expense.frequency expense = Monthly ->
         calculateMonthlyExpenses now (before ++ [expense]) date
         = calculateMonthlyExpenses now before date + Expense.amount expense).
Proof.
  splits.
  - intros expense before after date Hrec Hm Hy.
    assert (Hstep : forall s e b, expense_step s e b expense = b).
    { intros s e b. unfold expense_step. rewrite Hrec. cbn.
      destruct (Expense.frequency expense); cbn; congruence. }
    split.
    + unfold calculateMonthlyExpenses. apply fold_left_skip. apply Hstep.
    + intros category. unfold calculateCategoryExpenses.
      rewrite !filter_app. cbn [filter].
      destruct (String.eqb (Expense.category expense) category);
        [| reflexivity].
      apply fold_left_skip. apply Hstep.
  - intros income before after date Hfreq.
    unfold calculateMonthlyIncome. apply fold_left_skip.
    intros b. now rewrite Hfreq.
  - intros expense before date Hrec Hfreq.
    unfold calculateMonthlyExpenses. rewrite fold_left_app. cbn.
    unfold expense_step at 1. now rewrite Hrec, Hfreq.
Qed.

End PolicyFacts.

(** ** The reports page *)

Section ReportFacts.
Variable toLowerCase : string -> string.
Local Open Scope float_scope.

(** X16. The reports page has one row per account, in order.  It computes
    the balance of a row as [totalIncome - totalExpense] of the account
    instead of reading [currentBalance]; for an account whose totals are in
    step with the arrays, as after any transaction on it, the two are
    the same number, [monthlySavings] is that number too, [totalIncome] is
    the sum of the account's incomes, and [transactionCount] is the number
    of its incomes and expenses. *)
Theorem report_rows (s : State.t) :
  let rows := bankAccountAnalysis (State.bankAccounts s) (State.incomes s)
                (State.expenses s) in
  map AccountAnalysis.account rows = State.bankAccounts s
  /\ (forall row bankAccountId,
         In row rows ->
         BankAccount.id (AccountAnalysis.account row) = bankAccountId ->
         in_step s bankAccountId ->
         AccountAnalysis.currentBalance row
         = BankAccount.currentBalance (AccountAnalysis.account row)
         /\ AccountAnalysis.monthlySavings row
            = BankAccount.currentBalance (AccountAnalysis.account row)
         /\ AccountAnalysis.totalIncome row
            = sum_amounts Income.amount
                (filter (fun i => String.eqb (Income.bankAccountId i)
                                             bankAccountId)
                        (State.incomes s))
         /\ AccountAnalysis.transactionCount row
            = (length (filter (fun i => String.eqb (Income.bankAccountId i)
                                                   bankAccountId)
                              (State.incomes s))
               + length (filter (fun e =>
                                   String.eqb (Expense.bankAccountId e)
                                              bankAccountId)
                                (State.expenses s)))%nat)
  /\ (forall (c : Command) (w : World) bankAccountId account row,
         recomputed_account (state w) c = Some bankAccountId ->
         JS.find (fun a => String.eqb (BankAccount.id a) bankAccountId)
                 (State.bankAccounts (state w)) = Some account ->
         In row (bankAccountAnalysis
                   (State.bankAccounts (state (run toLowerCase c w)))
                   (State.incomes (state (run toLowerCase c w)))
                   (State.expenses (state (run toLowerCase c w)))) ->
         BankAccount.id (AccountAnalysis.account row) = bankAccountId ->
         AccountAnalysis.currentBalance row
         = BankAccount.currentBalance (AccountAnalysis.account row)).
Proof.
  cbv zeta.
  assert (Hrow : forall s' row bankAccountId,
             In row (bankAccountAnalysis (State.bankAccounts s')
                       (State.incomes s') (State.expenses s')) ->
             BankAccount.id (AccountAnalysis.account row) = bankAccountId ->
             in_step s' bankAccountId ->
             AccountAnalysis.currentBalance row
             = BankAccount.currentBalance (AccountAnalysis.account row)
             /\ AccountAnalysis.monthlySavings row
                = BankAccount.currentBalance (AccountAnalysis.account row)
             /\ AccountAnalysis.totalIncome row
                = sum_amounts Income.amount
                    (filter (fun i => String.eqb (Income.bankAccountId i)
                                                 bankAccountId)
                            (State.incomes s'))
             /\ AccountAnalysis.transactionCount row
                = (length (filter (fun i =>
                                     String.eqb (Income.bankAccountId i)
                                                bankAccountId)
                                  (State.incomes s'))
                   + length (filter (fun e =>
                                       String.eqb (Expense.bankAccountId e)
                                                  bankAccountId)
                                    (State.expenses s')))%nat).
  { intros s' row bankAccountId Hin Hid Hstep.
    unfold bankAccountAnalysis in Hin.
    apply in_map_iff in Hin as [a [<- Ha]]. cbn in Hid |- *.
    destruct (Hstep a Ha Hid) as (Hti & Hte & Hcb).
    rewrite Hid. splits; congruence. }
  splits.
  - unfold bankAccountAnalysis. rewrite map_map. cbn. apply map_id.
  - exact (Hrow s).
  - intros c w bankAccountId account row Hc Hfind Hin Hid.
    pose proof (run_transaction_in_step toLowerCase c w bankAccountId
                  account Hc Hfind) as Hstep.
    now apply (Hrow _ row bankAccountId Hin Hid Hstep).
Qed.

End ReportFacts.

(** ** Adding and deleting *)

Section RoundTripFacts.
Variable toLowerCase : string -> string.

Lemma filter_fresh {A : Type} (id : A -> string) (key : string)
    (l : list A) :
  (forall x, In x l -> id x <> key) ->
  filter (fun x => negb (String.eqb (id x) key)) l = l.
Proof.
  intros Hfresh. induction l as [| x l IH]; cbn; [reflexivity |].
  assert (Hx : String.eqb (id x) key = false)
    by (apply String.eqb_neq, Hfresh; now left).
  rewrite Hx. cbn. f_equal. apply IH. intros y Hy. apply Hfresh. now right.
Qed.

Lemma filter_fresh_app {A : Type} (id : A -> string) (key : string)
    (l : list A) (x : A) :
  (forall y, In y l -> id y <> key) -> id x = key ->
  filter (fun y => negb (String.eqb (id y) key)) (l ++ [x]) = l.
Proof.
  intros Hfresh Hx. rewrite filter_app, (filter_fresh id key l Hfresh).
  cbn. rewrite Hx, String.eqb_refl. cbn. apply app_nil_r.
Qed.

Lemma find_fresh_app {A : Type} (id : A -> string) (key : string)
    (l : list A) (x : A) :
  (forall y, In y l -> id y <> key) -> id x = key ->
  JS.find (fun y => String.eqb (id y) key) (l ++ [x]) = Some x.
Proof.
  intros Hfresh Hx. unfold JS.find.
  induction l as [| y l IH]; cbn.
  - now rewrite Hx, String.eqb_refl.
  - assert (Hy : String.eqb (id y) key = false)
      by (apply String.eqb_neq, Hfresh; now left).
    rewrite Hy. apply IH. intros z Hz. apply Hfresh. now right.
Qed.

Lemma find_fresh {A : Type} (id : A -> string) (key : string) (l : list A) :
  (forall y, In y l -> id y <> key) ->
  JS.find (fun y => String.eqb (id y) key) l = None.
Proof.
  intros Hfresh. unfold JS.find.
  induction l as [| y l IH]; cbn; [reflexivity |].
  assert (Hy : String.eqb (id y) key = false)
    by (apply String.eqb_neq, Hfresh; now left).
  rewrite Hy. apply IH. intros z Hz. apply Hfresh. now right.
Qed.

Lemma addIncome_incomes (cl : State.t) (w : World) (newId uid : string)
    (incomeData : Income.t) :
  State.user cl = Some uid ->
  State.incomes (state (addIncome cl newId incomeData w))
  = State.incomes (state w) ++ [income_with_id incomeData newId uid].
Proof.
  intros Huser. unfold addIncome. rewrite Huser.
  unfold seq, setIncomes, setState.
  cbn [state State.incomes State.set_incomes call]. reflexivity.
Qed.

Lemma deleteIncome_incomes (cl : State.t) (w : World) (incomeId : string) :
  State.incomes (state (deleteIncome cl incomeId w))
  = match JS.find (fun i => String.eqb (Income.id i) incomeId)
                  (State.incomes cl) with
    | Some _ =>
        filter (fun i => negb (String.eqb (Income.id i) incomeId))
               (State.incomes (state w))
    | None => State.incomes (state w)
    end.
Proof.
  unfold deleteIncome. destruct (JS.find _ (State.incomes cl));
    [| reflexivity].
  unfold seq, setIncomes, setState.
  cbn [state State.incomes State.set_incomes call]. reflexivity.
Qed.

Lemma addExpense_expenses (cl : State.t) (w : World) (newId uid : string)
    (expenseData : Expense.t) :
  State.user cl = Some uid ->
  State.expenses (state (addExpense cl newId expenseData w))
  = State.expenses (state w) ++ [expense_with_id expenseData newId uid].
Proof.
  intros Huser. unfold addExpense. rewrite Huser.
  unfold setExpenses, setState.
  cbn [state State.expenses State.set_expenses]. reflexivity.
Qed.

Lemma deleteExpense_expenses (cl : State.t) (w : World)
    (expenseId : string) :
  State.expenses (state (deleteExpense cl expenseId w))
  = filter (fun e => negb (String.eqb (Expense.id e) expenseId))
           (State.expenses (state w)).
Proof.
  unfold deleteExpense, setExpenses, setState.
  cbn [state State.expenses State.set_expenses]. reflexivity.
Qed.

(** X17. Adding under a new id and then deleting that id, each from the
    latest render, gives back the array as it was: this holds of the
    incomes, of the expenses, of the budgets and of the savings goals,
    whether the addition took place or was refused (nobody signed in, or a
    goal of that title already there). *)
Theorem add_then_delete (w : World) (newId : string) :
  (forall incomeData,
      (forall i, In i (State.incomes (state w)) -> Income.id i <> newId) ->
      State.incomes
        (state (run_all toLowerCase
                  [AddIncome newId incomeData; DeleteIncome newId] w))
      = State.incomes (state w))
  /\ (forall expenseData,
         (forall e, In e (State.expenses (state w)) ->
                    Expense.id e <> newId) ->
         State.expenses
           (state (run_all toLowerCase
                     [AddExpense newId expenseData; DeleteExpense newId] w))
         = State.expenses (state w))
  /\ (forall budgetData,
         (forall b, In b (State.budgets (state w)) -> Budget.id b <> newId) ->
         State.budgets
           (state (run_all toLowerCase
                     [AddBudget newId budgetData; DeleteBudget newId] w))
         = State.budgets (state w))
  /\ (forall goalData,
         (forall g, In g (State.savingsGoals (state w)) ->
                    SavingsGoal.id g <> newId) ->
         State.savingsGoals
           (state (run_all toLowerCase
                     [AddSavingsGoal newId goalData;
                      DeleteSavingsGoal newId] w))
         = State.savingsGoals (state w)).
Proof.
  splits.
  - intros incomeData Hfresh. cbn [run_all fold_left run].
    rewrite deleteIncome_incomes.
    destruct (State.user (state w)) as [uid |] eqn:Huser.
    + rewrite (addIncome_incomes _ _ _ uid _ Huser).
      rewrite (find_fresh_app Income.id newId _
                 (income_with_id incomeData newId uid) Hfresh eq_refl).
      apply (filter_fresh_app Income.id); [exact Hfresh | reflexivity].
    + unfold addIncome. rewrite Huser. unfold skip.
      now rewrite (find_fresh Income.id newId _ Hfresh).
  - intros expenseData Hfresh. cbn [run_all fold_left run].
    rewrite deleteExpense_expenses.
    destruct (State.user (state w)) as [uid |] eqn:Huser.
    + rewrite (addExpense_expenses _ _ _ uid _ Huser).
      apply (filter_fresh_app Expense.id); [exact Hfresh | reflexivity].
    + unfold addExpense. rewrite Huser. unfold skip.
      now apply (filter_fresh Expense.id).
  - intros budgetData Hfresh. cbn [run_all fold_left run].
    unfold addBudget, deleteBudget.
    destruct (State.user (state w)) as [uid |];
      cbn [state seq call setBudgets setState skip State.budgets
           State.set_budgets].
    + apply (filter_fresh_app Budget.id); [exact Hfresh | reflexivity].
    + unfold skip. now apply (filter_fresh Budget.id).
  - intros goalData Hfresh. cbn [run_all fold_left run].
    unfold addSavingsGoal.
    destruct (State.user (state w)) as [uid |] eqn:Huser.
    + destruct (JS.find _ (State.savingsGoals (state w))).
      * unfold deleteSavingsGoal. cbn [state call State.user]. rewrite Huser.
        cbn [state seq call setSavingsGoals setState State.savingsGoals
             State.set_savingsGoals].
        now apply (filter_fresh SavingsGoal.id).
      * unfold deleteSavingsGoal.
        cbn [state seq call setSavingsGoals setState State.savingsGoals
             State.set_savingsGoals State.user]. rewrite Huser.
        cbn [state seq call setSavingsGoals setState State.savingsGoals
             State.set_savingsGoals].
        apply (filter_fresh_app SavingsGoal.id);
          [exact Hfresh | reflexivity].
    + unfold skip, deleteSavingsGoal. now rewrite Huser.
Qed.

End RoundTripFacts.

(** ** The two summaries *)

Section SummaryFacts.
Context `{DateFns}.
Variable now : Z.
Local Open Scope float_scope.

(** X18. [calculateFinancialSummary] and
    [calculateFinancialSummaryWithAccount] differ in the income they start
    from and in nothing else: they agree on [totalExpenses],
    [monthlyBudgetUsed], [monthlyBudgetRemaining] and [upcomingBills], and
    on the whole summary when the account's [totalIncome] is the monthly
    income.  With no account, the second reports an income and a savings
    rate of 0.  In both, a budget of yearly period has no part: taking it
    out of the budgets changes nothing. *)
Theorem summaries_agree (incomes : list Income.t) (expenses : list Expense.t)
    (budgets : list Budget.t) (date : option JS.Date) :
  let s := calculateFinancialSummary now incomes expenses budgets date in
  let a account :=
    calculateFinancialSummaryWithAccount now incomes expenses budgets account
      date in
  (forall account,
      FinancialSummary.totalExpenses (a account)
      = FinancialSummary.totalExpenses s
      /\ FinancialSummary.monthlyBudgetUsed (a account)
         = FinancialSummary.monthlyBudgetUsed s
      /\ FinancialSummary.monthlyBudgetRemaining (a account)
         = FinancialSummary.monthlyBudgetRemaining s
      /\ FinancialSummary.upcomingBills (a account)
         = FinancialSummary.upcomingBills s)
  /\ (forall account,
         BankAccount.totalIncome account
         = calculateMonthlyIncome now incomes date ->
         a (Some account) = s)
  /\ (FinancialSummary.totalIncome (a None) = 0
      /\ FinancialSummary.savingsRate (a None) = 0
      /\ FinancialSummary.savings (a None)
         = 0 - calculateMonthlyExpenses now expenses date)
  /\ (forall budget before after account,
         budgets = before ++ budget :: after ->
         Budget.period budget = PYearly ->
         calculateFinancialSummaryWithAccount now incomes expenses
           (before ++ after) account date = a account
         /\ calculateFinancialSummary now incomes expenses (before ++ after)
              date = s).
Proof.
  cbv zeta. splits.
  - intros account. repeat split.
  - intros account Hincome.
    unfold calculateFinancialSummaryWithAccount, calculateFinancialSummary.
    now rewrite Hincome.
  - reflexivity.
  - reflexivity.
  - reflexivity.
  - intros budget before after account -> Hperiod.
    assert (Hbudget : monthlyBudgetOf (before ++ budget :: after)
                      = monthlyBudgetOf (before ++ after)).
    { unfold monthlyBudgetOf. rewrite !filter_app. cbn [filter].
      now rewrite Hperiod. }
    unfold calculateFinancialSummaryWithAccount, calculateFinancialSummary.
    now rewrite Hbudget.
Qed.

End SummaryFacts.

(** ** The effect of a new selection *)

Section SelectionFacts.
Local Open Scope float_scope.
Variable toLowerCase : string -> string.

Lemma forEach_call {A : Type} (f : A -> Effect) (l : list A) (w : World) :
  forEach (fun x => call (f x)) l w
  = mkWorld (state w) (effects w ++ map f l).
Proof.
  revert w. induction l as [| x l IH]; intros w; cbn [forEach map].
  - unfold skip. rewrite app_nil_r. now destruct w.
  - unfold seq. rewrite IH. unfold call. cbn [state effects].
    now rewrite <- app_assoc.
Qed.

(** X19. In the effect that runs when the selected account has changed,
    with a user signed in, the goals read from storage never reach the
    state: [updateAllAutoTrackedSavings], called last, writes back the goals
    of the render.  Afterwards the goals are those of the render, every one
    with [autoTrackedAmount = Math.max(0, totalIncome - totalExpense)] of
    the selected account, and each of them has been saved to storage, after
    whatever the removal of duplicates did; the incomes and the budgets are
    the ones read; the state is the same whatever goals storage held. *)
Theorem selection_effect_keeps_render_goals (cl : State.t) (w : World)
    (selected : BankAccount.t) (uid : string)
    (storedIncomes : list Income.t) (storedBudgets : list Budget.t)
    (storedGoals : list SavingsGoal.t) :
  State.selectedBankAccount cl = Some selected ->
  State.user cl = Some uid ->
  let w' := selectedAccountEffect toLowerCase cl storedIncomes storedBudgets
              storedGoals w in
  let updatedGoals :=
    map (fun goal =>
           SavingsGoal.with_auto goal
             (JS.Math_max 0 (BankAccount.totalIncome selected
                             - BankAccount.totalExpense selected)))
        (State.savingsGoals cl) in
  State.savingsGoals (state w') = updatedGoals
  /\ State.incomes (state w') = storedIncomes
  /\ State.budgets (state w') = storedBudgets
  /\ (State.bankAccounts (state w') = State.bankAccounts (state w)
      /\ State.selectedBankAccount (state w')
         = State.selectedBankAccount (state w)
      /\ State.expenses (state w') = State.expenses (state w))
  /\ (forall otherGoals,
         state (selectedAccountEffect toLowerCase cl storedIncomes
                  storedBudgets otherGoals w)
         = state w')
  /\ (exists cleanup,
         effects w'
         = effects w ++ cleanup ++ map saveSavingsGoalToStorage updatedGoals).
Proof.
  intros Hsel Huser w' updatedGoals.
  assert (Hshape : forall goals,
             exists cleanup,
               selectedAccountEffect toLowerCase cl storedIncomes
                 storedBudgets goals w
               = mkWorld
                   (State.set_savingsGoals updatedGoals
                      (State.set_budgets storedBudgets
                         (State.set_incomes storedIncomes (state w))))
                   (effects w ++ cleanup
                    ++ map saveSavingsGoalToStorage updatedGoals)).
  { intros goals. unfold selectedAccountEffect. rewrite Hsel, Huser.
    destruct (removeDuplicateGoals_ok toLowerCase cl goals (fun _ => True))
      as [_ Hdone]; [apply Forall_forall; trivial |].
    destruct (removeDuplicateGoals toLowerCase cl goals) as [dedup done].
    cbn [snd] in Hdone.
    unfold updateAllAutoTrackedSavings. rewrite Hsel. unfold seq.
    rewrite forEach_call.
    match goal with
    | |- context [done ?w1] => destruct (Hdone w1) as [Hstate [es Hes]]
    end.
    exists es. unfold setSavingsGoals, setState. cbn [state effects].
    rewrite Hstate, Hes. unfold setBudgets, setIncomes, setState, skip.
    cbn [state effects]. fold updatedGoals. now rewrite <- app_assoc. }
  destruct (Hshape storedGoals) as [cleanup Hw]. subst w'. rewrite Hw.
  cbn [state effects]. splits; try reflexivity.
  - intros otherGoals. destruct (Hshape otherGoals) as [cleanup' ->].
    reflexivity.
  - now exists cleanup.
Qed.

End SelectionFacts.

(** ** The dashboard *)

Section DashboardFacts.
Local Open Scope float_scope.
Context `{DateFns}.
Variable now : Z.

Lemma filter_none {A : Type} (f : A -> bool) (l : list A) :
  (forall a, In a l -> f a = false) -> filter f l = [].
Proof.
  induction l as [| a l IH]; intros Hall; cbn; [reflexivity |].
  rewrite (Hall a (or_introl eq_refl)). apply IH.
  intros b Hb. apply Hall. now right.
Qed.

(** X20. The summary on the dashboard does not read the incomes: its income
    is the [totalIncome] held by the selected account, and 0 when none is
    selected.  Its expenses are the month's expenses of the selected account
    only, an expense of another account having no part, and those of all
    the expenses in the state when no account is selected.  So once the
    only account has been deleted while selected, the dashboard reports an
    income of 0 against the month's expenses still in the state, which are
    those of the deleted account. *)
Theorem dashboard_summary_reads :
  (forall s incomes',
      Dashboard.summary now (State.set_incomes incomes' s)
      = Dashboard.summary now s)
  /\ (forall s selected,
         State.selectedBankAccount s = Some selected ->
         FinancialSummary.totalIncome (Dashboard.summary now s)
         = BankAccount.totalIncome selected
         /\ FinancialSummary.totalExpenses (Dashboard.summary now s)
            = calculateMonthlyExpenses now
                (filter (fun e => String.eqb (Expense.bankAccountId e)
                                             (BankAccount.id selected))
                        (State.expenses s))
                None
         /\ forall before e after,
              State.expenses s = before ++ e :: after ->
              Expense.bankAccountId e <> BankAccount.id selected ->
              Dashboard.summary now (State.set_expenses (before ++ after) s)
              = Dashboard.summary now s)
  /\ (forall s,
         State.selectedBankAccount s = None ->
         FinancialSummary.totalIncome (Dashboard.summary now s) = 0
         /\ FinancialSummary.totalExpenses (Dashboard.summary now s)
            = calculateMonthlyExpenses now (State.expenses s) None)
  /\ (forall (w : World) uid accountId,
         State.user (state w) = Some uid ->
         selected_is (state w) accountId = true ->
         (forall a, In a (State.bankAccounts (state w)) ->
                    BankAccount.id a = accountId) ->
         let s' := state (deleteBankAccount (state w) accountId w) in
         FinancialSummary.totalIncome (Dashboard.summary now s') = 0
         /\ FinancialSummary.totalExpenses (Dashboard.summary now s')
            = calculateMonthlyExpenses now (State.expenses (state w)) None).
Proof.
  splits.
  - intros s incomes'.
    unfold Dashboard.summary, Dashboard.filteredExpenses,
      calculateFinancialSummaryWithAccount.
    reflexivity.
  - intros s selected Hsel.
    unfold Dashboard.summary, Dashboard.filteredExpenses,
      Dashboard.filteredIncomes, calculateFinancialSummaryWithAccount.
    cbn [State.selectedBankAccount State.set_expenses State.expenses
         State.budgets State.incomes FinancialSummary.totalIncome
         FinancialSummary.totalExpenses].
    rewrite Hsel. splits; try reflexivity.
    intros before e after Hexpenses Hother. rewrite Hexpenses.
    rewrite !filter_app. cbn [filter].
    apply String.eqb_neq in Hother. rewrite Hother. reflexivity.
  - intros s Hsel.
    unfold Dashboard.summary, Dashboard.filteredExpenses,
      calculateFinancialSummaryWithAccount.
    cbn [FinancialSummary.totalIncome FinancialSummary.totalExpenses].
    rewrite Hsel. split; reflexivity.
  - intros w uid accountId Huser Hselected Hall s'.
    assert (Hstate : s' = State.set_selectedBankAccount None
                            (State.set_bankAccounts [] (state w))).
    { subst s'. unfold deleteBankAccount. rewrite Huser, Hselected.
      unfold seq, setBankAccounts, setSelectedBankAccount, setState, call.
      cbn [state].
      rewrite !filter_none
        by (intros a Ha; rewrite (Hall a Ha), String.eqb_refl; reflexivity).
      reflexivity. }
    rewrite Hstate.
    unfold Dashboard.summary, Dashboard.filteredExpenses,
      calculateFinancialSummaryWithAccount.
    cbn [State.selectedBankAccount State.set_selectedBankAccount
         State.set_bankAccounts State.expenses
         FinancialSummary.totalIncome FinancialSummary.totalExpenses].
    split; reflexivity.
Qed.

End DashboardFacts.

(** ** Concrete runs of the further properties *)

Section FurtherRuns.
Local Open Scope float_scope.
Local Open Scope string_scope.

Local Abbreviation lower := JS.toLowerCase_ascii.
Local Abbreviation has_id id := (fun a => String.eqb (BankAccount.id a) id).

(** A 500 expense on the account opened with 1000. *)
Lemma transactions_keep_totals_in_step_witness :
  recomputed_account (state Sample.with_account) (AddExpense "e9" Sample.lunch)
  = Some "acc1"
  /\ JS.find (has_id "acc1") (State.bankAccounts (state Sample.with_account))
     = Some Ledger.acc1
  /\ in_step (state (Sample.run (AddExpense "e9" Sample.lunch)
                       Sample.with_account)) "acc1".
Proof.
  assert (H1 : recomputed_account (state Sample.with_account)
                 (AddExpense "e9" Sample.lunch) = Some "acc1")
    by (vm_compute; reflexivity).
  assert (H2 : JS.find (has_id "acc1")
                 (State.bankAccounts (state Sample.with_account))
               = Some Ledger.acc1)
    by (vm_compute; reflexivity).
  splits; [exact H1 | exact H2 |].
  exact (proj1 (transactions_keep_totals_in_step lower _ _ _ _ H1 H2)).
Defined.

(** An expense on the second account leaves the first as it was. *)
Lemma transactions_touch_one_account_witness :
  is_transaction (AddExpense "e10" Ledger.taxi) = true
  /\ nth_error (State.bankAccounts (state Ledger.two_accounts)) 0
     = Some Ledger.acc1
  /\ recomputed_account (state Ledger.two_accounts)
       (AddExpense "e10" Ledger.taxi) = Some "acc2"
  /\ nth_error
       (State.bankAccounts
          (state (Ledger.run (AddExpense "e10" Ledger.taxi)
                    Ledger.two_accounts))) 0
     = Some Ledger.acc1.
Proof.
  assert (H1 : is_transaction (AddExpense "e10" Ledger.taxi) = true)
    by reflexivity.
  assert (H2 : nth_error (State.bankAccounts (state Ledger.two_accounts)) 0
               = Some Ledger.acc1)
    by (vm_compute; reflexivity).
  assert (H3 : recomputed_account (state Ledger.two_accounts)
                 (AddExpense "e10" Ledger.taxi)
               <> Some (BankAccount.id Ledger.acc1))
    by (vm_compute; discriminate).
  splits; [exact H1 | exact H2 | vm_compute; reflexivity |].
  exact (proj1 (transactions_touch_one_account lower _ _ _ _ H1 H2 H3)).
Defined.

(** An income for an account that does not exist. *)
Lemma transaction_for_unknown_account_witness :
  recomputed_account (state Sample.with_account)
    (AddIncome "i9" Ledger.ghost_income) = Some "ghost"
  /\ JS.find (has_id "ghost") (State.bankAccounts (state Sample.with_account))
     = None
  /\ State.bankAccounts
       (state (Sample.run (AddIncome "i9" Ledger.ghost_income)
                 Sample.with_account))
     = State.bankAccounts (state Sample.with_account)
  /\ length (State.incomes
               (state (Sample.run (AddIncome "i9" Ledger.ghost_income)
                         Sample.with_account)))
     = 2%nat.
Proof.
  assert (H1 : recomputed_account (state Sample.with_account)
                 (AddIncome "i9" Ledger.ghost_income) = Some "ghost")
    by (vm_compute; reflexivity).
  assert (H2 : JS.find (has_id "ghost")
                 (State.bankAccounts (state Sample.with_account)) = None)
    by (vm_compute; reflexivity).
  pose proof (transaction_for_unknown_account lower _ _ _ H1 H2) as H.
  cbv zeta in H. destruct H as ((Haccounts & _) & _ & Hadd & _).
  splits; [exact H1 | exact H2 | exact Haccounts |].
  change (Sample.run (AddIncome "i9" Ledger.ghost_income) Sample.with_account)
    with (run lower (AddIncome "i9" Ledger.ghost_income) Sample.with_account).
  rewrite (proj1 (Hadd "i9" Ledger.ghost_income "u1" eq_refl eq_refl)).
  vm_compute. reflexivity.
Defined.


(** Goals of different keys are all kept; of two goals titled alike the
    second is dropped, with a warning and a deletion. *)
Lemma removeDuplicateGoals_keeps_first_witness :
  let cl := state Sample.with_account in
  fst (removeDuplicateGoals lower cl [Ledger.vacation; Ledger.car])
  = [Ledger.vacation; Ledger.car]
  /\ length
       (effects
          (snd (removeDuplicateGoals lower cl
                  [Ledger.vacation; Ledger.vacation_again; Ledger.car])
               Sample.with_account))
     = (length (effects Sample.with_account) + 2)%nat.
Proof.
  cbv zeta. split.
  - pose proof (removeDuplicateGoals_keeps_first lower
                  (state Sample.with_account) [Ledger.vacation; Ledger.car])
      as H.
    cbv zeta in H. destruct H as (_ & _ & _ & _ & H & _).
    apply H. vm_compute.
    constructor; [intros [H1 | []]; discriminate |].
    constructor; [intros [] | constructor].
  - pose proof (removeDuplicateGoals_keeps_first lower
                  (state Sample.with_account)
                  [Ledger.vacation; Ledger.vacation_again; Ledger.car])
      as H.
    cbv zeta in H. destruct H as (_ & _ & _ & _ & _ & _ & H).
    rewrite (H "u1" Sample.with_account eq_refl). vm_compute. reflexivity.
Defined.

(** Deleting the only account. *)
Lemma deleteBankAccount_removes_witness :
  let w' := Sample.run (DeleteBankAccount "acc1") Sample.with_expense in
  State.user (state Sample.with_expense) = Some "u1"
  /\ State.bankAccounts (state w') = []
  /\ State.selectedBankAccount (state w') = None
  /\ length (State.expenses (state w')) = 1%nat.
Proof.
  cbv zeta.
  assert (H1 : State.user (state Sample.with_expense) = Some "u1")
    by reflexivity.
  pose proof (deleteBankAccount_removes lower Sample.with_expense "acc1" "u1"
                H1) as H.
  cbv zeta in H.
  destruct H as (Haccounts & _ & Hselected & _ & (_ & Hexpenses & _) & _).
  splits; [exact H1 | | |].
  - change (Sample.run (DeleteBankAccount "acc1") Sample.with_expense)
      with (run lower (DeleteBankAccount "acc1") Sample.with_expense).
    rewrite Haccounts. vm_compute. reflexivity.
  - change (Sample.run (DeleteBankAccount "acc1") Sample.with_expense)
      with (run lower (DeleteBankAccount "acc1") Sample.with_expense).
    rewrite Hselected. vm_compute. reflexivity.
  - change (Sample.run (DeleteBankAccount "acc1") Sample.with_expense)
      with (run lower (DeleteBankAccount "acc1") Sample.with_expense).
    rewrite Hexpenses. vm_compute. reflexivity.
Defined.

(** Signed out, [addIncome] does nothing and [updateBudget] still saves. *)
Lemma signed_out_operations_witness :
  State.user (state Ledger.signed_out) = None
  /\ Sample.run (AddIncome "i9" Sample.salary) Ledger.signed_out
     = Ledger.signed_out
  /\ effects (Sample.run (UpdateBudget (Sample.budget "food" 1000))
                Ledger.signed_out)
     = [saveBudgetToStorage (Sample.budget "food" 1000)].
Proof.
  assert (H1 : State.user (state Ledger.signed_out) = None) by reflexivity.
  destruct (signed_out_operations lower Ledger.signed_out H1)
    as (Hguarded & _ & Hbudget & _).
  splits; [exact H1 | |].
  - exact (Hguarded (AddIncome "i9" Sample.salary) eq_refl).
  - exact (Hbudget (Sample.budget "food" 1000)).
Defined.

(** 6000 spent against a budget of 0 is "On Track" at a threshold of 80. *)
Lemma budget_status_witness :
  JS.gt (Budget.budgetAmount (Sample.budget "food" 0)) 0 = false
  /\ Status.label
       (getStatus
          (calculateBudgetProgress Sample.mid_march
             [Sample.groceries; Sample.dinner] (Sample.budget "food" 0) None)
          80)
     = "On Track"
  /\ Status.label (getStatus 85 80) = "Almost There".
Proof.
  assert (H1 : JS.gt (Budget.budgetAmount (Sample.budget "food" 0)) 0 = false)
    by (vm_compute; reflexivity).
  splits; [exact H1 | |].
  - pose proof (budget_status 0 80) as H. cbv zeta in H.
    destruct H as (_ & _ & _ & _ & H).
    rewrite (H Sample.mid_march [Sample.groceries; Sample.dinner]
               (Sample.budget "food" 0) None H1).
    vm_compute. reflexivity.
  - pose proof (budget_status 85 80) as H. cbv zeta in H.
    destruct H as (_ & (_ & H) & _).
    apply H. vm_compute. split; reflexivity.
Defined.

(** 850 spent on food in March against 1000: the page shows 85, and 0 for a
    budget that the record does not hold. *)
Lemma budget_progress_record_witness :
  let progress :=
    updateAllBudgetProgress Sample.mid_march [Sample.budget "food" 1000]
      [Sample.lunch; Sample.snacks] None in
  inherited (Budget.id (Sample.budget "food" 1000)) = false
  /\ shown_progress progress (Sample.budget "food" 1000) = 85
  /\ inherited (Budget.id Ledger.yearly_budget) = false
  /\ shown_progress progress Ledger.yearly_budget = 0.
Proof.
  cbv zeta.
  assert (Hplain : forall budget,
             In budget [Sample.budget "food" 1000] ->
             inherited (Budget.id budget) = false)
    by (intros budget [<- | []]; reflexivity).
  pose proof (budget_progress_record Sample.mid_march
                [Sample.budget "food" 1000] [Sample.lunch; Sample.snacks]
                None Hplain) as H.
  cbv zeta in H. destruct H as (_ & Hin & Hout).
  splits; [reflexivity | | reflexivity |].
  - rewrite (Hin (Sample.budget "food" 1000)).
    + vm_compute. reflexivity.
    + left. reflexivity.
    + vm_compute. constructor; [intros [] | constructor].
  - apply Hout; [reflexivity |].
    vm_compute. intros [Heq | []]. discriminate.
Defined.

(** With 1000 in and 250 out on the selected account, the hook publishes
    750, and that is what [updateAllAutoTrackedSavings] gives every goal. *)
Lemma current_monthly_savings_is_written_witness :
  let w := Sample.run (AddSavingsGoal "g1" (Sample.goal "Trip" None None))
             Sample.with_expense in
  getCurrentMonthlySavings (state w) = 750
  /\ length (State.savingsGoals (state w)) = 1%nat
  /\ Forall (fun g => SavingsGoal.autoTrackedAmount g = Some 750)
            (State.savingsGoals
               (state (updateAllAutoTrackedSavings (state w) w))).
Proof.
  cbv zeta. splits; [vm_compute; reflexivity | vm_compute; reflexivity |].
  apply Forall_forall. intros g Hin.
  pose proof (current_monthly_savings_is_written lower
                (state (Sample.run
                          (AddSavingsGoal "g1" (Sample.goal "Trip" None None))
                          Sample.with_expense))
                (Sample.run
                   (AddSavingsGoal "g1" (Sample.goal "Trip" None None))
                   Sample.with_expense)) as (_ & H & _).
  rewrite (H (BankAccount.mk "acc1" "u1" "hdfc" "hdfc" None
                "2024-03-01T00:00:00.000Z" 1000 1000 250 750) g);
    [vm_compute; reflexivity | vm_compute; reflexivity | exact Hin].
Defined.

(** One income and two expenses, with [new Date] reading ISO dates as UTC:
    the three are shown, the newest first. *)
Lemma recent_transactions_are_the_newest_witness :
  let recent := recentTransactions UTC.parseISO Ledger.category_name
                  [Sample.salary] [Sample.lunch; Sample.snacks] in
  StronglySorted (newer_or_same UTC.parseISO) recent
  /\ map Transaction.id recent = ["e6"; "e5"; "i1"].
Proof.
  cbv zeta. split; [| vm_compute; reflexivity].
  pose proof (recent_transactions_are_the_newest UTC.parseISO
                Ledger.category_name [Sample.salary]
                [Sample.lunch; Sample.snacks]) as H.
  cbv zeta in H. destruct H as (_ & _ & H).
  apply H.
  intros t [<- | [<- | [<- | []]]]; eexists; vm_compute; reflexivity.
Defined.

(** A recurring expense marked one-time, dated in the month, is not
    counted; a recurring monthly expense dated in January is. *)
Lemma monthly_totals_policy_witness :
  Expense.isRecurring Ledger.odd_bill = true
  /\ Expense.frequency Ledger.odd_bill = OneTime
  /\ calculateMonthlyExpenses Sample.mid_march
       [Sample.lunch; Ledger.odd_bill] None
     = 500
  /\ Expense.frequency Sample.subscription = Monthly
  /\ calculateMonthlyExpenses Sample.mid_march
       [Sample.lunch; Sample.subscription] None
     = 550.
Proof.
  destruct (monthly_totals_policy Sample.mid_march) as (Hout & _ & Hin).
  splits; [reflexivity | reflexivity | | reflexivity |].
  - transitivity (calculateMonthlyExpenses Sample.mid_march
                    ([Sample.lunch] ++ []) None);
      [| vm_compute; reflexivity].
    exact (proj1 (Hout Ledger.odd_bill [Sample.lunch] [] None eq_refl
                    ltac:(discriminate) ltac:(discriminate))).
  - transitivity (calculateMonthlyExpenses Sample.mid_march [Sample.lunch]
                    None + Expense.amount Sample.subscription);
      [| vm_compute; reflexivity].
    exact (Hin Sample.subscription [Sample.lunch] None eq_refl eq_refl).
Defined.

(** After a 250 expense on the account opened with 1000, the row of the
    account shows the balance that the account holds. *)
Lemma report_rows_witness :
  let c := AddExpense "e9" (Sample.expense "" "food" 250 "2024-03-03") in
  let s := state (run lower c Sample.with_account) in
  let row :=
    AccountAnalysis.mk
      (BankAccount.mk "acc1" "u1" "hdfc" "hdfc" None
         "2024-03-01T00:00:00.000Z" 1000 1000 250 750)
      1000 1000 1000 250 750 750 75 2 in
  recomputed_account (state Sample.with_account) c = Some "acc1"
  /\ JS.find (has_id "acc1") (State.bankAccounts (state Sample.with_account))
     = Some Ledger.acc1
  /\ In row (bankAccountAnalysis (State.bankAccounts s) (State.incomes s)
               (State.expenses s))
  /\ AccountAnalysis.currentBalance row
     = BankAccount.currentBalance (AccountAnalysis.account row).
Proof.
  cbv zeta.
  assert (H1 : recomputed_account (state Sample.with_account)
                 (AddExpense "e9" (Sample.expense "" "food" 250
                                     "2024-03-03"))
               = Some "acc1")
    by (vm_compute; reflexivity).
  assert (H2 : JS.find (has_id "acc1")
                 (State.bankAccounts (state Sample.with_account))
               = Some Ledger.acc1)
    by (vm_compute; reflexivity).
  assert (H3 : In (AccountAnalysis.mk
                     (BankAccount.mk "acc1" "u1" "hdfc" "hdfc" None
                        "2024-03-01T00:00:00.000Z" 1000 1000 250 750)
                     1000 1000 1000 250 750 750 75 2)
                  (bankAccountAnalysis
                     (State.bankAccounts
                        (state (run lower
                                  (AddExpense "e9"
                                     (Sample.expense "" "food" 250
                                        "2024-03-03"))
                                  Sample.with_account)))
                     (State.incomes
                        (state (run lower
                                  (AddExpense "e9"
                                     (Sample.expense "" "food" 250
                                        "2024-03-03"))
                                  Sample.with_account)))
                     (State.expenses
                        (state (run lower
                                  (AddExpense "e9"
                                     (Sample.expense "" "food" 250
                                        "2024-03-03"))
                                  Sample.with_account)))))
    by (vm_compute; left; reflexivity).
  splits; [exact H1 | exact H2 | exact H3 |].
  exact (proj2 (proj2 (report_rows lower (state Sample.with_account)))
           _ _ _ _ _ H1 H2 H3 eq_refl).
Defined.

(** An income added under a fresh id and deleted again. *)
Lemma add_then_delete_witness :
  State.incomes
    (state (Sample.run_all [AddIncome "i9" Sample.salary; DeleteIncome "i9"]
              Sample.with_account))
  = State.incomes (state Sample.with_account)
  /\ map Income.id (State.incomes (state Sample.with_account)) = ["i0"].
Proof.
  split; [| vm_compute; reflexivity].
  apply (proj1 (add_then_delete lower Sample.with_account "i9")).
  assert (Hids : map Income.id (State.incomes (state Sample.with_account))
                 = ["i0"])
    by (vm_compute; reflexivity).
  intros i Hin Hnew. apply (in_map Income.id) in Hin.
  rewrite Hids, Hnew in Hin. destruct Hin as [Hin | []]. discriminate.
Defined.

(** A yearly budget of 12000 changes nothing in the summary. *)
Lemma summaries_agree_witness :
  Budget.period Ledger.yearly_budget = PYearly
  /\ calculateFinancialSummary Sample.mid_march [Sample.salary]
       [Sample.lunch] [Sample.budget "food" 1000] None
     = calculateFinancialSummary Sample.mid_march [Sample.salary]
         [Sample.lunch] [Sample.budget "food" 1000; Ledger.yearly_budget]
         None
  /\ FinancialSummary.monthlyBudgetRemaining
       (calculateFinancialSummary Sample.mid_march [Sample.salary]
          [Sample.lunch] [Sample.budget "food" 1000; Ledger.yearly_budget]
          None)
     = 500.
Proof.
  splits; [reflexivity | | vm_compute; reflexivity].
  pose proof (summaries_agree Sample.mid_march [Sample.salary] [Sample.lunch]
                [Sample.budget "food" 1000; Ledger.yearly_budget] None) as H.
  cbv zeta in H. destruct H as (_ & _ & _ & H).
  exact (proj2 (H Ledger.yearly_budget [Sample.budget "food" 1000] [] None
                  eq_refl eq_refl)).
Defined.

(** A goal that only storage holds is not shown after the effect: the goal
    of the render is, with the 750 of the account. *)
Lemma selection_effect_keeps_render_goals_witness :
  let w := Sample.run (AddSavingsGoal "g1" (Sample.goal "Trip" None None))
             Sample.with_expense in
  State.selectedBankAccount (state w)
  = Some (BankAccount.mk "acc1" "u1" "hdfc" "hdfc" None
            "2024-03-01T00:00:00.000Z" 1000 1000 250 750)
  /\ State.user (state w) = Some "u1"
  /\ map (fun g => (SavingsGoal.id g, SavingsGoal.autoTrackedAmount g))
         (State.savingsGoals
            (state (selectedAccountEffect lower (state w) [] [] [Ledger.car]
                      w)))
     = [("g1", Some 750)].
Proof.
  cbv zeta.
  assert (H1 : State.selectedBankAccount
                 (state (Sample.run
                           (AddSavingsGoal "g1"
                              (Sample.goal "Trip" None None))
                           Sample.with_expense))
               = Some (BankAccount.mk "acc1" "u1" "hdfc" "hdfc" None
                         "2024-03-01T00:00:00.000Z" 1000 1000 250 750))
    by (vm_compute; reflexivity).
  assert (H2 : State.user
                 (state (Sample.run
                           (AddSavingsGoal "g1"
                              (Sample.goal "Trip" None None))
                           Sample.with_expense))
               = Some "u1")
    by reflexivity.
  splits; [exact H1 | exact H2 |].
  pose proof (selection_effect_keeps_render_goals lower _
                (Sample.run
                   (AddSavingsGoal "g1" (Sample.goal "Trip" None None))
                   Sample.with_expense)
                _ _ [] [] [Ledger.car] H1 H2) as H.
  cbv zeta in H. rewrite (proj1 H). vm_compute. reflexivity.
Defined.

(** The only account, with a 250 expense on it, is deleted: the dashboard
    reports an income of 0 and expenses of 250. *)
Lemma dashboard_summary_reads_witness :
  let s' := state (deleteBankAccount (state Sample.with_expense) "acc1"
                     Sample.with_expense) in
  State.user (state Sample.with_expense) = Some "u1"
  /\ selected_is (state Sample.with_expense) "acc1" = true
  /\ map BankAccount.id (State.bankAccounts (state Sample.with_expense))
     = ["acc1"]
  /\ FinancialSummary.totalIncome (Dashboard.summary Sample.mid_march s') = 0
  /\ FinancialSummary.totalExpenses (Dashboard.summary Sample.mid_march s')
     = 250.
Proof.
  cbv zeta.
  assert (H1 : State.user (state Sample.with_expense) = Some "u1")
    by reflexivity.
  assert (H2 : selected_is (state Sample.with_expense) "acc1" = true)
    by (vm_compute; reflexivity).
  assert (H3 : forall a,
             In a (State.bankAccounts (state Sample.with_expense)) ->
             BankAccount.id a = "acc1").
  { assert (Hids : map BankAccount.id
                     (State.bankAccounts (state Sample.with_expense))
                   = ["acc1"])
      by (vm_compute; reflexivity).
    intros a Ha. apply (in_map BankAccount.id) in Ha. rewrite Hids in Ha.
    destruct Ha as [Ha | []]. symmetry. exact Ha. }
  destruct (dashboard_summary_reads Sample.mid_march) as (_ & _ & _ & H).
  specialize (H Sample.with_expense "u1" "acc1" H1 H2 H3). cbv zeta in H.
  destruct H as [Hincome Hexpenses].
  splits; [exact H1 | exact H2 | vm_compute; reflexivity | exact Hincome |].
  rewrite Hexpenses. vm_compute. reflexivity.
Defined.

End FurtherRuns.
